(** * Filament profile generator (profile_generator.py): a shallow embedding

    The development follows the layout of the Python module:

    - Python values: exceptions, numbers ([int] and [float]), comparison,
      [min] / [max], [int()] and [float()];
    - [clamp];
    - strings: [lower], [in], [strip], [int(str)];
    - [parse_temp_hint];
    - [MaterialPreset], the catalogue [MATERIALS], the two generators
      [ai_generate_material_preset] and [ollama_generate_material];
    - [ai_tune_filament] and [build_filament_profile];
    - the theorems.

    Modelling conventions.

    - A Python [int] is a [Z].  A Python [float] is the rational it denotes,
      or an infinity, or NaN.  Comparisons, [min], [max] and truncation,
      which is all the clamping code applies to a float, do not round; where
      a decimal literal of the source ([0.9], [0.02]) is only compared with
      or handed on, it is read as the decimal fraction it spells.
    - Where the source computes with floats, the arithmetic is that of
      binary64.  The tuning engine subtracts and multiplies floats and
      rounds to three decimals: [binary64] gives the double nearest to a
      rational, every operation of the engine is the exact one rounded by
      it, and an [int] that meets a float is converted by [float_of_int],
      which raises [OverflowError] beyond the range of a double.
      [int(sum(nums[:2]) / 2)] in [parse_temp_hint] turns an integer of
      unbounded size into a float; that division is modelled with the 53-bit
      significand and the range of binary64.  The one other subtraction,
      [fan_speed - 20] in the LLM generator, has its float operand in
      [0, 100], where the difference is exact or negative, and [max(0, ...)]
      follows.
    - A [str] is the sequence of its UTF-8 bytes.  [lower], [strip] and
      [int(str)] act on ASCII letters, ASCII white space and ASCII digits;
      [int(str)] strips what [strip] strips and converts a numeral of any
      length.
    - [json.loads] and the chat request are parameters; [json.loads]
      decodes a text, raises [json.JSONDecodeError], or raises another
      exception.
    - An exception is a value of [exn]; code that may raise returns a
      [result]. *)

From stdpp Require Import base option list gmap strings.
From Stdlib Require Import ZArith QArith Qround Qabs Qpower Lia Lqa Ascii String.
From Stdlib Require Import DecimalString.
From Stdlib Require Import DecimalPos DecimalZ.

#[local] Set Warnings "-register-all".
#[local] Open Scope Z_scope.

(** ** Exceptions *)

Inductive exn :=
  | ValueError
  | OverflowError
  | TypeError
  | AttributeError
  | RecursionError
  | RuntimeError (msg : string).

Inductive result (A : Type) :=
  | Ok (a : A)
  | Raise (e : exn).
Arguments Ok {A} a.
Arguments Raise {A} e.

#[global] Instance result_ret : MRet result := fun A a => Ok a.

#[global] Instance result_bind : MBind result := fun A B k r =>
  match r with
  | Ok a => k a
  | Raise e => Raise e
  end.

(** ** Numbers *)

Inductive float :=
  | FFin (q : Q)
  | FInf (negative : bool)
  | FNaN.

Inductive number :=
  | NInt (z : Z)
  | NFloat (f : float).

Definition Qltb (x y : Q) : bool := negb (Qle_bool y x).

(** [a < b] on floats; every comparison with NaN is false. *)
Definition float_ltb (a b : float) : bool :=
  match a, b with
  | FNaN, _ | _, FNaN => false
  | FInf true, FInf true => false
  | FInf true, _ => true
  | _, FInf true => false
  | FInf false, _ => false
  | _, FInf false => true
  | FFin x, FFin y => Qltb x y
  end.

(** [a <= b] on floats. *)
Definition float_leb (a b : float) : bool :=
  match a, b with
  | FNaN, _ | _, FNaN => false
  | FInf true, _ => true
  | _, FInf true => false
  | _, FInf false => true
  | FInf false, _ => false
  | FFin x, FFin y => Qle_bool x y
  end.

(** [a == b] on floats. *)
Definition float_eqb (a b : float) : bool :=
  match a, b with
  | FFin x, FFin y => Qeq_bool x y
  | FInf s, FInf t => Bool.eqb s t
  | _, _ => false
  end.

(** Python compares an [int] with a [float] by value, exactly. *)
Definition value_of (n : number) : float :=
  match n with
  | NInt z => FFin (inject_Z z)
  | NFloat f => f
  end.

Definition num_ltb (a b : number) : bool := float_ltb (value_of a) (value_of b).
Definition num_leb (a b : number) : bool := float_leb (value_of a) (value_of b).
Definition num_eqb (a b : number) : bool := float_eqb (value_of a) (value_of b).

(** [min], [max] and [clamp] are duck-typed; these are the types the module
    uses them at, each with its [<]. *)
Class PyOrd (A : Type) := py_lt : A -> A -> bool.

#[global] Instance Z_PyOrd : PyOrd Z := Z.ltb.
#[global] Instance float_PyOrd : PyOrd float := float_ltb.
#[global] Instance number_PyOrd : PyOrd number := num_ltb.

(** [min(a, b)]: the first argument, unless [b < a]. *)
Definition py_min {A} `{PyOrd A} (a b : A) : A := if py_lt b a then b else a.

(** [max(a, b)]: the first argument, unless [b > a]. *)
Definition py_max {A} `{PyOrd A} (a b : A) : A := if py_lt a b then b else a.

(** [def clamp(value, min_value, max_value)]. *)
Definition clamp {A} `{PyOrd A} (value min_value max_value : A) : A :=
  py_max min_value (py_min value max_value).

(** Truncation toward zero of a rational. *)
Definition Qtrunc (q : Q) : Z := Z.quot (Qnum q) (Zpos (Qden q)).

(** [int(x)] of a number. *)
Definition py_int (n : number) : result Z :=
  match n with
  | NInt z => Ok z
  | NFloat (FFin q) => Ok (Qtrunc q)
  | NFloat (FInf _) => Raise OverflowError
  | NFloat FNaN => Raise ValueError
  end.

(** [float(x)] of a number. *)
Definition py_float (n : number) : float := value_of n.

Definition float_sub (a b : float) : float :=
  match a, b with
  | FNaN, _ | _, FNaN => FNaN
  | FFin x, FFin y => FFin (x - y)
  | FInf s, FFin _ => FInf s
  | FFin _, FInf s => FInf (negb s)
  | FInf s, FInf t => if Bool.eqb s t then FNaN else FInf s
  end.

Definition float_mul (a b : float) : float :=
  match a, b with
  | FNaN, _ | _, FNaN => FNaN
  | FFin x, FFin y => FFin (x * y)
  | FInf s, FFin y | FFin y, FInf s =>
      if Qeq_bool y 0 then FNaN else FInf (xorb s (Qltb y 0))
  | FInf s, FInf t => FInf (xorb s t)
  end.

(** [a - b] and [a * b] on numbers: an [int] when both are, a [float]
    otherwise. *)
Definition num_sub (a b : number) : number :=
  match a, b with
  | NInt x, NInt y => NInt (x - y)
  | _, _ => NFloat (float_sub (value_of a) (value_of b))
  end.

Definition num_mul (a b : number) : number :=
  match a, b with
  | NInt x, NInt y => NInt (x * y)
  | _, _ => NFloat (float_mul (value_of a) (value_of b))
  end.

(** [int(a / 2)] for an [int] [a] goes through a float.  [a / 2] is the
    quotient correctly rounded to binary64: [a] is rounded to 53 significant
    bits, ties to even (halving is then exact), and the division raises
    [OverflowError] when the rounded quotient reaches [2^1024]. *)
Definition round_sig53 (n : Z) : Z :=
  let a := Z.abs n in
  let bits := Z.log2 a + 1 in
  if bits <=? 53 then n
  else
    let sh := bits - 53 in
    let q := Z.shiftr a sh in
    let r := Z.land a (Z.ones sh) in
    let half := Z.shiftl 1 (sh - 1) in
    let q' := if (half <? r) || ((r =? half) && Z.odd q) then q + 1 else q in
    Z.sgn n * Z.shiftl q' sh.

Definition int_truediv_2 (a : Z) : result float :=
  let m := round_sig53 a in
  if 2 ^ 1025 <=? Z.abs m then Raise OverflowError
  else Ok (FFin (m # 2)).

(** The integer nearest to a rational, ties to even. *)
Definition Qround_half_even (q : Q) : Z :=
  let f := Qfloor q in
  let d := (q - inject_Z f)%Q in
  if Qltb d (1 # 2) then f
  else if Qltb (1 # 2) d then f + 1
  else if Z.even f then f else f + 1.

(** ** Binary64 arithmetic *)

(** The exponent of a positive rational [q]: the [e] with
    [2^e <= q < 2^(e+1)]. *)
Definition Qexponent (q : Q) : Z :=
  let k := Z.log2 (Qnum q) - Z.log2 (Zpos (Qden q)) in
  if Qle_bool (2 ^ k) q then k else k - 1.

(** A rational that is not negative, rounded to 53 significant bits at its
    exponent, ties to even; below [2^-1022] the exponent stays -1022 and
    fewer bits are left (subnormal numbers). *)
Definition round_binary64 (a : Q) : Q :=
  let e := Z.max (Qexponent a) (-1022) in
  let ulp := (2 ^ (e - 52))%Q in
  (inject_Z (Qround_half_even (a / ulp)) * ulp)%Q.

(** The double nearest to a rational; an infinity when the rounded
    magnitude reaches [2^1024]. *)
Definition binary64 (q : Q) : float :=
  let r := Qred (round_binary64 (Qabs q)) in
  if Qle_bool (2 ^ 1024) r then FInf (Qltb q 0)
  else FFin (if Qltb q 0 then (- r)%Q else r).

(** A float of the model read as the double it stands for, and the double
    a decimal literal denotes. *)
Definition b64 (x : float) : float :=
  match x with
  | FFin q => binary64 q
  | _ => x
  end.

Definition b64_lit (num : Z) (den : positive) : float := binary64 (num # den).

(** [a - b] and [a * b] on doubles. *)
Definition b64_sub (a b : float) : float := b64 (float_sub a b).

Definition b64_mul (a b : float) : float := b64 (float_mul a b).

(** [round(x, 3)]: the decimal expansion of [x] rounded to three places,
    ties to even, and the double nearest to that; an infinity or NaN comes
    back as it is. *)
Definition b64_round3 (x : float) : float :=
  match x with
  | FFin q => binary64 (inject_Z (Qround_half_even (q * 1000)) / 1000)
  | _ => x
  end.

(** The conversion of an [int] that meets a float in arithmetic: the
    nearest double, or [OverflowError] ("int too large to convert to
    float"). *)
Definition float_of_int (z : Z) : result float :=
  match binary64 (inject_Z z) with
  | FInf _ => Raise OverflowError
  | x => Ok x
  end.

(** [z * y] and [z - y] for an [int] [z] and a float [y]. *)
Definition int_mul_float (z : Z) (y : float) : result float :=
  x ← float_of_int z; mret (b64_mul x y).

Definition int_sub_float (z : Z) (y : float) : result float :=
  x ← float_of_int z; mret (b64_sub x y).

(** ** Strings *)

#[local] Open Scope string_scope.
#[local] Open Scope Z_scope.

Definition ascii_code (c : ascii) : Z := Z.of_N (N_of_ascii c).

(** [str.lower()]. *)
Definition lower_char (c : ascii) : ascii :=
  let n := ascii_code c in
  if (65 <=? n) && (n <=? 90) then ascii_of_N (Z.to_N (n + 32)) else c.

Fixpoint lower (s : string) : string :=
  match s with
  | "" => ""
  | String c t => String (lower_char c) (lower t)
  end.

(** [needle in hay]. *)
Fixpoint str_in (needle hay : string) : bool :=
  String.prefix needle hay ||
  match hay with
  | "" => false
  | String _ t => str_in needle t
  end.

(** White space as [str.strip()] and [int()] see it. *)
Definition is_space (c : ascii) : bool :=
  let n := ascii_code c in
  ((9 <=? n) && (n <=? 13)) || ((28 <=? n) && (n <=? 32)).

Fixpoint lstrip (s : string) : string :=
  match s with
  | String c t => if is_space c then lstrip t else s
  | "" => ""
  end.

Fixpoint rstrip (s : string) : string :=
  match s with
  | "" => ""
  | String c t =>
      match rstrip t with
      | "" => if is_space c then "" else String c ""
      | t' => String c t'
      end
  end.

(** [str.strip()]. *)
Definition strip (s : string) : string := rstrip (lstrip s).

(** The en-dash U+2013, in UTF-8. *)
Definition en_dash : string :=
  String (ascii_of_N 226) (String (ascii_of_N 128) (String (ascii_of_N 147) "")).

(** [re.split(r"[-–]", s)]: the pieces between the dashes, empty ones
    included. *)
Fixpoint split_dash (s : string) : list string :=
  match s with
  | "" => [""]
  | String c t =>
      if Ascii.eqb c "-" then "" :: split_dash t
      else
        let keep :=
          match split_dash t with
          | piece :: rest => String c piece :: rest
          | [] => [String c ""]
          end in
        match t with
        | String c2 (String c3 t') =>
            if Ascii.eqb c (ascii_of_N 226) && Ascii.eqb c2 (ascii_of_N 128)
               && Ascii.eqb c3 (ascii_of_N 147)
            then "" :: split_dash t'
            else keep
        | _ => keep
        end
  end.

Definition digit_of (c : ascii) : option Z :=
  let n := ascii_code c in
  if (48 <=? n) && (n <=? 57) then Some (n - 48) else None.

(** The digits of a decimal literal after the first: a digit, or one
    underscore followed by a digit. *)
Fixpoint more_digits (s : string) (acc : Z) : option Z :=
  match s with
  | "" => Some acc
  | String c t =>
      match digit_of c with
      | Some d => more_digits t (10 * acc + d)
      | None =>
          if Ascii.eqb c "_" then
            match t with
            | String c' t' =>
                match digit_of c' with
                | Some d => more_digits t' (10 * acc + d)
                | None => None
                end
            | "" => None
            end
          else None
      end
  end.

Definition unsigned_literal (s : string) : option Z :=
  match s with
  | String c t =>
      match digit_of c with
      | Some d => more_digits t d
      | None => None
      end
  | "" => None
  end.

(** [int(s)] for a string: white space around, an optional sign, decimal
    digits with single underscores between them; [ValueError] otherwise. *)
Definition int_of_str (s : string) : result Z :=
  let body := strip s in
  let parsed :=
    match body with
    | String c t =>
        if Ascii.eqb c "-" then Z.opp <$> unsigned_literal t
        else if Ascii.eqb c "+" then unsigned_literal t
        else unsigned_literal body
    | "" => None
    end in
  match parsed with
  | Some z => Ok z
  | None => Raise ValueError
  end.

(** [str(n)] for an [int]. *)
Definition str_of_int (z : Z) : string := NilZero.string_of_int (Z.to_int z).

(** ** The temperature hint parser *)

Definition non_empty (s : string) : bool :=
  match s with
  | "" => false
  | _ => true
  end.

(** The body of the [try] block of [parse_temp_hint]. *)
Definition parse_temp_hint_try (raw : string) : result Z :=
  if str_in "-" raw then
    let parts := List.filter (fun p => non_empty (strip p)) (split_dash raw) in
    nums ← mapM (fun p => int_of_str (strip p)) parts;
    match nums with
    | a :: b :: _ => half ← int_truediv_2 (0 + a + b); py_int (NFloat half)
    | _ => int_of_str raw
    end
  else int_of_str raw.

(** [def parse_temp_hint(raw, fallback)]: [except ValueError] catches
    that exception and no other. *)
Definition parse_temp_hint (raw : string) (fallback : Z) : result Z :=
  if non_empty raw then
    match parse_temp_hint_try raw with
    | Raise ValueError => Ok fallback
    | r => r
    end
  else Ok fallback.

(** ** Presets *)

Record MaterialPreset := {
  name : string;
  nozzle_temp : Z;
  bed_temp : Z;
  fan_speed : Z;
  fan_speed_min : Z;
  fan_speed_max : Z;
  flow_ratio : float;
  density : float;
  cost : number;
  retraction_length : float;
  retraction_speed : Z;
  default_pressure_advance : float;
}.

(** A float literal of the source, as the decimal fraction it spells. *)
Definition lit (num : Z) (den : positive) : float := FFin (num # den).

Definition pla_preset : MaterialPreset :=
  {| name := "PLA K1C"; nozzle_temp := 210; bed_temp := 60;
     fan_speed := 95; fan_speed_min := 80; fan_speed_max := 100;
     flow_ratio := lit 1 1; density := lit 124 100; cost := NInt 20;
     retraction_length := lit 8 10; retraction_speed := 35;
     default_pressure_advance := lit 0 1 |}.

Definition petg_preset : MaterialPreset :=
  {| name := "PETG K1C"; nozzle_temp := 240; bed_temp := 80;
     fan_speed := 45; fan_speed_min := 30; fan_speed_max := 60;
     flow_ratio := lit 1 1; density := lit 127 100; cost := NInt 25;
     retraction_length := lit 1 1; retraction_speed := 40;
     default_pressure_advance := lit 2 100 |}.

Definition MATERIALS : gmap string MaterialPreset :=
  <["pla" := pla_preset]> (<["petg" := petg_preset]> ∅).

(** ** The heuristic generator *)

(** [def ai_generate_material_preset(name, nozzle_hint, bed_hint, fan_pref)].
    Both hints are [int]s, so [int(clamp(...))] is the clamp itself. *)
Definition ai_generate_material_preset
    (name : string) (nozzle_hint bed_hint : Z) (fan_pref : string) : MaterialPreset :=
  let nozzle_temp := clamp nozzle_hint 160 290 in
  let bed_temp := clamp bed_hint 30 120 in
  let fan_pref := lower fan_pref in
  let '(fan_speed, fan_min, fan_max, retraction_len) :=
    if String.eqb fan_pref "high" then (90, 70, 100, lit 8 10)
    else if String.eqb fan_pref "low" then (40, 25, 60, lit 1 1)
    else (60, 40, 80, lit 9 10) in
  let density := lit 124 100 in
  let density :=
    if str_in "cf" (lower name) || str_in "carbon" (lower name)
    then lit 13 10 else density in
  let density :=
    if str_in "pa" (lower name) || str_in "nylon" (lower name)
    then py_max density (lit 114 100) else density in
  let cost := NInt 25 in
  {| name := name;
     nozzle_temp := nozzle_temp;
     bed_temp := bed_temp;
     fan_speed := fan_speed;
     fan_speed_min := fan_min;
     fan_speed_max := fan_max;
     flow_ratio := lit 1 1;
     density := density;
     cost := cost;
     retraction_length := retraction_len;
     retraction_speed := 38;
     default_pressure_advance :=
       if String.eqb fan_pref "medium" || String.eqb fan_pref "low"
       then lit 2 100 else lit 0 1 |}.

(** What [main] does to the cooling preference before it calls a generator:
    [fan_pref if fan_pref in {"low", "medium", "high"} else "medium"]. *)
Definition main_fan_pref (entered : string) : string :=
  let fan_pref := lower (strip entered) in
  let fan_pref := if non_empty fan_pref then fan_pref else "medium" in
  if String.eqb fan_pref "low" || String.eqb fan_pref "medium"
     || String.eqb fan_pref "high"
  then fan_pref else "medium".

(** ** The LLM generator *)

(** What [json.loads] returns. *)
Inductive pyval :=
  | VNone
  | VBool (b : bool)
  | VInt (z : Z)
  | VFloat (f : float)
  | VStr (s : string)
  | VList (l : list pyval)
  | VDict (m : gmap string pyval).

Definition of_number (n : number) : pyval :=
  match n with
  | NInt z => VInt z
  | NFloat f => VFloat f
  end.

(** The operand of a comparison with a number: [bool] is a subtype of
    [int]; anything else that is not a number makes [<] raise [TypeError]. *)
Definition as_number (v : pyval) : result number :=
  match v with
  | VBool b => Ok (NInt (Z.b2z b))
  | VInt z => Ok (NInt z)
  | VFloat f => Ok (NFloat f)
  | _ => Raise TypeError
  end.

(** [data.get(key, default)]: only a [dict] has the method. *)
Definition py_get (data : pyval) (key : string) (dflt : pyval) : result pyval :=
  match data with
  | VDict m => Ok (default dflt (m !! key))
  | _ => Raise AttributeError
  end.

(** [clamp(v, lo, hi)] with [v] read from the response. *)
Definition clamp_value (v : pyval) (lo hi : number) : result number :=
  n ← as_number v; mret (clamp n lo hi).

(** What [json.loads] does with a text: it decodes it, or raises
    [json.JSONDecodeError], or raises something else, which no handler of
    the module catches ([ValueError] for an integer literal of more digits
    than the interpreter converts, [RecursionError] for nesting too
    deep). *)
Inductive loads_result :=
  | Decoded (v : pyval)
  | JSONDecodeError
  | LoadsRaise (e : exn).

Section LLM.

(** The two collaborators of the generator: the chat request, from prompt
    to answer text, and [json.loads]. *)
Variable call_ollama : string -> string.
Variable json_loads : string -> loads_result.

Definition ollama_prompt (name : string) (nozzle_hint bed_hint : Z) (fan_pref : string)
    : string :=
  "Create 3D printing filament profile JSON with keys: "
  ++ "nozzle_temp, bed_temp, fan_speed, fan_speed_min, fan_speed_max, flow_ratio, "
  ++ "retraction_length, retraction_speed, pressure_advance. "
  ++ "Filament name: " ++ name ++ ". Suggested nozzle temp: "
  ++ str_of_int nozzle_hint ++ ". Bed temp: " ++ str_of_int bed_hint ++ ". "
  ++ "Cooling level: " ++ fan_pref ++ " (low/medium/high). "
  ++ "Return ONLY JSON, no prose. Keep values realistic for FDM.".

(** [def ollama_generate_material(name, nozzle_hint, bed_hint, fan_pref)]. *)
Definition ollama_generate_material
    (name : string) (nozzle_hint bed_hint : Z) (fan_pref : string)
    : result MaterialPreset :=
  let raw := call_ollama (ollama_prompt name nozzle_hint bed_hint fan_pref) in
  match json_loads raw with
  | JSONDecodeError => Raise (RuntimeError ("LLM did not return valid JSON: " ++ raw))
  | LoadsRaise e => Raise e
  | Decoded data =>
      let get key dflt := py_get data key (of_number dflt) in
      v ← get "nozzle_temp" (NInt nozzle_hint);
      c ← clamp_value v (NInt 160) (NInt 290);
      nozzle_temp ← py_int c;
      v ← get "bed_temp" (NInt bed_hint);
      c ← clamp_value v (NInt 30) (NInt 120);
      bed_temp ← py_int c;
      v ← get "fan_speed" (NInt 60);
      fan_speed ← clamp_value v (NInt 0) (NInt 100);
      v ← get "fan_speed_min" (py_max (NInt 0) (num_sub fan_speed (NInt 20)));
      fan_min ← clamp_value v (NInt 0) (NInt 100);
      v ← get "fan_speed_max" (py_max fan_speed (NInt 60));
      fan_max ← clamp_value v (NInt 0) (NInt 100);
      v ← get "flow_ratio" (NFloat (lit 1 1));
      flow_ratio ← clamp_value v (NFloat (lit 9 10)) (NFloat (lit 11 10));
      v ← get "retraction_length" (NFloat (lit 9 10));
      retraction_length ← clamp_value v (NFloat (lit 4 10)) (NFloat (lit 18 10));
      v ← get "retraction_speed" (NInt 38);
      retraction_speed ← clamp_value v (NInt 15) (NInt 55);
      v ← get "pressure_advance" (NFloat (lit 2 100));
      pressure_advance ← clamp_value v (NFloat (lit 0 1)) (NFloat (lit 2 10));
      let density := lit 124 100 in
      let density :=
        if str_in "cf" (lower name) || str_in "carbon" (lower name)
        then lit 13 10 else density in
      let cost := NInt 25 in
      nozzle_temp ← py_int (NInt nozzle_temp);
      bed_temp ← py_int (NInt bed_temp);
      fan_speed ← py_int fan_speed;
      fan_speed_min ← py_int fan_min;
      fan_speed_max ← py_int fan_max;
      retraction_speed ← py_int retraction_speed;
      mret {| name := name;
              nozzle_temp := nozzle_temp;
              bed_temp := bed_temp;
              fan_speed := fan_speed;
              fan_speed_min := fan_speed_min;
              fan_speed_max := fan_speed_max;
              flow_ratio := py_float flow_ratio;
              density := density;
              cost := cost;
              retraction_length := py_float retraction_length;
              retraction_speed := retraction_speed;
              default_pressure_advance := py_float pressure_advance |}
  end.

End LLM.

(** ** The tuning engine *)

Record TunedParameters := {
  t_nozzle_temp : Z;
  t_bed_temp : Z;
  t_fan_speed : Z;
  t_fan_speed_min : Z;
  t_fan_speed_max : Z;
  t_flow_ratio : float;
  t_pressure_advance : float;
}.

(** [def ai_tune_filament(material, suggested_temp)]; the record stands for
    the dictionary the source returns, a field for each key.  The PLA
    branch computes with integers; the other branch and the flow ratio
    compute with floats. *)
Definition ai_tune_filament (material : MaterialPreset) (suggested_temp : Z)
    : result TunedParameters :=
  let base := material in
  let nozzle_temp' :=
    clamp suggested_temp (nozzle_temp base - 10) (nozzle_temp base + 15) in
  let bed_temp' := bed_temp base in
  let bed_temp' :=
    if nozzle_temp base + 5 <? nozzle_temp'
    then py_min (bed_temp base + 5) (bed_temp base + 10)
    else bed_temp' in
  '(fan_speed', fan_min, fan_max) ←
    (if str_in "PLA" (name base) then
       let fan_speed' :=
         clamp (fan_speed base - (nozzle_temp' - nozzle_temp base) * 2) 80 100 in
       let fan_min :=
         clamp (fan_speed_min base - (nozzle_temp' - nozzle_temp base)) 70 100 in
       let fan_max := 100 in
       mret (NInt fan_speed', NInt fan_min, NInt fan_max)
     else
       let fan_speed' :=
         clamp (fan_speed base - (nozzle_temp' - nozzle_temp base)) 25 65 in
       half ← int_mul_float (nozzle_temp' - nozzle_temp base) (b64_lit 5 10);
       low ← int_sub_float (fan_speed_min base) half;
       let fan_min := clamp (NFloat low) (NInt 20) (NInt 60) in
       half ← int_mul_float (nozzle_temp' - nozzle_temp base) (b64_lit 5 10);
       high ← int_sub_float (fan_speed_max base) half;
       let fan_max := clamp (NFloat high) (NInt 40) (NInt 80) in
       mret (NInt fan_speed', fan_min, fan_max));
  let delta := nozzle_temp' - nozzle_temp base in
  step ← int_mul_float delta (b64_lit 2 1000);
  let flow_ratio' :=
    clamp (b64_sub (b64 (flow_ratio base)) step)
          (b64_lit 96 100) (b64_lit 104 100) in
  fan_speed' ← py_int fan_speed';
  fan_min ← py_int fan_min;
  fan_max ← py_int fan_max;
  mret {| t_nozzle_temp := nozzle_temp';
          t_bed_temp := bed_temp';
          t_fan_speed := fan_speed';
          t_fan_speed_min := fan_min;
          t_fan_speed_max := fan_max;
          t_flow_ratio := b64_round3 flow_ratio';
          t_pressure_advance := default_pressure_advance base |}.

(** A fan limit that the engine can subtract a float from. *)
Definition fits_float (z : Z) : bool :=
  match float_of_int z with
  | Ok _ => true
  | Raise _ => false
  end.

(** A fan limit [z] inside the range [lo, hi] comes out of
    [int(clamp(z - 0.0, lo, hi))] as it is: the test of one limit. *)
Definition own_limit_ok (lo hi z : Z) : bool :=
  match int_sub_float z (FFin 0) with
  | Ok low =>
      match py_int (clamp (NFloat low) (NInt lo) (NInt hi)) with
      | Ok r => r =? z
      | Raise _ => false
      end
  | Raise _ => false
  end.

(** ** The profile serializer *)

Record FilamentProfile := {
  p_name : string;
  p_filament_settings_id : string;
  p_inherits : string;
  p_nozzle_temperature : list string;
  p_hot_plate_temp : list string;
  p_additional_cooling_fan_speed : list string;
  p_pressure_advance : list string;
  p_enable_pressure_advance : list string;
  p_version : string;
}.

Section Serializer.

(** [str(x)] of a float, the shortest decimal that reads back as [x], is
    taken as given. *)
Variable str_of_float : float -> string.

(** [def build_filament_profile(tuned, pressure_advance, profile_name)],
    with [as_arr(val) = [str(val)]] unfolded at each type. *)
Definition build_filament_profile
    (tuned : TunedParameters) (pressure_advance : float) (profile_name : string)
    : FilamentProfile :=
  let nozzle_temp := t_nozzle_temp tuned in
  let bed_temp := t_bed_temp tuned in
  {| p_name := profile_name;
     p_filament_settings_id := profile_name;
     p_inherits := "Creality Generic PLA";
     p_nozzle_temperature := [str_of_int nozzle_temp];
     p_hot_plate_temp := [str_of_int bed_temp];
     p_additional_cooling_fan_speed := [str_of_int (t_fan_speed_max tuned)];
     p_pressure_advance := [str_of_float pressure_advance];
     p_enable_pressure_advance :=
       [if num_ltb (NInt 0) (NFloat pressure_advance) then "1" else "0"];
     p_version := "1.9.0.2" |}.

(** The pressure advance [main] hands to the serializer: the command-line
    override clamped to [0.0, 0.2] when there is one, the tuned value
    otherwise. *)
Definition pressure_eff (override : option float) (tuned : TunedParameters) : float :=
  match override with
  | Some pa => clamp pa (lit 0 1) (lit 2 10)
  | None => t_pressure_advance tuned
  end.

End Serializer.

(** ** Properties the specification names *)

(** The bounds of a generated preset, field by field. *)
Definition float_between (lo hi : Q) (x : float) : Prop :=
  exists q, x = FFin q /\ (lo <= q <= hi)%Q.

Record preset_in_bounds (p : MaterialPreset) : Prop := {
  nozzle_temp_bounds : 160 <= nozzle_temp p <= 290;
  bed_temp_bounds : 30 <= bed_temp p <= 120;
  fan_speed_bounds : 0 <= fan_speed p <= 100;
  fan_speed_min_bounds : 0 <= fan_speed_min p <= 100;
  fan_speed_max_bounds : 0 <= fan_speed_max p <= 100;
  flow_ratio_bounds : float_between (9 # 10) (11 # 10) (flow_ratio p);
  retraction_length_bounds : float_between (4 # 10) (18 # 10) (retraction_length p);
  retraction_speed_bounds : 15 <= retraction_speed p <= 55;
  pressure_advance_bounds : float_between 0 (2 # 10) (default_pressure_advance p);
}.

(** The keys the LLM generator reads. *)
Definition expected_keys : list string :=
  ["nozzle_temp"; "bed_temp"; "fan_speed"; "fan_speed_min"; "fan_speed_max";
   "flow_ratio"; "retraction_length"; "retraction_speed"; "pressure_advance"].

Definition is_number (v : pyval) : bool :=
  match v with
  | VBool _ | VInt _ | VFloat _ => true
  | _ => false
  end.

Definition key_ok (m : gmap string pyval) (key : string) : bool :=
  match m !! key with
  | Some v => is_number v
  | None => true
  end.

(** A decoded response that is an object whose expected keys, where present,
    hold numbers. *)
Definition numeric_object (data : pyval) : bool :=
  match data with
  | VDict m => forallb (key_ok m) expected_keys
  | _ => false
  end.

(** "Strictly greater than 0" for a pressure advance. *)
Definition strictly_positive (x : float) : Prop :=
  match x with
  | FFin q => (0 < q)%Q
  | FInf negative => negative = false
  | FNaN => False
  end.

(** The cooling preference as the specification reads it: [low], [medium]
    or [high] whatever the case, anything else [medium]. *)
Definition cooling_level (fan_pref : string) : string :=
  let l := lower fan_pref in
  if String.eqb l "low" || String.eqb l "high" then l else "medium".

(** A stand-in for [json.loads] that decodes one text. *)
Definition loads_only (text : string) (value : pyval) : string -> loads_result :=
  fun s => if String.eqb s text then Decoded value else JSONDecodeError.

(** Three answers of the service, as text and as [json.loads] decodes
    them: fan limits the wrong way round; values far out of range, NaN and
    Infinity among them, the other keys missing; a string where a number is
    expected. *)
Definition dq : string := String (ascii_of_N 34) "".

Definition quoted (k : string) : string := dq ++ k ++ dq.

Definition unordered_fans_text : string :=
  "{" ++ quoted "fan_speed_min" ++ ": 90, " ++ quoted "fan_speed_max" ++ ": 10}".

Definition unordered_fans_value : pyval :=
  VDict (<["fan_speed_min" := VInt 90]> (<["fan_speed_max" := VInt 10]> ∅)).

Definition extreme_text : string :=
  "{" ++ quoted "nozzle_temp" ++ ": 1000, " ++ quoted "bed_temp" ++ ": -5, "
  ++ quoted "fan_speed" ++ ": 250.5, " ++ quoted "flow_ratio" ++ ": NaN, "
  ++ quoted "pressure_advance" ++ ": Infinity}".

Definition extreme_value : pyval :=
  VDict (<["nozzle_temp" := VInt 1000]>
        (<["bed_temp" := VInt (-5)]>
        (<["fan_speed" := VFloat (lit 2505 10)]>
        (<["flow_ratio" := VFloat FNaN]>
        (<["pressure_advance" := VFloat (FInf false)]> ∅))))).

Definition non_numeric_text : string :=
  "{" ++ quoted "nozzle_temp" ++ ": " ++ quoted "hot" ++ "}".

Definition non_numeric_value : pyval :=
  VDict (<["nozzle_temp" := VStr "hot"]> ∅).

(** The catalogue's PETG preset tuned for 247 degrees. *)
Definition petg_tuned : TunedParameters :=
  {| t_nozzle_temp := 247; t_bed_temp := 85; t_fan_speed := 38;
     t_fan_speed_min := 26; t_fan_speed_max := 56;
     t_flow_ratio := b64_lit 986 1000; t_pressure_advance := lit 2 100 |}.

(** Every character of a string passes a test. *)
Fixpoint all_chars (P : ascii -> bool) (s : string) : bool :=
  match s with
  | "" => true
  | String c t => P c && all_chars P t
  end.

(** The characters an integer literal is made of, white space around it
    included. *)
Definition literal_char (c : ascii) : bool :=
  match digit_of c with
  | Some _ => true
  | None => Ascii.eqb c "_" || Ascii.eqb c "-" || Ascii.eqb c "+" || is_space c
  end.

Fixpoint zeros (n : nat) : string :=
  match n with
  | O => ""
  | S n' => String "0" (zeros n')
  end.

(** ** File-name slugs *)

(** The characters [a-z0-9] of the pattern in [slugify]. *)
Definition is_slug_char (c : ascii) : bool :=
  let n := ascii_code c in
  ((97 <=? n) && (n <=? 122)) || ((48 <=? n) && (n <=? 57)).

(** [re.sub(r"[^a-z0-9]+", "_", s)]: every maximal run of other characters
    becomes one underscore.  [in_run] tells that the character before
    belonged to such a run.  A character outside ASCII is a run of bytes
    none of which is in [a-z0-9], so bytes and characters give the same
    result. *)
Fixpoint sub_runs (in_run : bool) (s : string) : string :=
  match s with
  | "" => ""
  | String c t =>
      if is_slug_char c then String c (sub_runs false t)
      else if in_run then sub_runs true t
      else String "_" (sub_runs true t)
  end.

Definition is_underscore (c : ascii) : bool := Ascii.eqb c "_".

(** [s.strip("_")], one side at a time. *)
Fixpoint lstrip_underscores (s : string) : string :=
  match s with
  | String c t => if is_underscore c then lstrip_underscores t else s
  | "" => ""
  end.

Fixpoint rstrip_underscores (s : string) : string :=
  match s with
  | "" => ""
  | String c t =>
      match rstrip_underscores t with
      | "" => if is_underscore c then "" else String c ""
      | t' => String c t'
      end
  end.

(** [def slugify(text)]. *)
Definition slugify (text : string) : string :=
  let text := lower (strip text) in
  let text := sub_runs false text in
  let stripped := rstrip_underscores (lstrip_underscores text) in
  if non_empty stripped then stripped else "profile".

(** The shape of a slug: letters, digits and single underscores
    ([after_underscore] tells that the character before was one). *)
Fixpoint runs_ok (after_underscore : bool) (s : string) : bool :=
  match s with
  | "" => true
  | String c t =>
      if is_slug_char c then runs_ok false t
      else is_underscore c && negb after_underscore && runs_ok true t
  end.

(** The last character, if any, is a letter or a digit. *)
Fixpoint ends_ok (s : string) : bool :=
  match s with
  | "" => true
  | String c "" => is_slug_char c
  | String _ t => ends_ok t
  end.

(** ** Decimal numerals *)

Definition is_digit (c : ascii) : bool :=
  match digit_of c with
  | Some _ => true
  | None => false
  end.

(** The value of a numeral read after the digits that gave [acc]. *)
Fixpoint uint_value (d : Decimal.uint) (acc : Z) : Z :=
  match d with
  | Decimal.Nil => acc
  | Decimal.D0 l => uint_value l (10 * acc + 0)
  | Decimal.D1 l => uint_value l (10 * acc + 1)
  | Decimal.D2 l => uint_value l (10 * acc + 2)
  | Decimal.D3 l => uint_value l (10 * acc + 3)
  | Decimal.D4 l => uint_value l (10 * acc + 4)
  | Decimal.D5 l => uint_value l (10 * acc + 5)
  | Decimal.D6 l => uint_value l (10 * acc + 6)
  | Decimal.D7 l => uint_value l (10 * acc + 7)
  | Decimal.D8 l => uint_value l (10 * acc + 8)
  | Decimal.D9 l => uint_value l (10 * acc + 9)
  end.

(** ** The chat request *)

(** [s.split("\n")]. *)
Fixpoint split_lines (s : string) : list string :=
  match s with
  | "" => [""]
  | String c t =>
      if Ascii.eqb c (ascii_of_N 10) then "" :: split_lines t
      else
        match split_lines t with
        | piece :: rest => String c piece :: rest
        | [] => [String c ""]
        end
  end.

(** [key in v], and [v[key]] when it holds: [Some] of the item, or [None]
    when [key] is not in [v].  A list or a string that does contain [key]
    cannot be indexed by it, and a scalar is not a container: [TypeError]. *)
Definition py_item_if_in (key : string) (v : pyval) : result (option pyval) :=
  match v with
  | VDict m => Ok (m !! key)
  | VList l =>
      if existsb (fun x => match x with
                           | VStr s => String.eqb s key
                           | _ => false
                           end) l
      then Raise TypeError else Ok None
  | VStr s => if str_in key s then Raise TypeError else Ok None
  | _ => Raise TypeError
  end.

(** ["message" in data and "content" in data["message"]], and
    [data["message"]["content"]] when both hold. *)
Definition chunk_content (data : pyval) : result (option pyval) :=
  message ← py_item_if_in "message" data;
  match message with
  | Some m => py_item_if_in "content" m
  | None => Ok None
  end.

Section Chat.

(** The request itself, from the prompt to the text of the response (any
    exception of the transport comes back as it is), and [json.loads]. *)
Variable post : string -> result string.
Variable json_loads : string -> loads_result.

(** The loop of [call_ollama] over the lines of the response;
    [except json.JSONDecodeError: pass] covers that exception and nothing
    else. *)
Fixpoint collect_content (lines : list string) (full_content : string)
    : result string :=
  match lines with
  | [] => Ok full_content
  | line :: rest =>
      if non_empty (strip line) then
        match json_loads line with
        | JSONDecodeError => collect_content rest full_content
        | LoadsRaise e => Raise e
        | Decoded data =>
            content ← chunk_content data;
            match content with
            | None => collect_content rest full_content
            | Some (VStr fragment) => collect_content rest (full_content ++ fragment)
            | Some _ => Raise TypeError
            end
        end
      else collect_content rest full_content
  end.

(** [def call_ollama(prompt)], with the defaults of its other
    parameters. *)
Definition call_ollama (prompt : string) : result string :=
  response_text ← post prompt;
  full_content ← collect_content (split_lines (strip response_text)) "";
  mret (if non_empty full_content then full_content else response_text).

End Chat.



(** The text of a streamed chunk whose content needs no escaping. *)
Definition chunk_text (fragment : string) : string :=
  "{" ++ quoted "message" ++ ": {" ++ quoted "role" ++ ": " ++ quoted "assistant"
  ++ ", " ++ quoted "content" ++ ": " ++ quoted fragment ++ "}, "
  ++ quoted "done" ++ ": false}".


(** A stand-in for [json.loads] that decodes the texts of a table. *)
Fixpoint loads_table (table : list (string * pyval)) (s : string) : loads_result :=
  match table with
  | [] => JSONDecodeError
  | (text, value) :: rest =>
      if String.eqb s text then Decoded value else loads_table rest s
  end.




(** ** The command line *)

Record Args := {
  arg_name : option string;
  arg_material : option string;
  arg_pressure_advance : option float;
  arg_ai_new : bool;
  arg_use_ollama : bool;
  arg_output : string;
}.

(** How a run of [main] ends: it wrote a profile, an exception came out,
    or [input()] met the end of the input ([EOFError]). *)
Inductive run (A : Type) :=
  | Finished (a : A)
  | Failed (e : exn)
  | EndOfInput.
Arguments Finished {A} a.
Arguments Failed {A} e.
Arguments EndOfInput {A}.

#[global] Instance run_ret : MRet run := fun A a => Finished a.

#[global] Instance run_bind : MBind run := fun A B k r =>
  match r with
  | Finished a => k a
  | Failed e => Failed e
  | EndOfInput => EndOfInput
  end.

Definition of_result {A} (r : result A) : run A :=
  match r with
  | Ok a => Finished a
  | Raise e => Failed e
  end.

(** [input(...)]: the next line typed, and the lines that remain. *)
Definition input (lines : list string) : run (string * list string) :=
  match lines with
  | line :: rest => Finished (line, rest)
  | [] => EndOfInput
  end.

(** [while not ok(v): v = normal(input(...))], entered with [v] not ok. *)
Fixpoint input_until (ok : string -> bool) (normal : string -> string)
    (lines : list string) : run (string * list string) :=
  match lines with
  | line :: rest =>
      if ok (normal line) then Finished (normal line, rest)
      else input_until ok normal rest
  | [] => EndOfInput
  end.

(** [while key not in MATERIALS: key = input(...).strip().lower()] followed
    by [MATERIALS[key]]: the preset under the first key typed that the
    catalogue has. *)
Fixpoint input_material (lines : list string) : run (MaterialPreset * list string) :=
  match lines with
  | line :: rest =>
      match MATERIALS !! lower (strip line) with
      | Some material => Finished (material, rest)
      | None => input_material rest
      end
  | [] => EndOfInput
  end.

(** [x or y] for strings. *)
Definition or_else (x y : string) : string := if non_empty x then x else y.

Section Main.

Variable post : string -> result string.
Variable json_loads : string -> loads_result.
Variable str_of_float : float -> string.

(** [def main()], given the parsed arguments and the lines typed at the
    prompts.  What is printed is left out; what [write_json] is called with
    is the result: the output directory, the file name and the profile. *)
Definition main (args : Args) (lines : list string)
    : run (string * string * FilamentProfile) :=
  let pressure_advance := arg_pressure_advance args in
  '(profile_name, lines) ←
    match arg_name args with
    | Some n0 =>
        if non_empty n0 then Finished (strip n0, lines)
        else '(l, lines) ← input lines; mret (strip l, lines)
    | None => '(l, lines) ← input lines; mret (strip l, lines)
    end;
  '(profile_name, lines) ←
    (if non_empty profile_name then Finished (profile_name, lines)
     else input_until non_empty strip lines);
  '(material, tuned_temp, lines) ←
    (if arg_ai_new args then
       '(l, lines) ← input lines;
       let custom_material_name := or_else (strip l) "Custom" in
       '(l, lines) ← input lines;
       let temp_hint_raw := strip l in
       '(l, lines) ← input lines;
       let bed_hint_raw := strip l in
       '(l, lines) ← input lines;
       let fan_pref := main_fan_pref l in
       temp_hint ← of_result (parse_temp_hint temp_hint_raw 210);
       bed_hint ←
         (if non_empty bed_hint_raw
          then of_result (parse_temp_hint bed_hint_raw 60)
          else Finished 60);
       material ←
         (if arg_use_ollama args then
            raw ← of_result
                    (call_ollama post json_loads
                       (ollama_prompt custom_material_name temp_hint bed_hint
                          fan_pref));
            of_result
              (ollama_generate_material (fun _ => raw) json_loads
                 custom_material_name temp_hint bed_hint fan_pref)
          else
            Finished (ai_generate_material_preset
                        custom_material_name temp_hint bed_hint fan_pref));
       mret (material, temp_hint, lines)
     else
       '(material_key, lines) ←
         match arg_material args with
         | Some k => Finished (k, lines)
         | None => '(l, lines) ← input lines; mret (lower (strip l), lines)
         end;
       '(material, lines) ←
         match MATERIALS !! material_key with
         | Some material => Finished (material, lines)
         | None => input_material lines
         end;
       '(l, lines) ← input lines;
       let entered := strip l in
       tuned_temp ←
         (if non_empty entered
          then of_result (parse_temp_hint entered (nozzle_temp material))
          else Finished (nozzle_temp material));
       mret (material, tuned_temp, lines));
  let slug := slugify profile_name in
  tuned ← of_result (ai_tune_filament material tuned_temp);
  let filament :=
    build_filament_profile str_of_float tuned
      (pressure_eff pressure_advance tuned) profile_name in
  mret (arg_output args, slug ++ ".json", filament).

End Main.

(** A run that got past the prompts and the LLM can only stop on an
    [OverflowError]. *)
Definition only_overflow {A} (r : run A) : Prop :=
  match r with
  | Failed e => e = OverflowError
  | _ => True
  end.

(** ** Order lemmas *)

Lemma Qle_bool_true x y : Qle_bool x y = true <-> (x <= y)%Q.
Proof. apply Qle_bool_iff. Qed.

Lemma Qle_bool_false x y : Qle_bool x y = false <-> (y < x)%Q.
Proof.
  split; intros H.
  - apply Qnot_le_lt. intros Hle. apply Qle_bool_iff in Hle. congruence.
  - destruct (Qle_bool x y) eqn:E; [|reflexivity].
    apply Qle_bool_iff in E. lra.
Qed.

Ltac Qbool :=
  repeat match goal with
  | H : Qle_bool _ _ = true |- _ => apply Qle_bool_true in H
  | H : Qle_bool _ _ = false |- _ => apply Qle_bool_false in H
  | |- Qle_bool _ _ = true => apply Qle_bool_true
  | |- Qle_bool _ _ = false => apply Qle_bool_false
  end.

Ltac case_Qle :=
  repeat match goal with
  | |- context [Qle_bool ?x ?y] =>
      let E := fresh "E" in destruct (Qle_bool x y) eqn:E; simpl
  | H : context [Qle_bool ?x ?y] |- _ =>
      lazymatch type of H with
      | Qle_bool x y = _ => fail
      | _ => let E := fresh "E" in destruct (Qle_bool x y) eqn:E; simpl in H
      end
  end.

Ltac number_cases n :=
  let z := fresh "z" in let q := fresh "q" in let s := fresh "s" in
  destruct n as [z | [q | [|] | ]].

Ltac order_crush :=
  unfold clamp, py_max, py_min, py_lt, number_PyOrd, float_PyOrd,
    num_ltb, num_leb, num_eqb, float_ltb, float_leb, float_eqb, Qltb,
    num_sub, float_sub, value_of, lit in *;
  simpl in *; case_Qle;
  try discriminate; try reflexivity; try tauto;
  try (exfalso; Qbool; lra);
  try (Qbool; lra).

(** ** Theorems on [clamp] *)

Lemma clamp_number_bounds (v lo hi : number) :
  num_leb lo hi = true ->
  num_leb lo (clamp v lo hi) = true /\ num_leb (clamp v lo hi) hi = true.
Proof.
  intros H. number_cases v; number_cases lo; number_cases hi; order_crush.
Qed.

Lemma clamp_number_mono (a b lo hi : number) :
  num_leb lo hi = true -> num_leb a b = true ->
  num_leb (clamp a lo hi) (clamp b lo hi) = true.
Proof.
  intros H Hab.
  number_cases a; number_cases b; number_cases lo; number_cases hi; order_crush.
Qed.

(** C9: for bounds [lo <= hi] the result of [clamp] lies between them, and
    clamping it again returns it: the same value, equal under [==]. *)
Theorem clamp_bounded_idempotent (v lo hi : number) :
  num_leb lo hi = true ->
  num_leb lo (clamp v lo hi) = true /\
  num_leb (clamp v lo hi) hi = true /\
  clamp (clamp v lo hi) lo hi = clamp v lo hi /\
  num_eqb (clamp (clamp v lo hi) lo hi) (clamp v lo hi) = true.
Proof.
  intros H. number_cases v; number_cases lo; number_cases hi; order_crush.
  all: repeat split; apply Qeq_bool_iff; reflexivity.
Qed.

(** An [int] clamped between two floats, and NaN clamped to [0, 100]. *)
Lemma clamp_bounded_idempotent_witness :
  num_leb (NFloat (lit 9 10)) (clamp (NInt 3) (NFloat (lit 9 10)) (NFloat (lit 11 10))) = true /\
  clamp (NInt 3) (NFloat (lit 9 10)) (NFloat (lit 11 10)) = NFloat (lit 11 10) /\
  clamp (clamp (NFloat FNaN) (NInt 0) (NInt 100)) (NInt 0) (NInt 100)
  = clamp (NFloat FNaN) (NInt 0) (NInt 100).
Proof.
  destruct (clamp_bounded_idempotent (NInt 3) (NFloat (lit 9 10)) (NFloat (lit 11 10)))
    as (H1 & _ & _ & _); [reflexivity|].
  destruct (clamp_bounded_idempotent (NFloat FNaN) (NInt 0) (NInt 100))
    as (_ & _ & H3 & _); [reflexivity|].
  split; [exact H1|]. split; [reflexivity | exact H3].
Defined.

(** C10: with the bounds the wrong way round, [lo > hi], [clamp] returns
    [lo] whatever the value. *)
Theorem clamp_inverted_bounds (v lo hi : number) :
  num_ltb hi lo = true -> clamp v lo hi = lo.
Proof.
  intros H. number_cases v; number_cases lo; number_cases hi; order_crush.
Qed.

(** [clamp(50, 100, 0)] is 100 and [clamp(0.5, 1.1, 0.9)] is 1.1. *)
Lemma clamp_inverted_bounds_witness :
  clamp (NInt 50) (NInt 100) (NInt 0) = NInt 100 /\
  clamp (NFloat (lit 5 10)) (NFloat (lit 11 10)) (NFloat (lit 9 10)) = NFloat (lit 11 10).
Proof.
  split.
  - apply (clamp_inverted_bounds (NInt 50) (NInt 100) (NInt 0)). reflexivity.
  - apply (clamp_inverted_bounds (NFloat (lit 5 10)) (NFloat (lit 11 10))
             (NFloat (lit 9 10))). reflexivity.
Defined.

(** ** Truncation *)

Lemma Qtrunc_spec (q : Q) :
  (0 <= Qnum q ->
   (inject_Z (Qtrunc q) <= q)%Q /\ 0 <= Qtrunc q /\ (q < inject_Z (Qtrunc q + 1))%Q) /\
  (Qnum q <= 0 ->
   (q <= inject_Z (Qtrunc q))%Q /\ Qtrunc q <= 0 /\ (inject_Z (Qtrunc q - 1) < q)%Q).
Proof.
  destruct q as [n d]. unfold Qtrunc, Qle, Qlt, inject_Z. simpl.
  pose proof (Z.quot_rem' n (Zpos d)) as E.
  split; intros Hn.
  - pose proof (Z.rem_bound_pos_pos n (Zpos d) ltac:(lia) Hn). nia.
  - pose proof (Z.rem_bound_pos_neg n (Zpos d) ltac:(lia) Hn). nia.
Qed.

Lemma Qtrunc_lower (q : Q) (a : Z) : (inject_Z a <= q)%Q -> a <= Qtrunc q.
Proof.
  intros H. destruct (Qtrunc_spec q) as [Hp Hm].
  destruct (Z_le_gt_dec 0 (Qnum q)) as [Hn|Hn].
  - destruct (Hp Hn) as (_ & _ & Hlt).
    assert (Ha : (inject_Z a < inject_Z (Qtrunc q + 1))%Q) by lra.
    rewrite <- Zlt_Qlt in Ha. lia.
  - destruct (Hm ltac:(lia)) as (Hle & _ & _).
    assert (Ha : (inject_Z a <= inject_Z (Qtrunc q))%Q) by lra.
    rewrite <- Zle_Qle in Ha. lia.
Qed.

Lemma Qtrunc_upper (q : Q) (b : Z) : (q <= inject_Z b)%Q -> Qtrunc q <= b.
Proof.
  intros H. destruct (Qtrunc_spec q) as [Hp Hm].
  destruct (Z_le_gt_dec 0 (Qnum q)) as [Hn|Hn].
  - destruct (Hp Hn) as (Hle & _ & _).
    assert (Hb : (inject_Z (Qtrunc q) <= inject_Z b)%Q) by lra.
    rewrite <- Zle_Qle in Hb. lia.
  - destruct (Hm ltac:(lia)) as (_ & _ & Hlt).
    assert (Hb : (inject_Z (Qtrunc q - 1) < inject_Z b)%Q) by lra.
    rewrite <- Zlt_Qlt in Hb. lia.
Qed.

Lemma Qtrunc_mono (p q : Q) : (p <= q)%Q -> Qtrunc p <= Qtrunc q.
Proof.
  intros H.
  destruct (Qtrunc_spec p) as [Hp Hm].
  destruct (Z_le_gt_dec 0 (Qnum p)) as [Hn|Hn].
  - destruct (Hp Hn) as (Hle & _ & _). apply Qtrunc_lower. lra.
  - destruct (Hm ltac:(lia)) as (_ & Hneg & _).
    destruct (Qtrunc_spec q) as [Hp' Hm'].
    destruct (Z_le_gt_dec 0 (Qnum q)) as [Hn'|Hn'].
    + destruct (Hp' Hn') as (_ & Hpos & _). lia.
    + destruct (Hm' ltac:(lia)) as (Hle & _ & _). apply Qtrunc_upper. lra.
Qed.

Lemma Qtrunc_inject_Z (z : Z) : Qtrunc (inject_Z z) = z.
Proof. unfold Qtrunc, inject_Z. simpl. apply Z.quot_1_r. Qed.

(** [int()] of a number between two integers succeeds, between them. *)
Lemma py_int_between (n : number) (a b : Z) :
  num_leb (NInt a) n = true -> num_leb n (NInt b) = true ->
  exists z, py_int n = Ok z /\ a <= z <= b.
Proof.
  unfold num_leb. destruct n as [z | [q | [|] | ]]; simpl; intros Ha Hb;
    try discriminate.
  - apply Qle_bool_true in Ha, Hb. rewrite <- Zle_Qle in Ha, Hb. eauto.
  - apply Qle_bool_true in Ha, Hb. exists (Qtrunc q). split; [reflexivity|].
    split; [apply Qtrunc_lower | apply Qtrunc_upper]; assumption.
Qed.

(** [int()] is monotone. *)
Lemma py_int_mono (m n : number) (y z : Z) :
  num_leb m n = true -> py_int m = Ok y -> py_int n = Ok z -> y <= z.
Proof.
  unfold num_leb.
  destruct m as [a | [p | [|] | ]]; destruct n as [b | [q | [|] | ]]; simpl;
    intros H Hy Hz; try discriminate;
    injection Hy as <-; injection Hz as <-; apply Qle_bool_true in H.
  - rewrite <- Zle_Qle in H. exact H.
  - apply Qtrunc_lower. exact H.
  - apply Qtrunc_upper. exact H.
  - apply Qtrunc_mono. exact H.
Qed.

(** [float()] of a number between two rationals is a float between them. *)
Lemma py_float_between (n : number) (lo hi : Q) :
  num_leb (NFloat (FFin lo)) n = true -> num_leb n (NFloat (FFin hi)) = true ->
  float_between lo hi (py_float n).
Proof.
  unfold num_leb, float_between, py_float.
  destruct n as [z | [q | [|] | ]]; simpl; intros Ha Hb; try discriminate;
    apply Qle_bool_true in Ha, Hb; eauto.
Qed.

(** ** Results *)

Lemma bind_Ok {A B} (r : result A) (k : A -> result B) (b : B) :
  r ≫= k = Ok b -> exists a, r = Ok a /\ k a = Ok b.
Proof. destruct r as [a|e]; simpl; [eauto | discriminate]. Qed.

Lemma bind_Raise {A B} (r : result A) (k : A -> result B) (e : exn) :
  r ≫= k = Raise e -> r = Raise e \/ exists a, r = Ok a /\ k a = Raise e.
Proof. destruct r as [a|e']; simpl; [eauto | intros [= ->]; auto]. Qed.

(** ** [int(clamp(x, lo, hi))] with integer bounds *)

Lemma py_int_clamp (x : number) (a b : Z) :
  a <= b -> exists z, py_int (clamp x (NInt a) (NInt b)) = Ok z.
Proof.
  intros Hab.
  destruct (clamp_number_bounds x (NInt a) (NInt b)) as [Hlo Hhi].
  - unfold num_leb. simpl. apply Qle_bool_true. rewrite <- Zle_Qle. exact Hab.
  - destruct (py_int_between _ a b Hlo Hhi) as (z & Hz & _). eauto.
Qed.

Lemma py_int_clamp_between (x : number) (a b z : Z) :
  a <= b -> py_int (clamp x (NInt a) (NInt b)) = Ok z -> a <= z <= b.
Proof.
  intros Hab Hz.
  destruct (clamp_number_bounds x (NInt a) (NInt b)) as [Hlo Hhi].
  - unfold num_leb. simpl. apply Qle_bool_true. rewrite <- Zle_Qle. exact Hab.
  - destruct (py_int_between _ a b Hlo Hhi) as (z' & Hz' & Hb). congruence.
Qed.

Lemma clamp_Z_spec (v lo hi : Z) :
  lo <= hi ->
  lo <= clamp v lo hi <= hi /\
  (lo <= v <= hi -> clamp v lo hi = v) /\
  (v < lo -> clamp v lo hi = lo) /\
  (hi < v -> clamp v lo hi = hi).
Proof.
  intros H. unfold clamp, py_max, py_min, py_lt, Z_PyOrd.
  destruct (Z.ltb_spec hi v); destruct (Z.ltb_spec lo hi);
    destruct (Z.ltb_spec lo v); lia.
Qed.

Lemma clamp_Z_mono (u v lo hi : Z) : u <= v -> clamp u lo hi <= clamp v lo hi.
Proof.
  intros H. unfold clamp, py_max, py_min, py_lt, Z_PyOrd.
  destruct (Z.ltb_spec hi u); destruct (Z.ltb_spec hi v);
    repeat match goal with
           | |- context [?a <? ?b] => destruct (Z.ltb_spec a b)
           end; lia.
Qed.

Lemma py_min_Z (a b : Z) : py_min a b = Z.min a b.
Proof. unfold py_min, py_lt, Z_PyOrd. destruct (Z.ltb_spec b a); lia. Qed.

(** ** Rounding to binary64 *)

Lemma pow2_pos (e : Z) : (0 < 2 ^ e)%Q.
Proof. apply Qpower_0_lt. reflexivity. Qed.

Lemma pow2_le (n m : Z) : n <= m -> (2 ^ n <= 2 ^ m)%Q.
Proof. intros H. apply Qpower_le_compat_l; [exact H | discriminate]. Qed.

Lemma pow2_add (n m : Z) : (2 ^ (n + m) == 2 ^ n * 2 ^ m)%Q.
Proof. apply Qpower_plus. discriminate. Qed.

Lemma pow2_Z (n : Z) : 0 <= n -> (inject_Z (2 ^ n) == 2 ^ n)%Q.
Proof. intros H. apply (Zpower_Qpower 2 n H). Qed.

(** [Qexponent] finds the binade of a positive rational. *)
Lemma Qexponent_spec (q : Q) :
  (0 < q)%Q -> (2 ^ Qexponent q <= q)%Q /\ (q < 2 ^ (Qexponent q + 1))%Q.
Proof.
  intros Hq. destruct q as [n d].
  assert (Hn : 0 < n) by (unfold Qlt in Hq; simpl in Hq; lia).
  unfold Qexponent. cbn [Qnum Qden].
  set (a := Z.log2 n). set (b := Z.log2 (Z.pos d)).
  destruct (Z.log2_spec n Hn) as [Ha1 Ha2]. fold a in Ha1, Ha2.
  destruct (Z.log2_spec (Z.pos d) ltac:(lia)) as [Hb1 Hb2]. fold b in Hb1, Hb2.
  assert (Ha0 : 0 <= a) by apply Z.log2_nonneg.
  assert (Hb0 : 0 <= b) by apply Z.log2_nonneg.
  assert (Hpa : 0 < 2 ^ a) by lia.
  assert (Hpb : 0 < 2 ^ b) by lia.
  assert (Hlow : (2 ^ (a - b - 1) < n # d)%Q).
  { replace (a - b - 1) with (a - (b + 1)) by lia.
    rewrite Qpower_minus by discriminate.
    rewrite <- !pow2_Z by lia.
    apply Qlt_shift_div_r.
    - rewrite <- (Zlt_Qlt 0). lia.
    - unfold Qlt. simpl. nia. }
  assert (Hup : (n # d < 2 ^ (a - b + 1))%Q).
  { replace (a - b + 1) with (a + 1 - b) by lia.
    rewrite Qpower_minus by discriminate.
    rewrite <- !pow2_Z by lia.
    apply Qlt_shift_div_l.
    - rewrite <- (Zlt_Qlt 0). lia.
    - unfold Qlt. simpl. nia. }
  destruct (Qle_bool (2 ^ (a - b)) (n # d)) eqn:E.
  - apply Qle_bool_true in E. split; [exact E | exact Hup].
  - split; [apply Qlt_le_weak, Hlow|].
    replace (a - b - 1 + 1) with (a - b) by lia.
    apply Qle_bool_false, E.
Qed.

Lemma Qexponent_mono (p q : Q) :
  (0 < p)%Q -> (p <= q)%Q -> Qexponent p <= Qexponent q.
Proof.
  intros Hp Hpq.
  destruct (Qexponent_spec p Hp) as [Hp1 _].
  destruct (Qexponent_spec q) as [_ Hq2]; [lra|].
  destruct (Z.le_gt_cases (Qexponent p) (Qexponent q)) as [H|H]; [exact H|].
  exfalso.
  assert (H2 : (2 ^ (Qexponent q + 1) <= 2 ^ Qexponent p)%Q) by (apply pow2_le; lia).
  lra.
Qed.

Lemma Qround_half_even_near (q : Q) :
  Qround_half_even q = Qfloor q \/ Qround_half_even q = Qfloor q + 1.
Proof.
  unfold Qround_half_even.
  destruct (Qltb _ _); [auto|].
  destruct (Qltb _ _); [auto|].
  destruct (Z.even _); auto.
Qed.

Lemma Qround_half_even_mono (p q : Q) :
  (p <= q)%Q -> Qround_half_even p <= Qround_half_even q.
Proof.
  intros H. pose proof (Qfloor_resp_le p q H) as Hf.
  destruct (Z.eq_dec (Qfloor p) (Qfloor q)) as [E|E].
  - unfold Qround_half_even, Qltb. rewrite E.
    destruct (Qle_bool (1 # 2) (p - inject_Z (Qfloor q))) eqn:E1;
      destruct (Qle_bool (1 # 2) (q - inject_Z (Qfloor q))) eqn:E2; simpl;
      try lia.
    + destruct (Qle_bool (p - inject_Z (Qfloor q)) (1 # 2)) eqn:E3;
        destruct (Qle_bool (q - inject_Z (Qfloor q)) (1 # 2)) eqn:E4; simpl;
        try lia.
      * destruct (Z.even (Qfloor q)); lia.
      * apply Qle_bool_true in E4. apply Qle_bool_false in E3. lra.
    + apply Qle_bool_true in E1. apply Qle_bool_false in E2. lra.
    + destruct (Qle_bool (q - inject_Z (Qfloor q)) (1 # 2)); simpl;
        [destruct (Z.even (Qfloor q))|]; lia.
  - destruct (Qround_half_even_near p) as [-> | ->];
      destruct (Qround_half_even_near q) as [-> | ->]; lia.
Qed.

Lemma Qround_half_even_Qeq (p q : Q) :
  (p == q)%Q -> Qround_half_even p = Qround_half_even q.
Proof.
  intros H.
  assert (Qround_half_even p <= Qround_half_even q)
    by (apply Qround_half_even_mono; rewrite H; apply Qle_refl).
  assert (Qround_half_even q <= Qround_half_even p)
    by (apply Qround_half_even_mono; rewrite H; apply Qle_refl).
  lia.
Qed.

Lemma Qround_half_even_Z (z : Z) : Qround_half_even (inject_Z z) = z.
Proof.
  unfold Qround_half_even. rewrite Qfloor_Z.
  assert (E : Qltb (inject_Z z - inject_Z z) (1 # 2) = true).
  { unfold Qltb. apply negb_true_iff, Qle_bool_false. lra. }
  rewrite E. reflexivity.
Qed.

(** The significand of a positive rational at its exponent has at most 53
    bits, and exactly 53 above the subnormal range. *)
Lemma scaled_bounds (a : Q) :
  (0 < a)%Q ->
  let e := Z.max (Qexponent a) (-1022) in
  let s := (a / 2 ^ (e - 52))%Q in
  (s < inject_Z (2 ^ 53))%Q /\
  (-1022 <= Qexponent a -> (inject_Z (2 ^ 52) <= s)%Q).
Proof.
  intros Ha e s. destruct (Qexponent_spec a Ha) as [H1 H2].
  pose proof (pow2_pos (e - 52)) as Hu.
  split.
  - apply Qlt_shift_div_r; [exact Hu|].
    rewrite pow2_Z by lia. rewrite <- pow2_add.
    replace (53 + (e - 52)) with (e + 1) by lia.
    assert (H3 : (2 ^ (Qexponent a + 1) <= 2 ^ (e + 1))%Q) by (apply pow2_le; lia).
    lra.
  - intros He. apply Qle_shift_div_l; [exact Hu|].
    rewrite pow2_Z by lia. rewrite <- pow2_add.
    replace (52 + (e - 52)) with (Qexponent a) by lia.
    exact H1.
Qed.

Lemma round_binary64_bounds (a : Q) :
  (0 < a)%Q ->
  let e := Z.max (Qexponent a) (-1022) in
  (round_binary64 a <= 2 ^ (e + 1))%Q /\
  (-1022 <= Qexponent a -> (2 ^ e <= round_binary64 a)%Q).
Proof.
  intros Ha e. destruct (scaled_bounds a Ha) as [H1 H2]. fold e in H1, H2.
  unfold round_binary64. fold e.
  pose proof (pow2_pos (e - 52)) as Hu.
  set (s := (a / 2 ^ (e - 52))%Q) in *.
  split.
  - assert (Hm : Qround_half_even s <= 2 ^ 53).
    { rewrite <- (Qround_half_even_Z (2 ^ 53)).
      apply Qround_half_even_mono. lra. }
    assert (Hk : (2 ^ (e + 1) == inject_Z (2 ^ 53) * 2 ^ (e - 52))%Q).
    { rewrite pow2_Z by lia. rewrite <- pow2_add. f_equiv. lia. }
    rewrite Hk. apply Qmult_le_compat_r; [|lra].
    rewrite <- Zle_Qle. exact Hm.
  - intros He. specialize (H2 He).
    assert (Hm : 2 ^ 52 <= Qround_half_even s).
    { rewrite <- (Qround_half_even_Z (2 ^ 52)).
      apply Qround_half_even_mono. exact H2. }
    assert (Hk : (2 ^ e == inject_Z (2 ^ 52) * 2 ^ (e - 52))%Q).
    { rewrite pow2_Z by lia. rewrite <- pow2_add. f_equiv. lia. }
    rewrite Hk. apply Qmult_le_compat_r; [|lra].
    rewrite <- Zle_Qle. exact Hm.
Qed.

Lemma round_binary64_nonneg (a : Q) : (0 <= a)%Q -> (0 <= round_binary64 a)%Q.
Proof.
  intros Ha. unfold round_binary64.
  set (e := Z.max (Qexponent a) (-1022)).
  pose proof (pow2_pos (e - 52)) as Hu.
  apply Qmult_le_0_compat; [|lra].
  rewrite <- (Zle_Qle 0). rewrite <- (Qround_half_even_Z 0).
  apply Qround_half_even_mono.
  apply Qle_shift_div_l; [exact Hu|].
  change (inject_Z 0) with 0%Q. rewrite Qmult_0_l. exact Ha.
Qed.

(** Rounding keeps the order: within a binade because rounding to an
    integer does, across binades because a power of two lies between. *)
Lemma round_binary64_mono (p q : Q) :
  (0 <= p)%Q -> (p <= q)%Q -> (round_binary64 p <= round_binary64 q)%Q.
Proof.
  intros Hp Hpq.
  destruct (Qlt_le_dec 0 p) as [Hp0|Hp0].
  - assert (Hq0 : (0 < q)%Q) by lra.
    pose proof (Qexponent_mono p q Hp0 Hpq) as He.
    destruct (round_binary64_bounds p Hp0) as [Hpu _].
    destruct (round_binary64_bounds q Hq0) as [_ Hql].
    set (ep := Z.max (Qexponent p) (-1022)) in *.
    set (eq := Z.max (Qexponent q) (-1022)) in *.
    destruct (Z.eq_dec ep eq) as [E|E].
    + unfold round_binary64. fold ep eq. rewrite E.
      pose proof (pow2_pos (eq - 52)) as Hu.
      apply Qmult_le_compat_r; [|lra].
      rewrite <- Zle_Qle. apply Qround_half_even_mono.
      apply Qle_shift_div_l; [exact Hu|].
      unfold Qdiv.
      rewrite <- Qmult_assoc, (Qmult_comm (/ _)), Qmult_inv_r, Qmult_1_r by lra.
      exact Hpq.
    + assert (Hlt : ep + 1 <= eq) by lia.
      assert (H1 : (2 ^ (ep + 1) <= 2 ^ eq)%Q) by (apply pow2_le; exact Hlt).
      assert (H2 : (2 ^ eq <= round_binary64 q)%Q) by (apply Hql; lia).
      lra.
  - assert (E : (p == 0)%Q) by lra.
    assert (H0 : (round_binary64 p == 0)%Q).
    { unfold round_binary64.
      set (e := Z.max (Qexponent p) (-1022)).
      assert (Hs : Qround_half_even (p / 2 ^ (e - 52)) = 0).
      { rewrite <- (Qround_half_even_Z 0). apply Qround_half_even_Qeq.
        rewrite E. unfold Qdiv. rewrite Qmult_0_l. reflexivity. }
      rewrite Hs. apply Qmult_0_l. }
    rewrite H0. apply round_binary64_nonneg. lra.
Qed.

(** [binary64] gives an infinity or a rational, never NaN. *)
Lemma binary64_cases (q : Q) :
  let r := Qred (round_binary64 (Qabs q)) in
  (0 <= r)%Q /\
  (((2 ^ 1024 <= r)%Q /\ binary64 q = FInf (Qltb q 0)) \/
   ((r < 2 ^ 1024)%Q /\ binary64 q = FFin (if Qltb q 0 then (- r)%Q else r))).
Proof.
  intros r. split.
  - unfold r. rewrite Qred_correct. apply round_binary64_nonneg, Qabs_nonneg.
  - unfold binary64. fold r.
    destruct (Qle_bool (2 ^ 1024) r) eqn:E.
    + left. split; [apply Qle_bool_true, E | reflexivity].
    + right. split; [apply Qle_bool_false, E | reflexivity].
Qed.

Lemma Qltb_true (x y : Q) : Qltb x y = true <-> (x < y)%Q.
Proof. unfold Qltb. rewrite negb_true_iff. apply Qle_bool_false. Qed.

Lemma Qltb_false (x y : Q) : Qltb x y = false <-> (y <= x)%Q.
Proof. unfold Qltb. rewrite negb_false_iff. apply Qle_bool_true. Qed.

(** Rounding to the nearest double keeps the order. *)
Lemma binary64_mono (p q : Q) :
  (p <= q)%Q -> float_leb (binary64 p) (binary64 q) = true.
Proof.
  intros Hpq.
  destruct (binary64_cases p) as [Hp0 Hp]. destruct (binary64_cases q) as [Hq0 Hq].
  set (rp := Qred (round_binary64 (Qabs p))) in *.
  set (rq := Qred (round_binary64 (Qabs q))) in *.
  assert (Erp : (rp == round_binary64 (Qabs p))%Q) by apply Qred_correct.
  assert (Erq : (rq == round_binary64 (Qabs q))%Q) by apply Qred_correct.
  destruct (Qltb p 0) eqn:Sp; destruct (Qltb q 0) eqn:Sq.
  - apply Qltb_true in Sp, Sq.
    assert (Hr : (rq <= rp)%Q).
    { rewrite Erp, Erq. apply round_binary64_mono; [apply Qabs_nonneg|].
      rewrite (Qabs_neg p), (Qabs_neg q) by lra. lra. }
    destruct Hp as [[Hp ->] | [Hp ->]]; destruct Hq as [[Hq ->] | [Hq ->]];
      simpl; try reflexivity; try (exfalso; lra).
    apply Qle_bool_true. lra.
  - destruct Hp as [[Hp ->] | [Hp ->]]; destruct Hq as [[Hq ->] | [Hq ->]];
      simpl; try reflexivity.
    apply Qle_bool_true. lra.
  - apply Qltb_false in Sp. apply Qltb_true in Sq. exfalso. lra.
  - apply Qltb_false in Sp, Sq.
    assert (Hr : (rp <= rq)%Q).
    { rewrite Erp, Erq. apply round_binary64_mono; [apply Qabs_nonneg|].
      rewrite (Qabs_pos p), (Qabs_pos q) by lra. exact Hpq. }
    destruct Hp as [[Hp ->] | [Hp ->]]; destruct Hq as [[Hq ->] | [Hq ->]];
      simpl; try reflexivity; try (exfalso; lra).
    apply Qle_bool_true. exact Hr.
Qed.

(** Between two rationals that round to doubles, every rational does. *)
Lemma binary64_between (q a b qa qb : Q) :
  (a <= q <= b)%Q -> binary64 a = FFin qa -> binary64 b = FFin qb ->
  exists r, binary64 q = FFin r /\ (qa <= r <= qb)%Q.
Proof.
  intros [Ha Hb] Ea Eb.
  pose proof (binary64_mono a q Ha) as H1.
  pose proof (binary64_mono q b Hb) as H2.
  rewrite Ea in H1. rewrite Eb in H2.
  destruct (binary64 q) as [r | [|] |]; simpl in H1, H2; try discriminate.
  exists r. split; [reflexivity|].
  split; apply Qle_bool_true; assumption.
Qed.

(** Equal rationals round to the same double. *)
Lemma binary64_Qeq (p q : Q) : (p == q)%Q -> binary64 p = binary64 q.
Proof.
  intros H. unfold binary64.
  assert (Hr : Qred (round_binary64 (Qabs p)) = Qred (round_binary64 (Qabs q))).
  { apply Qred_complete. apply Qle_antisym;
      (apply round_binary64_mono; [apply Qabs_nonneg|]); rewrite H; apply Qle_refl. }
  assert (Hs : Qltb p 0 = Qltb q 0).
  { unfold Qltb. f_equal. destruct (Qle_bool 0 p) eqn:E1; symmetry.
    - apply Qle_bool_true. apply Qle_bool_true in E1. rewrite <- H. exact E1.
    - apply Qle_bool_false. apply Qle_bool_false in E1. rewrite <- H. exact E1. }
  rewrite Hr, Hs. reflexivity.
Qed.

(** Known doubles: 0.1; the tie at [2^53 + 1]; the largest double and the
    first integer beyond the range; [round(1.0005, 3)], which is 1.0
    because the double 1.0005 lies below the decimal, and
    [round(1.0015, 3)], which is 1.002 because the double 1.0015 lies
    above it. *)
Example binary64_examples :
  binary64 (1 # 10) = FFin (3602879701896397 # 36028797018963968) /\
  binary64 (inject_Z (2 ^ 53 + 1)) = FFin (inject_Z (2 ^ 53)) /\
  float_of_int (2 ^ 1024 - 2 ^ 970 - 1) = Ok (FFin (inject_Z (2 ^ 1024 - 2 ^ 971))) /\
  float_of_int (2 ^ 1024 - 2 ^ 970) = Raise OverflowError /\
  float_of_int (10 ^ 400) = Raise OverflowError /\
  b64_round3 (b64_lit 10005 10000) = FFin 1 /\
  b64_round3 (b64_lit 10015 10000) = b64_lit 1002 1000.
Proof. vm_compute. repeat split; reflexivity. Qed.

(** ** Integers that meet a float *)

Lemma float_of_int_cases (z : Z) :
  (exists q, float_of_int z = Ok (FFin q) /\ binary64 (inject_Z z) = FFin q)
  \/ (float_of_int z = Raise OverflowError /\ fits_float z = false).
Proof.
  unfold fits_float, float_of_int.
  destruct (binary64_cases (inject_Z z)) as [_ [[_ ->] | [_ ->]]]; eauto.
Qed.

Lemma fits_float_Ok (z : Z) :
  fits_float z = true <-> exists q, float_of_int z = Ok (FFin q).
Proof.
  destruct (float_of_int_cases z) as [(q & Hq & _) | [Hr Hf]].
  - unfold fits_float. rewrite Hq. split; eauto.
  - rewrite Hf, Hr. split; [discriminate | intros [q Hq]; discriminate].
Qed.

Lemma float_of_int_between (z a b : Z) (qa qb : Q) :
  a <= z <= b ->
  float_of_int a = Ok (FFin qa) -> float_of_int b = Ok (FFin qb) ->
  exists q, float_of_int z = Ok (FFin q) /\ (qa <= q <= qb)%Q.
Proof.
  intros [Ha Hb] Ea Eb.
  assert (Fa : binary64 (inject_Z a) = FFin qa).
  { destruct (float_of_int_cases a) as [(q & Hq & Hb64) | [Hr _]]; congruence. }
  assert (Fb : binary64 (inject_Z b) = FFin qb).
  { destruct (float_of_int_cases b) as [(q & Hq & Hb64) | [Hr _]]; congruence. }
  destruct (binary64_between (inject_Z z) (inject_Z a) (inject_Z b) qa qb)
    as (r & Hr & Hbounds); [|exact Fa|exact Fb|].
  - rewrite <- !Zle_Qle. lia.
  - exists r. split; [|exact Hbounds]. unfold float_of_int. rewrite Hr. reflexivity.
Qed.

(** Every integer up to [2^1023] in magnitude converts; the fan limits of
    the data model, between 0 and 100, are far inside. *)
Lemma fits_float_range (z : Z) : - 2 ^ 1023 <= z <= 2 ^ 1023 -> fits_float z = true.
Proof.
  intros H. apply fits_float_Ok.
  destruct (float_of_int_between z (- 2 ^ 1023) (2 ^ 1023)
              (inject_Z (- 2 ^ 1023)) (inject_Z (2 ^ 1023)) H)
    as (q & Hq & _); [vm_compute; reflexivity | vm_compute; reflexivity |].
  eauto.
Qed.

(** The difference between the tuned and the base nozzle temperature lies
    in the window, so it converts, and so does its product with a literal
    below 1. *)
Lemma tune_window (base : MaterialPreset) (req : Z) :
  -10 <= clamp req (nozzle_temp base - 10) (nozzle_temp base + 15) - nozzle_temp base
  <= 15.
Proof.
  destruct (clamp_Z_spec req (nozzle_temp base - 10) (nozzle_temp base + 15))
    as [H _]; lia.
Qed.

Lemma float_of_int_window (d : Z) :
  -10 <= d <= 15 ->
  exists q, float_of_int d = Ok (FFin q) /\ (inject_Z (-10) <= q <= inject_Z 15)%Q.
Proof.
  intros H.
  apply (float_of_int_between d (-10) 15 (inject_Z (-10)) (inject_Z 15) H);
    vm_compute; reflexivity.
Qed.

Lemma int_mul_float_window (d : Z) (y : float) :
  -10 <= d <= 15 ->
  exists q, float_of_int d = Ok (FFin q) /\
            (inject_Z (-10) <= q <= inject_Z 15)%Q /\
            int_mul_float d y = Ok (b64_mul (FFin q) y).
Proof.
  intros H. destruct (float_of_int_window d H) as (q & Hq & Hb).
  exists q. split; [exact Hq|]. split; [exact Hb|].
  unfold int_mul_float. rewrite Hq. reflexivity.
Qed.

(** Half the difference is a double between -5 and 7.5, and grows with the
    difference. *)
Lemma half_step (q : Q) :
  (inject_Z (-10) <= q <= inject_Z 15)%Q ->
  exists h, b64_mul (FFin q) (b64_lit 5 10) = FFin h /\ (-5 <= h <= 15 # 2)%Q.
Proof.
  intros H.
  assert (E : b64_lit 5 10 = FFin (1 # 2)) by (vm_compute; reflexivity).
  rewrite E. unfold b64_mul. cbn [float_mul b64].
  destruct (binary64_between (q * (1 # 2)) (-5) (15 # 2) (-5) (15 # 2))
    as (h & Hh & Hb); [|vm_compute; reflexivity|vm_compute; reflexivity|].
  - unfold inject_Z in H. lra.
  - eauto.
Qed.

Lemma half_step_mono (p q : Q) (hp hq : Q) :
  (p <= q)%Q ->
  b64_mul (FFin p) (b64_lit 5 10) = FFin hp ->
  b64_mul (FFin q) (b64_lit 5 10) = FFin hq ->
  (hp <= hq)%Q.
Proof.
  assert (E : b64_lit 5 10 = FFin (1 # 2)) by (vm_compute; reflexivity).
  rewrite E. unfold b64_mul. cbn [float_mul b64].
  intros Hpq Hp Hq.
  pose proof (binary64_mono (p * (1 # 2)) (q * (1 # 2)) ltac:(lra)) as H.
  rewrite Hp, Hq in H. simpl in H. apply Qle_bool_true, H.
Qed.

(** ** The tuning engine *)

(** What a returned result holds: the two temperatures and the pressure
    advance whatever the family; the fan values of the PLA branch as
    integers, those of the other branch through the float arithmetic of
    the source. *)
Lemma ai_tune_filament_Ok (base : MaterialPreset) (req : Z) (t : TunedParameters) :
  ai_tune_filament base req = Ok t ->
  let d := clamp req (nozzle_temp base - 10) (nozzle_temp base + 15)
           - nozzle_temp base in
  t_nozzle_temp t = clamp req (nozzle_temp base - 10) (nozzle_temp base + 15) /\
  t_bed_temp t =
    (if nozzle_temp base + 5 <? t_nozzle_temp t
     then py_min (bed_temp base + 5) (bed_temp base + 10)
     else bed_temp base) /\
  t_pressure_advance t = default_pressure_advance base /\
  (exists step,
     int_mul_float d (b64_lit 2 1000) = Ok step /\
     t_flow_ratio t =
       b64_round3 (clamp (b64_sub (b64 (flow_ratio base)) step)
                         (b64_lit 96 100) (b64_lit 104 100))) /\
  if str_in "PLA" (name base)
  then t_fan_speed t = clamp (fan_speed base - d * 2) 80 100 /\
       t_fan_speed_min t = clamp (fan_speed_min base - d) 70 100 /\
       t_fan_speed_max t = 100
  else exists half low high,
       int_mul_float d (b64_lit 5 10) = Ok half /\
       int_sub_float (fan_speed_min base) half = Ok low /\
       int_sub_float (fan_speed_max base) half = Ok high /\
       t_fan_speed t = clamp (fan_speed base - d) 25 65 /\
       py_int (clamp (NFloat low) (NInt 20) (NInt 60)) = Ok (t_fan_speed_min t) /\
       py_int (clamp (NFloat high) (NInt 40) (NInt 80)) = Ok (t_fan_speed_max t).
Proof.
  intros H d. unfold ai_tune_filament in H.
  apply bind_Ok in H as ([[fs fmin] fmax] & Hfans & H).
  apply bind_Ok in H as (step & Hstep & H).
  apply bind_Ok in H as (fs' & Hfs & H).
  apply bind_Ok in H as (fmin' & Hfmin & H).
  apply bind_Ok in H as (fmax' & Hfmax & H).
  injection H as <-. cbn [t_nozzle_temp t_bed_temp t_pressure_advance t_flow_ratio
                          t_fan_speed t_fan_speed_min t_fan_speed_max].
  split; [reflexivity|]. split; [reflexivity|]. split; [reflexivity|].
  split; [exists step; split; [exact Hstep | reflexivity]|].
  destruct (str_in "PLA" (name base)).
  - injection Hfans as <- <- <-. simpl in Hfs, Hfmin, Hfmax.
    injection Hfs as <-. injection Hfmin as <-. injection Hfmax as <-.
    auto.
  - apply bind_Ok in Hfans as (half & Hhalf & Hfans).
    apply bind_Ok in Hfans as (low & Hlow & Hfans).
    apply bind_Ok in Hfans as (half' & Hhalf' & Hfans).
    apply bind_Ok in Hfans as (high & Hhigh & Hfans).
    injection Hfans as <- <- <-. simpl in Hfs. injection Hfs as <-.
    fold d in Hhalf, Hhalf'. rewrite Hhalf in Hhalf'. injection Hhalf' as <-.
    exists half, low, high. auto 10.
Qed.

(** The engine returns for a preset of the PLA family, and for any other
    preset when both of its fan limits convert to a float. *)
Lemma ai_tune_filament_total (base : MaterialPreset) (req : Z) :
  str_in "PLA" (name base) = true
  \/ fits_float (fan_speed_min base) && fits_float (fan_speed_max base) = true ->
  exists t, ai_tune_filament base req = Ok t.
Proof.
  intros H. unfold ai_tune_filament.
  set (d := clamp req (nozzle_temp base - 10) (nozzle_temp base + 15)
            - nozzle_temp base).
  destruct (int_mul_float_window d (b64_lit 2 1000) (tune_window base req))
    as (q & Hq & _ & Hstep).
  destruct (str_in "PLA" (name base)) eqn:HPLA.
  - cbn [mbind result_bind mret result_ret]. rewrite Hstep.
    cbn [mbind result_bind mret result_ret py_int]. eauto.
  - destruct H as [H|H]; [discriminate|].
    apply andb_true_iff in H as [Hmin Hmax].
    apply fits_float_Ok in Hmin as [xl Hxl]. apply fits_float_Ok in Hmax as [xh Hxh].
    destruct (int_mul_float_window d (b64_lit 5 10) (tune_window base req))
      as (q' & _ & _ & Hhalf).
    rewrite Hhalf. unfold int_sub_float. rewrite Hxl, Hxh.
    cbn [mbind result_bind mret result_ret]. rewrite Hstep.
    cbn [mbind result_bind mret result_ret py_int].
    match goal with
    | |- context [py_int (clamp ?x (NInt 20) (NInt 60))] =>
        destruct (py_int_clamp x 20 60 ltac:(lia)) as [z1 ->]
    end.
    match goal with
    | |- context [py_int (clamp ?x (NInt 40) (NInt 80))] =>
        destruct (py_int_clamp x 40 80 ltac:(lia)) as [z2 ->]
    end.
    cbn [mbind result_bind mret result_ret]. eauto.
Qed.

(** Conversely a result for a preset outside the PLA family means that both
    fan limits converted. *)
Lemma ai_tune_filament_fits (base : MaterialPreset) (req : Z) (t : TunedParameters) :
  ai_tune_filament base req = Ok t ->
  str_in "PLA" (name base) = true
  \/ fits_float (fan_speed_min base) && fits_float (fan_speed_max base) = true.
Proof.
  intros H. apply ai_tune_filament_Ok in H as (_ & _ & _ & _ & H).
  destruct (str_in "PLA" (name base)); [auto|]. right.
  destruct H as (half & low & high & _ & Hlow & Hhigh & _).
  unfold int_sub_float in Hlow, Hhigh.
  apply bind_Ok in Hlow as (xl & Hxl & _). apply bind_Ok in Hhigh as (xh & Hxh & _).
  unfold fits_float. rewrite Hxl, Hxh. reflexivity.
Qed.

(** The only exception of the engine is the [OverflowError] of a fan limit
    that does not convert. *)
Lemma ai_tune_filament_raises (base : MaterialPreset) (req : Z) (e : exn) :
  ai_tune_filament base req = Raise e -> e = OverflowError.
Proof.
  destruct (str_in "PLA" (name base)
            || fits_float (fan_speed_min base) && fits_float (fan_speed_max base))
    eqn:E.
  - destruct (ai_tune_filament_total base req) as [t Ht].
    + apply orb_true_iff in E. exact E.
    + rewrite Ht. discriminate.
  - apply orb_false_iff in E as [HPLA Hfits].
    unfold ai_tune_filament. rewrite HPLA.
    set (d := clamp req (nozzle_temp base - 10) (nozzle_temp base + 15)
              - nozzle_temp base).
    destruct (int_mul_float_window d (b64_lit 5 10) (tune_window base req))
      as (q & _ & _ & Hhalf).
    rewrite Hhalf. cbn [mbind result_bind]. unfold int_sub_float.
    destruct (float_of_int_cases (fan_speed_min base)) as [(xl & Hxl & _) | [Hxl _]];
      rewrite Hxl; cbn [mbind result_bind mret result_ret];
      [|intros [= <-]; reflexivity].
    destruct (float_of_int_cases (fan_speed_max base)) as [(xh & Hxh & _) | [Hxh _]];
      rewrite Hxh; cbn [mbind result_bind mret result_ret];
      [|intros [= <-]; reflexivity].
    exfalso. unfold fits_float in Hfits. rewrite Hxl, Hxh in Hfits. discriminate.
Qed.

(** C2: whenever the engine returns, the tuned nozzle temperature is the
    request clamped to the window
    [base.nozzle_temp - 10, base.nozzle_temp + 15], so it lies in that
    window and equals the request when the request does; the engine returns
    exactly for the presets of the PLA family and those whose two fan
    limits convert to a float, which every limit up to [2^1023] in
    magnitude does; and for a PLA-family preset with nozzle temperature 210
    and request 225 the tuned nozzle temperature is 225 and the fan speed
    is [clamp(base.fan_speed - 30, 80, 100)]. *)
Theorem tune_nozzle_temp_window (base : MaterialPreset) (req : Z) :
  (forall t,
     ai_tune_filament base req = Ok t ->
     t_nozzle_temp t = clamp req (nozzle_temp base - 10) (nozzle_temp base + 15) /\
     nozzle_temp base - 10 <= t_nozzle_temp t <= nozzle_temp base + 15 /\
     (nozzle_temp base - 10 <= req <= nozzle_temp base + 15 ->
      t_nozzle_temp t = req)) /\
  ((exists t, ai_tune_filament base req = Ok t) <->
   str_in "PLA" (name base) = true
   \/ fits_float (fan_speed_min base) && fits_float (fan_speed_max base) = true) /\
  (- 2 ^ 1023 <= fan_speed_min base <= 2 ^ 1023 ->
   - 2 ^ 1023 <= fan_speed_max base <= 2 ^ 1023 ->
   exists t, ai_tune_filament base req = Ok t) /\
  (str_in "PLA" (name base) = true -> nozzle_temp base = 210 -> req = 225 ->
   exists t,
     ai_tune_filament base req = Ok t /\
     t_nozzle_temp t = 225 /\
     t_fan_speed t = clamp (fan_speed base - 30) 80 100).
Proof.
  split; [|split; [|split]].
  - intros t Ht. apply ai_tune_filament_Ok in Ht as (Hn & _).
    destruct (clamp_Z_spec req (nozzle_temp base - 10) (nozzle_temp base + 15))
      as (Hb & Hin & _); [lia|].
    rewrite Hn. auto.
  - split.
    + intros [t Ht]. exact (ai_tune_filament_fits base req t Ht).
    + apply ai_tune_filament_total.
  - intros Hmin Hmax. apply ai_tune_filament_total. right.
    rewrite !fits_float_range by assumption. reflexivity.
  - intros HPLA H210 ->.
    destruct (ai_tune_filament_total base 225 (or_introl HPLA)) as [t Ht].
    exists t. split; [exact Ht|].
    apply ai_tune_filament_Ok in Ht as (Hn & _ & _ & _ & Hfans).
    rewrite HPLA in Hfans. destruct Hfans as (Hs & _).
    destruct (clamp_Z_spec 225 (nozzle_temp base - 10) (nozzle_temp base + 15))
      as (_ & Hin & _); [lia|].
    rewrite Hin in Hn, Hs by lia.
    split; [exact Hn|]. rewrite Hs, H210. reflexivity.
Qed.

(** The catalogue's PLA preset, tuned for 225 degrees. *)
Lemma tune_nozzle_temp_window_witness :
  exists t,
    ai_tune_filament pla_preset 225 = Ok t /\
    t_nozzle_temp t = 225 /\ t_fan_speed t = 80.
Proof.
  destruct (tune_nozzle_temp_window pla_preset 225) as (_ & _ & _ & H).
  apply H; reflexivity.
Defined.

(** C6: whenever the engine returns, the tuned bed temperature is the base
    bed temperature, except that it is the base bed temperature plus 5 when
    the tuned nozzle temperature is above the base nozzle temperature plus
    5; the engine returns exactly for the presets of the PLA family and
    those whose two fan limits convert to a float, which every limit up to
    [2^1023] in magnitude does. *)
Theorem tune_bed_temp (base : MaterialPreset) (req : Z) :
  (forall t,
     ai_tune_filament base req = Ok t ->
     t_bed_temp t =
       (if nozzle_temp base + 5 <? t_nozzle_temp t
        then bed_temp base + 5 else bed_temp base)) /\
  ((exists t, ai_tune_filament base req = Ok t) <->
   str_in "PLA" (name base) = true
   \/ fits_float (fan_speed_min base) && fits_float (fan_speed_max base) = true) /\
  (- 2 ^ 1023 <= fan_speed_min base <= 2 ^ 1023 ->
   - 2 ^ 1023 <= fan_speed_max base <= 2 ^ 1023 ->
   exists t, ai_tune_filament base req = Ok t).
Proof.
  split; [|split].
  - intros t Ht. apply ai_tune_filament_Ok in Ht as (_ & Hb & _).
    rewrite Hb, py_min_Z.
    destruct (nozzle_temp base + 5 <? t_nozzle_temp t); [lia | reflexivity].
  - split.
    + intros [t Ht]. exact (ai_tune_filament_fits base req t Ht).
    + apply ai_tune_filament_total.
  - intros Hmin Hmax. apply ai_tune_filament_total. right.
    rewrite !fits_float_range by assumption. reflexivity.
Qed.

(** The catalogue's PETG preset asked for 250 degrees, above its 240 by
    more than 5, and for 240. *)
Lemma tune_bed_temp_witness :
  (exists t, ai_tune_filament petg_preset 250 = Ok t /\ t_bed_temp t = 85) /\
  (exists t, ai_tune_filament petg_preset 240 = Ok t /\ t_bed_temp t = 80).
Proof.
  split.
  - destruct (tune_bed_temp petg_preset 250) as (Hbed & _ & Hret).
    destruct Hret as [t Ht]; [vm_compute; split; discriminate | vm_compute; split; discriminate|].
    exists t. split; [exact Ht|].
    rewrite (Hbed t Ht).
    apply ai_tune_filament_Ok in Ht as (Hn & _).
    rewrite Hn. reflexivity.
  - destruct (tune_bed_temp petg_preset 240) as (Hbed & _ & Hret).
    destruct Hret as [t Ht]; [vm_compute; split; discriminate | vm_compute; split; discriminate|].
    exists t. split; [exact Ht|].
    rewrite (Hbed t Ht).
    apply ai_tune_filament_Ok in Ht as (Hn & _).
    rewrite Hn. reflexivity.
Defined.

(** ** The serializer *)

(** C8: [enable_pressure_advance] is the one-element list ["1"] when the
    pressure advance handed to the serializer is strictly greater than 0,
    and ["0"] otherwise; at 0.0 it is ["0"]. *)
Theorem enable_pressure_advance_flag
    (str_of_float : float -> string) (tuned : TunedParameters)
    (pressure_advance : float) (profile_name : string) :
  let profile :=
    build_filament_profile str_of_float tuned pressure_advance profile_name in
  (strictly_positive pressure_advance -> p_enable_pressure_advance profile = ["1"]) /\
  (~ strictly_positive pressure_advance -> p_enable_pressure_advance profile = ["0"]) /\
  p_enable_pressure_advance
    (build_filament_profile str_of_float tuned (lit 0 1) profile_name) = ["0"].
Proof.
  simpl. split; [|split; [|reflexivity]].
  - destruct pressure_advance as [q | [|] |]; simpl; intros H;
      try discriminate; try contradiction; try reflexivity.
    unfold num_ltb, float_ltb, Qltb; simpl.
    destruct (Qle_bool q (inject_Z 0)) eqn:E; [|reflexivity].
    apply Qle_bool_true in E. unfold inject_Z in E. lra.
  - destruct pressure_advance as [q | [|] |]; simpl; intros H;
      try reflexivity; try (exfalso; apply H; reflexivity).
    unfold num_ltb, float_ltb, Qltb; simpl.
    destruct (Qle_bool q (inject_Z 0)) eqn:E; [reflexivity|].
    apply Qle_bool_false in E. unfold inject_Z in E. contradiction.
Qed.

(** A pressure advance of 0.02 enables the flag; NaN does not. *)
Lemma enable_pressure_advance_flag_witness :
  p_enable_pressure_advance
    (build_filament_profile (fun _ => "0.02") petg_tuned (lit 2 100) "PETG") = ["1"] /\
  p_enable_pressure_advance
    (build_filament_profile (fun _ => "nan") petg_tuned FNaN "PETG") = ["0"].
Proof.
  split.
  - destruct (enable_pressure_advance_flag
                (fun _ => "0.02") petg_tuned (lit 2 100) "PETG") as (H & _ & _).
    apply H. reflexivity.
  - destruct (enable_pressure_advance_flag
                (fun _ => "nan") petg_tuned FNaN "PETG") as (_ & H & _).
    apply H. simpl. tauto.
Defined.

Example tune_petg_247 : ai_tune_filament petg_preset 247 = Ok petg_tuned.
Proof. vm_compute. reflexivity. Qed.

Example tune_pla_225 :
  exists t, ai_tune_filament pla_preset 225 = Ok t /\
    (t_nozzle_temp t, t_bed_temp t, t_fan_speed t, t_fan_speed_min t, t_fan_speed_max t)
    = (225, 65, 80, 70, 100).
Proof. eexists. split; [vm_compute; reflexivity | reflexivity]. Qed.

(** ** The heuristic generator *)

(** What the code computes for the pressure advance, for every input. *)
Lemma heuristic_pressure_advance (name : string) (nozzle_hint bed_hint : Z)
    (fan_pref : string) :
  default_pressure_advance
    (ai_generate_material_preset name nozzle_hint bed_hint fan_pref) =
  if String.eqb (lower fan_pref) "medium" || String.eqb (lower fan_pref) "low"
  then lit 2 100 else lit 0 1.
Proof.
  unfold ai_generate_material_preset.
  destruct (String.eqb (lower fan_pref) "high");
    [|destruct (String.eqb (lower fan_pref) "low")]; reflexivity.
Qed.

Lemma main_fan_pref_cases (entered : string) :
  main_fan_pref entered = "low" \/ main_fan_pref entered = "medium"
  \/ main_fan_pref entered = "high".
Proof.
  unfold main_fan_pref.
  set (f := if non_empty (lower (strip entered)) then lower (strip entered)
            else "medium").
  destruct (String.eqb_spec f "low") as [->|_]; [auto|].
  destruct (String.eqb_spec f "medium") as [->|_]; [auto|].
  destruct (String.eqb_spec f "high") as [->|_]; simpl; auto.
Qed.

(** On the preferences [main] lets through, the pressure advance follows the
    cooling level the specification describes. *)
Lemma heuristic_pressure_advance_after_main (name : string) (nozzle_hint bed_hint : Z)
    (entered : string) :
  let fan_pref := main_fan_pref entered in
  default_pressure_advance
    (ai_generate_material_preset name nozzle_hint bed_hint fan_pref) =
  if String.eqb (cooling_level fan_pref) "medium"
     || String.eqb (cooling_level fan_pref) "low"
  then lit 2 100 else lit 0 1.
Proof.
  intros fan_pref. rewrite heuristic_pressure_advance. unfold fan_pref.
  destruct (main_fan_pref_cases entered) as [-> | [-> | ->]]; reflexivity.
Qed.





(** ** The temperature hint parser *)

Lemma mapM_raise {A B} (f : A -> result B) (l : list A) (e : exn) :
  mapM f l = Raise e -> exists x, In x l /\ f x = Raise e.
Proof.
  induction l as [|x l IH]; simpl; [discriminate|].
  destruct (f x) as [b|e'] eqn:Hx; simpl.
  - destruct (mapM f l) as [bs|e'']; simpl; [discriminate|].
    intros [= ->]. destruct IH as (y & Hy & Hf); [reflexivity|].
    exists y. auto.
  - intros [= ->]. exists x. auto.
Qed.

Lemma int_of_str_raises (s : string) (e : exn) :
  int_of_str s = Raise e -> e = ValueError.
Proof.
  unfold int_of_str.
  match goal with |- context [match ?p with Some _ => _ | None => _ end] =>
    destruct p end; [discriminate|]. intros [= <-]. reflexivity.
Qed.

Lemma int_truediv_2_raises (a : Z) (e : exn) :
  int_truediv_2 a = Raise e -> e = OverflowError.
Proof.
  unfold int_truediv_2. destruct (2 ^ 1025 <=? Z.abs (round_sig53 a));
    [|discriminate]. intros [= <-]. reflexivity.
Qed.

Lemma parse_temp_hint_try_raises (raw : string) (e : exn) :
  parse_temp_hint_try raw = Raise e -> e = ValueError \/ e = OverflowError.
Proof.
  unfold parse_temp_hint_try.
  destruct (str_in "-" raw); [|intros H; left; eapply int_of_str_raises, H].
  destruct (mapM _ _) as [nums|e'] eqn:Hm; simpl.
  - destruct nums as [|a [|b rest]];
      try (intros H; left; eapply int_of_str_raises, H).
    destruct (int_truediv_2 (0 + a + b)) as [h|e'] eqn:Hd; simpl.
    + unfold int_truediv_2 in Hd.
      destruct (2 ^ 1025 <=? _) in Hd; [discriminate|].
      injection Hd as <-. discriminate.
    + intros [= <-]. right. eapply int_truediv_2_raises, Hd.
  - intros [= <-]. apply mapM_raise in Hm as (x & _ & Hx).
    left. eapply int_of_str_raises, Hx.
Qed.

(** The parser returns an integer or lets [OverflowError] through; nothing
    else. *)
Lemma parse_temp_hint_outcomes (raw : string) (fallback : Z) :
  (exists z, parse_temp_hint raw fallback = Ok z)
  \/ parse_temp_hint raw fallback = Raise OverflowError.
Proof.
  unfold parse_temp_hint. destruct (non_empty raw); [|eauto].
  destruct (parse_temp_hint_try raw) as [z|e] eqn:H; [eauto|].
  destruct (parse_temp_hint_try_raises raw e H) as [-> | ->]; eauto.
Qed.

(** Without a hyphen there is no failure path. *)
Lemma parse_temp_hint_no_hyphen (raw : string) (fallback : Z) :
  str_in "-" raw = false ->
  exists z, parse_temp_hint raw fallback = Ok z.
Proof.
  intros Hh. unfold parse_temp_hint, parse_temp_hint_try. rewrite Hh.
  destruct (non_empty raw); [|eauto].
  destruct (int_of_str raw) as [z|e] eqn:H; [eauto|].
  apply int_of_str_raises in H as ->. eauto.
Qed.

Lemma round_sig53_small (n : Z) : Z.abs n < 2 ^ 53 -> round_sig53 n = n.
Proof.
  intros H. unfold round_sig53.
  destruct (Z.leb_spec (Z.log2 (Z.abs n) + 1) 53) as [_|Hb]; [reflexivity|].
  exfalso. destruct (Z.eq_dec (Z.abs n) 0) as [E|E].
  - rewrite E in Hb. simpl in Hb. lia.
  - assert (Z.log2 (Z.abs n) < 53) by (apply Z.log2_lt_pow2; lia). lia.
Qed.

(** A hyphenated hint whose non-empty pieces are all integers, the first two
    of sum below [2^53] in absolute value, is the midpoint of those two,
    truncated toward zero. *)
Lemma parse_temp_hint_range (raw : string) (fallback a b : Z) (rest : list Z) :
  str_in "-" raw = true ->
  mapM (fun p => int_of_str (strip p))
       (List.filter (fun p => non_empty (strip p)) (split_dash raw))
  = Ok (a :: b :: rest) ->
  Z.abs (a + b) < 2 ^ 53 ->
  parse_temp_hint raw fallback = Ok (Z.quot (a + b) 2).
Proof.
  intros Hh Hm Hs. unfold parse_temp_hint.
  assert (Hne : non_empty raw = true) by (destruct raw; [discriminate|reflexivity]).
  rewrite Hne. unfold parse_temp_hint_try. rewrite Hh, Hm. simpl.
  change (0 + a + b) with (a + b).
  unfold int_truediv_2. rewrite round_sig53_small by exact Hs.
  destruct (Z.leb_spec (2 ^ 1025) (Z.abs (a + b))) as [Hbig|_].
  - exfalso. assert (2 ^ 53 < 2 ^ 1025) by (apply Z.pow_lt_mono_r; lia). lia.
  - reflexivity.
Qed.

(** A hyphenated hint whose first two numbers have a sum beyond the float
    range raises. *)
Lemma parse_temp_hint_too_large (raw : string) (fallback a b : Z) (rest : list Z) :
  str_in "-" raw = true ->
  mapM (fun p => int_of_str (strip p))
       (List.filter (fun p => non_empty (strip p)) (split_dash raw))
  = Ok (a :: b :: rest) ->
  2 ^ 1025 <= Z.abs (round_sig53 (a + b)) ->
  parse_temp_hint raw fallback = Raise OverflowError.
Proof.
  intros Hh Hm Hs. unfold parse_temp_hint.
  assert (Hne : non_empty raw = true) by (destruct raw; [discriminate|reflexivity]).
  rewrite Hne. unfold parse_temp_hint_try. rewrite Hh, Hm. simpl.
  change (0 + a + b) with (a + b). unfold int_truediv_2.
  destruct (Z.leb_spec (2 ^ 1025) (Z.abs (round_sig53 (a + b)))) as [_|Hlt];
    [reflexivity | lia].
Qed.

Lemma all_chars_weaken (P Q : ascii -> bool) (s : string) :
  (forall c, P c = true -> Q c = true) ->
  all_chars P s = true -> all_chars Q s = true.
Proof.
  intros HPQ. induction s as [|c t IH]; simpl; [reflexivity|].
  intros [Hc Ht]%andb_prop. rewrite (HPQ c Hc), (IH Ht). reflexivity.
Qed.

Lemma more_digits_chars (n : nat) :
  forall s acc z, (String.length s <= n)%nat ->
    more_digits s acc = Some z -> all_chars literal_char s = true.
Proof.
  induction n as [|n IH]; intros [|c t] acc z Hlen H; simpl in *;
    try reflexivity; try lia.
  unfold literal_char at 1. destruct (digit_of c) as [d|] eqn:Hd.
  - simpl. apply (IH t (10 * acc + d) z); [lia | exact H].
  - destruct (Ascii.eqb c "_") eqn:Hu; [|discriminate]. simpl.
    destruct t as [|c' t']; [discriminate|].
    destruct (digit_of c') as [d|] eqn:Hd'; [|discriminate].
    simpl. unfold literal_char at 1. rewrite Hd'. simpl.
    apply (IH t' (10 * acc + d) z); [simpl in Hlen; lia | exact H].
Qed.

Lemma unsigned_literal_chars (s : string) (z : Z) :
  unsigned_literal s = Some z -> all_chars literal_char s = true.
Proof.
  destruct s as [|c t]; simpl; [discriminate|].
  unfold literal_char at 1. destruct (digit_of c) as [d|]; [|discriminate].
  simpl. apply (more_digits_chars (String.length t)). lia.
Qed.

Lemma lstrip_chars (P : ascii -> bool) (s : string) :
  all_chars P (lstrip s) = true ->
  all_chars (fun c => P c || is_space c) s = true.
Proof.
  induction s as [|c t IH]; simpl; [reflexivity|].
  destruct (is_space c) eqn:Hc.
  - intros H. rewrite (IH H), orb_true_r. reflexivity.
  - simpl. intros [Hp Ht]%andb_prop. rewrite Hp. simpl.
    apply (all_chars_weaken P); [|exact Ht].
    intros c' ->. reflexivity.
Qed.

Lemma rstrip_chars (P : ascii -> bool) (s : string) :
  all_chars P (rstrip s) = true ->
  all_chars (fun c => P c || is_space c) s = true.
Proof.
  induction s as [|c t IH]; simpl; [reflexivity|].
  destruct (rstrip t) as [|c' t'] eqn:Hr.
  - intros H. rewrite (IH eq_refl), andb_true_r.
    destruct (is_space c); [apply orb_true_r|].
    simpl in H. rewrite andb_true_r in H. rewrite H. reflexivity.
  - simpl. intros [Hp Ht]%andb_prop. rewrite Hp. simpl. apply IH, Ht.
Qed.

Lemma strip_chars (s : string) :
  all_chars literal_char (strip s) = true -> all_chars literal_char s = true.
Proof.
  intros H. unfold strip in H. apply rstrip_chars in H. apply lstrip_chars in H.
  refine (all_chars_weaken _ _ s _ H).
  intros c Hc. unfold literal_char in *.
  destruct (digit_of c); [reflexivity|].
  destruct (is_space c); [repeat rewrite orb_true_r; reflexivity|].
  repeat rewrite orb_false_r in Hc. rewrite orb_false_r. exact Hc.
Qed.

(** A string [int()] accepts is made of digits, underscores, signs and
    white space. *)
Lemma int_of_str_chars (s : string) (z : Z) :
  int_of_str s = Ok z -> all_chars literal_char s = true.
Proof.
  unfold int_of_str. intros H. apply strip_chars.
  destruct (strip s) as [|c t] eqn:Hs; [reflexivity|].
  destruct (Ascii.eqb c "-") eqn:Hm; [|destruct (Ascii.eqb c "+") eqn:Hp].
  - destruct (unsigned_literal t) as [u|] eqn:Hu; [|discriminate].
    simpl. rewrite (unsigned_literal_chars t u Hu), andb_true_r.
    unfold literal_char. rewrite Hm.
    destruct (digit_of c); [reflexivity|]. rewrite orb_true_r. reflexivity.
  - destruct (unsigned_literal t) as [u|] eqn:Hu; [|discriminate].
    simpl. rewrite (unsigned_literal_chars t u Hu), andb_true_r.
    unfold literal_char. rewrite Hp.
    destruct (digit_of c); [reflexivity|].
    rewrite orb_true_r. reflexivity.
  - destruct (unsigned_literal (String c t)) as [u|] eqn:Hu; [|discriminate].
    apply (unsigned_literal_chars _ u Hu).
Qed.

Lemma en_dash_not_literal (s : string) :
  all_chars literal_char s = true -> str_in en_dash s = false.
Proof.
  induction s as [|c t IH]; [reflexivity|].
  cbn [all_chars str_in]. intros [Hc Ht]%andb_prop. rewrite (IH Ht), orb_false_r.
  unfold en_dash. cbn [String.prefix].
  destruct (ascii_dec (ascii_of_N 226) c) as [<-|_]; [|reflexivity].
  vm_compute in Hc. discriminate.
Qed.

(** A hint with an en-dash and no hyphen is never read as a range: the
    fallback comes back. *)
Lemma parse_temp_hint_en_dash_no_hyphen (raw : string) (fallback : Z) :
  str_in "-" raw = false -> str_in en_dash raw = true ->
  parse_temp_hint raw fallback = Ok fallback.
Proof.
  intros Hh He. unfold parse_temp_hint, parse_temp_hint_try. rewrite Hh.
  destruct (non_empty raw); [|reflexivity].
  destruct (int_of_str raw) as [z|e] eqn:H.
  - apply int_of_str_chars, en_dash_not_literal in H. congruence.
  - apply int_of_str_raises in H as ->. reflexivity.
Qed.

(** C4: with an en-dash and no hyphen the hint is not read as a range:
    ["190–230"] gives the fallback, although the split itself separates at
    the en-dash, and ["190-230"] gives 210. *)
Theorem parse_temp_hint_en_dash_only :
  parse_temp_hint ("190" ++ en_dash ++ "230") 0 = Ok 0 /\
  split_dash ("190" ++ en_dash ++ "230") = ["190"; "230"] /\
  parse_temp_hint ("190-" ++ en_dash ++ "230") 0 = Ok 210 /\
  parse_temp_hint "190-230" 0 = Ok 210.
Proof. vm_compute. auto. Qed.

(** C5: a range whose sum is too large for a float makes the parser raise
    [OverflowError], which its handler does not catch; the empty hint and
    ["abc"] give the fallback. *)
Theorem parse_temp_hint_overflow_escapes (fallback : Z) :
  parse_temp_hint ("1" ++ zeros 309 ++ "-0") fallback = Raise OverflowError /\
  parse_temp_hint "" fallback = Ok fallback /\
  parse_temp_hint "abc" 99 = Ok 99.
Proof.
  split; [vm_compute; reflexivity|].
  split; [destruct fallback; reflexivity | vm_compute; reflexivity].
Qed.

(** ** The LLM generator *)

Lemma as_number_of_number (n : number) : as_number (of_number n) = Ok n.
Proof. destruct n; reflexivity. Qed.

Lemma clamp_value_Ok (v : pyval) (lo hi n : number) :
  clamp_value v lo hi = Ok n ->
  exists x, as_number v = Ok x /\ n = clamp x lo hi.
Proof.
  unfold clamp_value. intros H. apply bind_Ok in H as (x & Hx & H).
  injection H as <-. eauto.
Qed.

Lemma clamp_value_between (v : pyval) (lo hi n : number) :
  num_leb lo hi = true -> clamp_value v lo hi = Ok n ->
  num_leb lo n = true /\ num_leb n hi = true.
Proof.
  intros Hb H. apply clamp_value_Ok in H as (x & _ & ->).
  apply clamp_number_bounds, Hb.
Qed.

(** With neither limit in the response, both come from the fan speed. *)
Lemma fan_defaults_ordered (fs : number) :
  num_leb (NInt 0) fs = true -> num_leb fs (NInt 100) = true ->
  num_leb (clamp (py_max (NInt 0) (num_sub fs (NInt 20))) (NInt 0) (NInt 100))
          (clamp (py_max fs (NInt 60)) (NInt 0) (NInt 100)) = true.
Proof.
  intros H0 H100. number_cases fs; order_crush.
  all: exfalso; Qbool;
    first [ rewrite <- ?Zle_Qle, <- ?Zlt_Qlt in *; lia
          | unfold inject_Z in *; lra ].
Qed.

(** [int(clamp(...))] with integer bounds. *)
Lemma int_clamp_value_between (v : pyval) (a b : Z) (n : number) (z : Z) :
  a <= b -> clamp_value v (NInt a) (NInt b) = Ok n -> py_int n = Ok z ->
  a <= z <= b.
Proof.
  intros Hab Hc Hi.
  apply clamp_value_between in Hc as [Hlo Hhi].
  - destruct (py_int_between n a b Hlo Hhi) as (z' & Hz & Hb). congruence.
  - unfold num_leb. simpl. apply Qle_bool_true. rewrite <- Zle_Qle. exact Hab.
Qed.

(** [float(clamp(...))] with float bounds. *)
Lemma float_clamp_value_between (v : pyval) (lo hi : Q) (n : number) :
  (lo <= hi)%Q -> clamp_value v (NFloat (FFin lo)) (NFloat (FFin hi)) = Ok n ->
  float_between lo hi (py_float n).
Proof.
  intros Hab Hc. apply clamp_value_between in Hc as [Hlo Hhi].
  - apply py_float_between; assumption.
  - unfold num_leb. simpl. apply Qle_bool_true. exact Hab.
Qed.

(** Every preset the LLM generator returns has each field within its
    bounds, whatever the response held; its fan limits are in order,
    [fan_speed_min <= fan_speed_max], when the response gives neither
    limit, or gives both in order. *)
Theorem ollama_preset_within_bounds
    (call_ollama : string -> string) (json_loads : string -> loads_result)
    (name : string) (nozzle_hint bed_hint : Z) (fan_pref : string)
    (p : MaterialPreset) :
  ollama_generate_material call_ollama json_loads name nozzle_hint bed_hint fan_pref
  = Ok p ->
  preset_in_bounds p /\
  (forall m,
     json_loads (call_ollama (ollama_prompt name nozzle_hint bed_hint fan_pref))
     = Decoded (VDict m) ->
     (m !! "fan_speed_min" = None /\ m !! "fan_speed_max" = None) \/
     (exists a b x y,
        m !! "fan_speed_min" = Some a /\ m !! "fan_speed_max" = Some b /\
        as_number a = Ok x /\ as_number b = Ok y /\ num_leb x y = true) ->
     fan_speed_min p <= fan_speed_max p).
Proof.
  unfold ollama_generate_material.
  set (raw := call_ollama _).
  destruct (json_loads raw) as [data| |e]; [|discriminate|discriminate].
  intros H.
  apply bind_Ok in H as (v_nozzle & G_nozzle & H).
  apply bind_Ok in H as (c_nozzle & C_nozzle & H).
  apply bind_Ok in H as (nozzle & I_nozzle & H).
  apply bind_Ok in H as (v_bed & G_bed & H).
  apply bind_Ok in H as (c_bed & C_bed & H).
  apply bind_Ok in H as (bed & I_bed & H).
  apply bind_Ok in H as (v_fan & G_fan & H).
  apply bind_Ok in H as (fan & C_fan & H).
  apply bind_Ok in H as (v_min & G_min & H).
  apply bind_Ok in H as (fmin & C_min & H).
  apply bind_Ok in H as (v_max & G_max & H).
  apply bind_Ok in H as (fmax & C_max & H).
  apply bind_Ok in H as (v_flow & G_flow & H).
  apply bind_Ok in H as (flow & C_flow & H).
  apply bind_Ok in H as (v_len & G_len & H).
  apply bind_Ok in H as (len & C_len & H).
  apply bind_Ok in H as (v_speed & G_speed & H).
  apply bind_Ok in H as (speed & C_speed & H).
  apply bind_Ok in H as (v_pa & G_pa & H).
  apply bind_Ok in H as (pa & C_pa & H).
  apply bind_Ok in H as (nozzle' & I_nozzle' & H).
  apply bind_Ok in H as (bed' & I_bed' & H).
  apply bind_Ok in H as (fan' & I_fan & H).
  apply bind_Ok in H as (fmin' & I_min & H).
  apply bind_Ok in H as (fmax' & I_max & H).
  apply bind_Ok in H as (speed' & I_speed & H).
  injection H as <-. simpl in I_nozzle', I_bed'.
  injection I_nozzle' as <-. injection I_bed' as <-.
  split.
  - constructor; simpl.
    + eapply int_clamp_value_between; [|exact C_nozzle|exact I_nozzle]. lia.
    + eapply int_clamp_value_between; [|exact C_bed|exact I_bed]. lia.
    + eapply int_clamp_value_between; [|exact C_fan|exact I_fan]. lia.
    + eapply int_clamp_value_between; [|exact C_min|exact I_min]. lia.
    + eapply int_clamp_value_between; [|exact C_max|exact I_max]. lia.
    + eapply float_clamp_value_between; [|exact C_flow]. lra.
    + eapply float_clamp_value_between; [|exact C_len]. lra.
    + eapply int_clamp_value_between; [|exact C_speed|exact I_speed]. lia.
    + eapply float_clamp_value_between; [|exact C_pa]. lra.
  - intros m [= ->] Hcase. simpl.
    apply (py_int_mono fmin fmax); [|exact I_min|exact I_max].
    simpl in G_min, G_max. injection G_min as <-. injection G_max as <-.
    destruct Hcase as [[Hmin Hmax] | (a & b & x & y & Hmin & Hmax & Ha & Hb & Hxy)];
      rewrite Hmin in C_min; rewrite Hmax in C_max; simpl in C_min, C_max.
    + apply clamp_value_Ok in C_min as (x & Hx & ->).
      apply clamp_value_Ok in C_max as (y & Hy & ->).
      rewrite as_number_of_number in Hx, Hy.
      injection Hx as <-. injection Hy as <-.
      apply clamp_value_between in C_fan as [Hlo Hhi]; [|reflexivity].
      apply fan_defaults_ordered; assumption.
    + apply clamp_value_Ok in C_min as (x' & Hx & ->).
      apply clamp_value_Ok in C_max as (y' & Hy & ->).
      rewrite Ha in Hx. rewrite Hb in Hy. injection Hx as <-. injection Hy as <-.
      apply clamp_number_mono; [reflexivity | exact Hxy].
Qed.

(** C1: for the response [{"fan_speed_min": 90, "fan_speed_max": 10}] the
    LLM generator returns a preset with [fan_speed_min = 90] and
    [fan_speed_max = 10]: each limit is clamped to [0, 100] on its own, and
    the preset breaks [fan_speed_min <= fan_speed_max]. *)
Theorem ollama_fan_limits_out_of_order :
  exists p,
    ollama_generate_material
      (fun _ => unordered_fans_text)
      (loads_only unordered_fans_text unordered_fans_value)
      "PLA+" 210 60 "medium" = Ok p /\
    fan_speed_min p = 90 /\ fan_speed_max p = 10 /\
    ~ fan_speed_min p <= fan_speed_max p.
Proof.
  eexists. split; [vm_compute; reflexivity|]. simpl.
  split; [reflexivity|]. split; [reflexivity|]. lia.
Qed.

(** A response far out of range, with NaN and Infinity in it. *)
Lemma ollama_preset_within_bounds_witness :
  exists p,
    ollama_generate_material
      (fun _ => extreme_text) (loads_only extreme_text extreme_value)
      "PA-CF" 210 60 "medium" = Ok p /\
    preset_in_bounds p /\ fan_speed_min p <= fan_speed_max p.
Proof.
  destruct (ollama_generate_material
              (fun _ => extreme_text) (loads_only extreme_text extreme_value)
              "PA-CF" 210 60 "medium") as [p|e] eqn:E.
  - exists p. split; [reflexivity|].
    destruct (ollama_preset_within_bounds _ _ _ _ _ _ p E) as [Hb Hord].
    split; [exact Hb|].
    eapply Hord; [vm_compute; reflexivity|].
    left. split; vm_compute; reflexivity.
  - vm_compute in E. discriminate.
Defined.

Example ollama_extreme_response :
  exists p,
    ollama_generate_material
      (fun _ => extreme_text) (loads_only extreme_text extreme_value)
      "PA-CF" 210 60 "medium" = Ok p /\
    (nozzle_temp p, bed_temp p, fan_speed p, fan_speed_min p, fan_speed_max p)
    = (290, 30, 100, 80, 100) /\
    retraction_speed p = 38.
Proof. eexists. split; [vm_compute; reflexivity|]. simpl. auto. Qed.

(** One field of the response: either the key holds something that is not a
    number and the comparison raises, or the clamp goes through. *)
Lemma field_step (m : gmap string pyval) (key : string) (d lo hi : number) :
  (key_ok m key = false /\
   clamp_value (default (of_number d) (m !! key)) lo hi = Raise TypeError)
  \/
  (key_ok m key = true /\
   exists x, clamp_value (default (of_number d) (m !! key)) lo hi
             = Ok (clamp x lo hi)).
Proof.
  unfold key_ok, clamp_value. destruct (m !! key) as [v|]; simpl.
  - destruct v; simpl; eauto.
  - rewrite as_number_of_number. simpl. eauto.
Qed.

Ltac keys_settled :=
  unfold numeric_object; cbn [forallb expected_keys];
  repeat match goal with
         | K : key_ok _ _ = _ |- _ => rewrite K; clear K
         end;
  reflexivity.

Ltac step_field m key :=
  let K := fresh "K" in let E := fresh "E" in let x := fresh "x" in
  match goal with
  | |- context [clamp_value (default (of_number ?d) (m !! key)) ?lo ?hi] =>
      destruct (field_step m key d lo hi) as [[K E] | [K [x E]]];
      rewrite E; cbn [mbind result_bind];
      [right; split; [keys_settled | reflexivity] |]
  end.

Ltac step_int :=
  let z := fresh "z" in let H := fresh "H" in
  match goal with
  | |- context [py_int (clamp ?x (NInt ?a) (NInt ?b))] =>
      destruct (py_int_clamp x a b ltac:(lia)) as [z H];
      rewrite H; clear H; cbn [mbind result_bind]
  end.

(** A decoded object either has a number, or nothing, under each expected
    key, and a preset comes back; or it has something else under one of
    them, and [TypeError] does. *)
Lemma ollama_generate_material_object
    (call_ollama : string -> string) (json_loads : string -> loads_result)
    (name : string) (nozzle_hint bed_hint : Z) (fan_pref : string)
    (m : gmap string pyval) :
  json_loads (call_ollama (ollama_prompt name nozzle_hint bed_hint fan_pref))
  = Decoded (VDict m) ->
  let r := ollama_generate_material call_ollama json_loads
             name nozzle_hint bed_hint fan_pref in
  (numeric_object (VDict m) = true /\ exists p, r = Ok p)
  \/ (numeric_object (VDict m) = false /\ r = Raise TypeError).
Proof.
  intros Hload r. unfold r, ollama_generate_material. rewrite Hload.
  cbn [py_get mbind result_bind].
  step_field m "nozzle_temp". step_int.
  step_field m "bed_temp". step_int.
  step_field m "fan_speed".
  step_field m "fan_speed_min".
  step_field m "fan_speed_max".
  step_field m "flow_ratio".
  step_field m "retraction_length".
  step_field m "retraction_speed".
  step_field m "pressure_advance".
  cbn [py_int mbind result_bind].
  repeat step_int.
  left. split; [keys_settled|]. eexists. reflexivity.
Qed.

(** The outcomes of the LLM generator, by what [json.loads] does with the
    answer: [json.JSONDecodeError] becomes the [RuntimeError] that carries
    the raw text; any other exception of [json.loads] comes out as it is;
    a decoded object whose expected keys, where present, hold numbers gives
    a preset, and nothing else does; any other decoded value raises
    [AttributeError] (not an object) or [TypeError] (an object with
    something else than a number under an expected key). *)
Theorem ollama_failure_modes
    (call_ollama : string -> string) (json_loads : string -> loads_result)
    (name : string) (nozzle_hint bed_hint : Z) (fan_pref : string) :
  let raw := call_ollama (ollama_prompt name nozzle_hint bed_hint fan_pref) in
  let r := ollama_generate_material call_ollama json_loads
             name nozzle_hint bed_hint fan_pref in
  (json_loads raw = JSONDecodeError ->
   r = Raise (RuntimeError ("LLM did not return valid JSON: " ++ raw))) /\
  (forall e, json_loads raw = LoadsRaise e -> r = Raise e) /\
  ((exists p, r = Ok p) <->
   exists data, json_loads raw = Decoded data /\ numeric_object data = true) /\
  (forall data, json_loads raw = Decoded data ->
     numeric_object data = false ->
     r = match data with
         | VDict _ => Raise TypeError
         | _ => Raise AttributeError
         end).
Proof.
  intros raw r.
  assert (Hdata : forall data, json_loads raw = Decoded data ->
            (numeric_object data = true /\ exists p, r = Ok p) \/
            (numeric_object data = false /\
             r = match data with
                 | VDict _ => Raise TypeError
                 | _ => Raise AttributeError
                 end)).
  { intros data Hload. destruct data as [| | | | | |m];
      try (right; split; [reflexivity|];
           unfold r, ollama_generate_material; fold raw; rewrite Hload;
           reflexivity).
    exact (ollama_generate_material_object _ _ _ _ _ _ m Hload). }
  split; [|split; [|split; [split|]]].
  - intros Hload. unfold r, ollama_generate_material. fold raw.
    rewrite Hload. reflexivity.
  - intros e Hload. unfold r, ollama_generate_material. fold raw.
    rewrite Hload. reflexivity.
  - intros [p Hp]. destruct (json_loads raw) as [data| |e] eqn:Hload.
    + exists data. split; [reflexivity|].
      destruct (Hdata data eq_refl) as [[Hyes _] | [_ Hr]]; [exact Hyes|].
      rewrite Hp in Hr. destruct data; discriminate.
    + unfold r, ollama_generate_material in Hp. fold raw in Hp.
      rewrite Hload in Hp. discriminate.
    + unfold r, ollama_generate_material in Hp. fold raw in Hp.
      rewrite Hload in Hp. discriminate.
  - intros (data & Hload & Hnum).
    destruct (Hdata data Hload) as [[_ Hp] | [Hno _]]; [exact Hp | congruence].
  - intros data Hload Hnum.
    destruct (Hdata data Hload) as [[Hyes _] | [_ Hr]]; [congruence | exact Hr].
Qed.

(** The out-of-range response gives a preset; a text that does not decode
    gives the [RuntimeError] with the text in it. *)
Lemma ollama_failure_modes_witness :
  (exists p,
     ollama_generate_material
       (fun _ => extreme_text) (loads_only extreme_text extreme_value)
       "PA-CF" 210 60 "medium" = Ok p) /\
  ollama_generate_material
    (fun _ => "no json") (loads_only extreme_text extreme_value)
    "PA-CF" 210 60 "medium"
  = Raise (RuntimeError "LLM did not return valid JSON: no json").
Proof.
  split.
  - destruct (ollama_failure_modes
                (fun _ => extreme_text) (loads_only extreme_text extreme_value)
                "PA-CF" 210 60 "medium") as (_ & _ & [_ H] & _).
    apply H. exists extreme_value. split; vm_compute; reflexivity.
  - destruct (ollama_failure_modes
                (fun _ => "no json") (loads_only extreme_text extreme_value)
                "PA-CF" 210 60 "medium") as (H & _).
    apply H. vm_compute. reflexivity.
Defined.

(** C7: the answer [{"nozzle_temp": "hot"}] decodes as a JSON object, and
    the generator neither returns a preset nor raises the [RuntimeError]
    that carries the text: the comparison inside [clamp] raises
    [TypeError].  The answer [[]] decodes as well, and the generator raises
    [AttributeError] at [data.get]. *)
Theorem ollama_decoded_object_type_error :
  loads_only non_numeric_text non_numeric_value non_numeric_text
  = Decoded non_numeric_value /\
  ollama_generate_material
    (fun _ => non_numeric_text) (loads_only non_numeric_text non_numeric_value)
    "PLA+" 210 60 "medium" = Raise TypeError /\
  ollama_generate_material
    (fun _ => "[]") (loads_only "[]" (VList []))
    "PLA+" 210 60 "medium" = Raise AttributeError.
Proof. vm_compute. auto. Qed.

(** * Further properties of the module *)

(** ** The heuristic generator, for every input *)

Lemma float_between_lit (lo hi : Q) (num : Z) (den : positive) :
  (lo <= num # den)%Q -> (num # den <= hi)%Q -> float_between lo hi (lit num den).
Proof. intros Hlo Hhi. exists (num # den). split; [reflexivity | split; assumption]. Qed.

(** Whatever the name, the hints and the cooling preference, the heuristic
    preset is within the bounds of a generated preset, and its fan speed
    lies between its two fan limits. *)
Theorem heuristic_preset_valid
    (name : string) (nozzle_hint bed_hint : Z) (fan_pref : string) :
  let p := ai_generate_material_preset name nozzle_hint bed_hint fan_pref in
  preset_in_bounds p /\ fan_speed_min p <= fan_speed p <= fan_speed_max p.
Proof.
  unfold ai_generate_material_preset.
  destruct (clamp_Z_spec nozzle_hint 160 290) as [Hn _]; [lia|].
  destruct (clamp_Z_spec bed_hint 30 120) as [Hb _]; [lia|].
  destruct (String.eqb (lower fan_pref) "high");
    [|destruct (String.eqb (lower fan_pref) "low")];
    (split; [constructor|]); cbn -[clamp]; try lia;
    try (apply float_between_lit; unfold Qle; simpl; lia).
  all: match goal with
       | |- float_between _ _ (if ?b then _ else _) => destruct b
       end; apply float_between_lit; unfold Qle; simpl; lia.
Qed.

Lemma heuristic_density_rule
    (name : string) (nozzle_hint bed_hint : Z) (fan_pref : string) :
  density (ai_generate_material_preset name nozzle_hint bed_hint fan_pref) =
  if str_in "cf" (lower name) || str_in "carbon" (lower name)
  then lit 13 10 else lit 124 100.
Proof.
  unfold ai_generate_material_preset.
  destruct (String.eqb (lower fan_pref) "high");
    [|destruct (String.eqb (lower fan_pref) "low")]; cbn [density];
    destruct (str_in "cf" (lower name) || str_in "carbon" (lower name));
    destruct (str_in "pa" (lower name) || str_in "nylon" (lower name));
    reflexivity.
Qed.

(** The density is 1.3 for a name with "cf" or "carbon" in it and 1.24 for
    any other: the rule for "pa" and "nylon", [max(density, 1.14)], never
    changes it, and no preset has density 1.14. *)
Theorem heuristic_density
    (name : string) (nozzle_hint bed_hint : Z) (fan_pref : string) :
  let p := ai_generate_material_preset name nozzle_hint bed_hint fan_pref in
  density p = (if str_in "cf" (lower name) || str_in "carbon" (lower name)
               then lit 13 10 else lit 124 100) /\
  density p <> lit 114 100.
Proof.
  cbv zeta. rewrite heuristic_density_rule.
  split; [reflexivity|].
  destruct (str_in "cf" (lower name) || str_in "carbon" (lower name)); discriminate.
Qed.

(** ** The LLM generator: what does not come from the response *)

(** A preset the LLM generator returns carries the given name, cost 25, and
    the density the heuristic generator gives that name. *)
Theorem ollama_preset_fixed_fields
    (call_ollama : string -> string) (json_loads : string -> loads_result)
    (material : string) (nozzle_hint bed_hint : Z) (fan_pref : string)
    (p : MaterialPreset) :
  ollama_generate_material call_ollama json_loads material nozzle_hint bed_hint
    fan_pref = Ok p ->
  name p = material /\ cost p = NInt 25 /\
  forall n b f, density p = density (ai_generate_material_preset material n b f).
Proof.
  unfold ollama_generate_material.
  destruct (json_loads _) as [data| |e]; [|discriminate|discriminate].
  intros H. repeat (apply bind_Ok in H as (? & ? & H)).
  injection H as <-. cbn [name cost density].
  split; [reflexivity|]. split; [reflexivity|].
  intros n b f. rewrite heuristic_density_rule. reflexivity.
Qed.

(** A carbon-fibre nylon, with the out-of-range response. *)
Lemma ollama_preset_fixed_fields_witness :
  exists p,
    ollama_generate_material
      (fun _ => extreme_text) (loads_only extreme_text extreme_value)
      "PA-CF" 210 60 "medium" = Ok p /\
    name p = "PA-CF" /\ cost p = NInt 25 /\ density p = lit 13 10.
Proof.
  destruct (ollama_generate_material
              (fun _ => extreme_text) (loads_only extreme_text extreme_value)
              "PA-CF" 210 60 "medium") as [p|e] eqn:E.
  - exists p. split; [reflexivity|].
    destruct (ollama_preset_fixed_fields _ _ _ _ _ _ p E) as (Hn & Hc & Hd).
    split; [exact Hn|]. split; [exact Hc|].
    rewrite (Hd 210 60 "medium"). vm_compute. reflexivity.
  - vm_compute in E. discriminate.
Defined.

(** ** The tuning engine, for every preset *)

Lemma clamp_float_between (x : float) (lo hi : Q) :
  (lo <= hi)%Q -> float_between lo hi (clamp x (FFin lo) (FFin hi)).
Proof.
  intros H. unfold float_between, clamp, py_max, py_min, py_lt, float_PyOrd,
    float_ltb, Qltb.
  destruct x as [q | [|] |]; simpl; case_Qle; eexists;
    (split; [reflexivity|]); Qbool; lra.
Qed.

(** Whenever the engine returns, the tuned fan values lie in the ranges of
    the preset's family: for a PLA name the fan speed in [80, 100], the
    minimum in [70, 100] and the maximum 100; for any other name the fan
    speed in [25, 65], the minimum in [20, 60] and the maximum in [40, 80].
    The engine returns for the PLA family and for every preset whose fan
    limits are at most [2^1023] in magnitude. *)
Theorem tune_fan_ranges (base : MaterialPreset) (req : Z) :
  (forall t,
     ai_tune_filament base req = Ok t ->
     if str_in "PLA" (name base)
     then 80 <= t_fan_speed t <= 100 /\ 70 <= t_fan_speed_min t <= 100
          /\ t_fan_speed_max t = 100
     else 25 <= t_fan_speed t <= 65 /\ 20 <= t_fan_speed_min t <= 60
          /\ 40 <= t_fan_speed_max t <= 80) /\
  (str_in "PLA" (name base) = true
   \/ (- 2 ^ 1023 <= fan_speed_min base <= 2 ^ 1023
       /\ - 2 ^ 1023 <= fan_speed_max base <= 2 ^ 1023) ->
   exists t, ai_tune_filament base req = Ok t).
Proof.
  split.
  - intros t Ht. apply ai_tune_filament_Ok in Ht as (_ & _ & _ & _ & Hfans).
    destruct (str_in "PLA" (name base)).
    + destruct Hfans as (-> & -> & ->).
      split; [apply clamp_Z_spec; lia|]. split; [apply clamp_Z_spec; lia | reflexivity].
    + destruct Hfans as (half & low & high & _ & _ & _ & -> & Hmin & Hmax).
      split; [apply clamp_Z_spec; lia|].
      split; eapply py_int_clamp_between; try eassumption; lia.
  - intros [HPLA | [Hmin Hmax]]; apply ai_tune_filament_total; [auto|].
    right. rewrite !fits_float_range by assumption. reflexivity.
Qed.

(** The catalogue's PETG preset asked for 300 degrees. *)
Lemma tune_fan_ranges_witness :
  exists t,
    ai_tune_filament petg_preset 300 = Ok t /\
    25 <= t_fan_speed t <= 65 /\ 20 <= t_fan_speed_min t <= 60
    /\ 40 <= t_fan_speed_max t <= 80.
Proof.
  destruct (tune_fan_ranges petg_preset 300) as [Hr Ht].
  destruct Ht as [t Ht].
  { right. vm_compute. repeat split; discriminate. }
  exists t. split; [exact Ht|]. exact (Hr t Ht).
Defined.

(** Whenever the engine returns, the flow ratio it gives, the base flow
    ratio NaN or infinite included, is the double nearest to a multiple of
    0.001 between 0.96 and 1.04. *)
Theorem tune_flow_ratio_range (base : MaterialPreset) (req : Z) :
  (forall t,
     ai_tune_filament base req = Ok t ->
     exists k, 960 <= k <= 1040 /\ t_flow_ratio t = b64_lit k 1000) /\
  (str_in "PLA" (name base) = true
   \/ (- 2 ^ 1023 <= fan_speed_min base <= 2 ^ 1023
       /\ - 2 ^ 1023 <= fan_speed_max base <= 2 ^ 1023) ->
   exists t, ai_tune_filament base req = Ok t).
Proof.
  split.
  - intros t Ht.
    apply ai_tune_filament_Ok in Ht as (_ & _ & _ & (step & _ & Hflow) & _).
    rewrite Hflow.
    remember (b64_lit 96 100) as lo eqn:Elo.
    remember (b64_lit 104 100) as hi eqn:Ehi.
    vm_compute in Elo, Ehi. subst lo hi.
    match goal with
    | |- context [clamp ?x (FFin ?lo) (FFin ?hi)] =>
        destruct (clamp_float_between x lo hi) as (q & -> & Hlo & Hhi);
          [unfold Qle; simpl; lia|];
        pose proof (Qround_half_even_mono (lo * 1000) (q * 1000)) as H1;
        pose proof (Qround_half_even_mono (q * 1000) (hi * 1000)) as H2
    end.
    cbn [b64_round3].
    exists (Qround_half_even (q * 1000)). split.
    + split.
      * etransitivity; [|apply H1; lra]. vm_compute. discriminate.
      * etransitivity; [apply H2; lra|]. vm_compute. discriminate.
    + unfold b64_lit. apply binary64_Qeq.
      rewrite (Qmake_Qdiv _ 1000). reflexivity.
  - intros [HPLA | [Hmin Hmax]]; apply ai_tune_filament_total; [auto|].
    right. rewrite !fits_float_range by assumption. reflexivity.
Qed.

(** The catalogue's PETG preset asked for 247 degrees: 0.986. *)
Lemma tune_flow_ratio_range_witness :
  exists t k,
    ai_tune_filament petg_preset 247 = Ok t /\
    960 <= k <= 1040 /\ t_flow_ratio t = b64_lit k 1000.
Proof.
  destruct (tune_flow_ratio_range petg_preset 247) as [Hr Ht].
  destruct Ht as [t Ht].
  { right. vm_compute. repeat split; discriminate. }
  destruct (Hr t Ht) as (k & Hk & Hflow).
  exists t, k. split; [exact Ht|]. split; [exact Hk | exact Hflow].
Defined.

Lemma float_of_int_mono (a b : Z) (qa qb : Q) :
  a <= b -> float_of_int a = Ok (FFin qa) -> float_of_int b = Ok (FFin qb) ->
  (qa <= qb)%Q.
Proof.
  intros Hab Ea Eb.
  assert (Fa : binary64 (inject_Z a) = FFin qa).
  { destruct (float_of_int_cases a) as [(q & Hq & Hb64) | [Hr _]]; congruence. }
  assert (Fb : binary64 (inject_Z b) = FFin qb).
  { destruct (float_of_int_cases b) as [(q & Hq & Hb64) | [Hr _]]; congruence. }
  pose proof (binary64_mono (inject_Z a) (inject_Z b)) as H.
  rewrite Fa, Fb in H. apply Qle_bool_true, H. rewrite <- Zle_Qle. exact Hab.
Qed.

(** A fan limit minus a larger half step is not larger. *)
Lemma fan_limit_antitone (z : Z) (h1 h2 : Q) (low1 low2 : float) :
  (h1 <= h2)%Q ->
  int_sub_float z (FFin h1) = Ok low1 -> int_sub_float z (FFin h2) = Ok low2 ->
  num_leb (NFloat low2) (NFloat low1) = true.
Proof.
  unfold int_sub_float. intros Hh H1 H2.
  destruct (float_of_int_cases z) as [(x & Hx & _) | [Hr _]];
    [|rewrite Hr in H1; discriminate].
  rewrite Hx in H1, H2. cbn [mbind result_bind mret result_ret] in H1, H2.
  injection H1 as <-. injection H2 as <-.
  unfold num_leb, value_of, b64_sub. cbn [float_sub b64].
  apply binary64_mono. lra.
Qed.

(** A hotter request never lowers the tuned nozzle or bed temperature and
    never raises any of the three tuned fan values. *)
Theorem tune_monotone (base : MaterialPreset) (req1 req2 : Z)
    (t1 t2 : TunedParameters) :
  req1 <= req2 ->
  ai_tune_filament base req1 = Ok t1 ->
  ai_tune_filament base req2 = Ok t2 ->
  t_nozzle_temp t1 <= t_nozzle_temp t2 /\
  t_bed_temp t1 <= t_bed_temp t2 /\
  t_fan_speed t2 <= t_fan_speed t1 /\
  t_fan_speed_min t2 <= t_fan_speed_min t1 /\
  t_fan_speed_max t2 <= t_fan_speed_max t1.
Proof.
  intros Hreq H1 H2.
  apply ai_tune_filament_Ok in H1 as (Hn1 & Hb1 & _ & _ & Hf1).
  apply ai_tune_filament_Ok in H2 as (Hn2 & Hb2 & _ & _ & Hf2).
  pose proof (clamp_Z_mono req1 req2 (nozzle_temp base - 10) (nozzle_temp base + 15)
                Hreq) as Hd.
  assert (Hn : t_nozzle_temp t1 <= t_nozzle_temp t2) by (rewrite Hn1, Hn2; exact Hd).
  split; [exact Hn|]. split.
  { rewrite Hb1, Hb2. unfold py_min, py_lt, Z_PyOrd.
    repeat match goal with
           | |- context [?a <? ?b] => destruct (Z.ltb_spec a b)
           end; lia. }
  destruct (str_in "PLA" (name base)).
  - destruct Hf1 as (-> & -> & ->). destruct Hf2 as (-> & -> & ->).
    split; [apply clamp_Z_mono; lia|]. split; [apply clamp_Z_mono; lia | lia].
  - destruct Hf1 as (half1 & low1 & high1 & Hh1 & Hl1 & Hx1 & -> & Hmin1 & Hmax1).
    destruct Hf2 as (half2 & low2 & high2 & Hh2 & Hl2 & Hx2 & -> & Hmin2 & Hmax2).
    split; [apply clamp_Z_mono; lia|].
    destruct (int_mul_float_window _ (b64_lit 5 10) (tune_window base req1))
      as (q1 & Hq1 & Hw1 & Hm1).
    destruct (int_mul_float_window _ (b64_lit 5 10) (tune_window base req2))
      as (q2 & Hq2 & Hw2 & Hm2).
    rewrite Hh1 in Hm1. rewrite Hh2 in Hm2.
    injection Hm1 as ->. injection Hm2 as ->.
    destruct (half_step q1 Hw1) as (h1 & Eh1 & _).
    destruct (half_step q2 Hw2) as (h2 & Eh2 & _).
    assert (Hq : (q1 <= q2)%Q) by (eapply float_of_int_mono; [|eassumption..]; lia).
    pose proof (half_step_mono q1 q2 h1 h2 Hq Eh1 Eh2) as Hh.
    rewrite Eh1 in Hl1, Hx1. rewrite Eh2 in Hl2, Hx2.
    split; (eapply py_int_mono; [|eassumption|eassumption]);
      (apply clamp_number_mono; [reflexivity|]);
      eapply fan_limit_antitone; eassumption.
Qed.

(** The catalogue's PETG preset, asked for 235 and for 250 degrees. *)
Lemma tune_monotone_witness :
  exists t1 t2,
    ai_tune_filament petg_preset 235 = Ok t1 /\
    ai_tune_filament petg_preset 250 = Ok t2 /\
    t_nozzle_temp t1 <= t_nozzle_temp t2 /\
    t_fan_speed t2 <= t_fan_speed t1.
Proof.
  destruct (ai_tune_filament petg_preset 235) as [t1|e1] eqn:E1;
    [|vm_compute in E1; discriminate].
  destruct (ai_tune_filament petg_preset 250) as [t2|e2] eqn:E2;
    [|vm_compute in E2; discriminate].
  exists t1, t2. split; [reflexivity|]. split; [reflexivity|].
  destruct (tune_monotone petg_preset 235 250 t1 t2) as (Hn & _ & Hs & _);
    [lia | exact E1 | exact E2 |].
  split; [exact Hn | exact Hs].
Defined.

(** [int(clamp(x, lo, hi))] at and beyond the bounds. *)
Lemma py_int_clamp_low (x : number) (lo hi : Z) :
  lo <= hi -> num_leb x (NInt lo) = true ->
  py_int (clamp x (NInt lo) (NInt hi)) = Ok lo.
Proof.
  intros Hb Hx. unfold clamp, py_max, py_min, py_lt, number_PyOrd, num_ltb, num_leb in *.
  number_cases x; simpl in *; try discriminate; unfold Qltb; case_Qle;
    simpl; try reflexivity;
    exfalso; Qbool;
    first [ rewrite <- ?Zle_Qle, <- ?Zlt_Qlt in *; lia
          | assert (inject_Z lo <= inject_Z hi)%Q by (rewrite <- Zle_Qle; lia); lra ].
Qed.

Lemma py_int_clamp_high (x : number) (lo hi : Z) :
  lo <= hi -> num_leb (NInt hi) x = true ->
  py_int (clamp x (NInt lo) (NInt hi)) = Ok hi.
Proof.
  intros Hb Hx.
  destruct (py_int_clamp x lo hi Hb) as [z Hz].
  pose proof (py_int_clamp_between x lo hi z Hb Hz) as Hz'.
  assert (Hhi : py_int (clamp (NInt hi) (NInt lo) (NInt hi)) = Ok hi).
  { unfold clamp, py_max, py_min, py_lt, number_PyOrd, num_ltb. simpl.
    unfold Qltb. case_Qle; simpl; try reflexivity;
      Qbool; rewrite <- ?Zle_Qle, <- ?Zlt_Qlt in *;
      first [f_equal; lia | exfalso; lia]. }
  assert (Hlh : num_leb (NInt lo) (NInt hi) = true).
  { unfold num_leb. simpl. apply Qle_bool_true. rewrite <- Zle_Qle. exact Hb. }
  pose proof (py_int_mono _ _ hi z
                (clamp_number_mono (NInt hi) x (NInt lo) (NInt hi) Hlh Hx)
                Hhi Hz).
  rewrite Hz. f_equal. lia.
Qed.

Lemma own_limit_inside (z : Z) (low : float) :
  20 <= z <= 80 ->
  int_sub_float z (FFin 0) = Ok low ->
  (z <= 60 -> py_int (clamp (NFloat low) (NInt 20) (NInt 60)) = Ok z) /\
  (40 <= z -> py_int (clamp (NFloat low) (NInt 40) (NInt 80)) = Ok z).
Proof.
  intros Hz Hlow.
  assert (Hall : forallb (fun z => own_limit_ok 20 60 z) (seqZ 20 41)
                 && forallb (fun z => own_limit_ok 40 80 z) (seqZ 40 41) = true)
    by (vm_compute; reflexivity).
  apply andb_true_iff in Hall as [H1 H2].
  rewrite forallb_forall in H1, H2.
  split; intros Hr.
  - specialize (H1 z). unfold own_limit_ok in H1. rewrite Hlow in H1.
    destruct (py_int _) as [r|e]; [|discriminate H1; apply list_elem_of_In, elem_of_seqZ; lia].
    f_equal. apply Z.eqb_eq, H1, list_elem_of_In, elem_of_seqZ. lia.
  - specialize (H2 z). unfold own_limit_ok in H2. rewrite Hlow in H2.
    destruct (py_int _) as [r|e]; [|discriminate H2; apply list_elem_of_In, elem_of_seqZ; lia].
    f_equal. apply Z.eqb_eq, H2, list_elem_of_In, elem_of_seqZ. lia.
Qed.

(** A fan limit minus 0.0, clamped and truncated, is the limit clamped:
    below and above the range by the order of the doubles, inside it by
    evaluation. *)
Lemma own_limit (z lo hi : Z) (low : float) :
  (lo = 20 /\ hi = 60) \/ (lo = 40 /\ hi = 80) ->
  int_sub_float z (FFin 0) = Ok low ->
  py_int (clamp (NFloat low) (NInt lo) (NInt hi)) = Ok (clamp z lo hi).
Proof.
  intros Hr Hlow.
  assert (Hlh : 20 <= lo /\ lo <= hi /\ hi <= 80) by lia.
  destruct (clamp_Z_spec z lo hi ltac:(lia)) as (_ & Hin & Hbelow & Habove).
  pose proof Hlow as Hlow'. unfold int_sub_float in Hlow'.
  destruct (float_of_int_cases z) as [(x & Hx & _) | [Hraise _]];
    [|rewrite Hraise in Hlow'; discriminate].
  rewrite Hx in Hlow'. cbn [mbind result_bind mret result_ret] in Hlow'.
  injection Hlow' as <-. unfold b64_sub. cbn [float_sub b64].
  destruct (Z.lt_ge_cases z lo) as [Hz|Hz]; [|destruct (Z.lt_ge_cases hi z) as [Hz'|Hz']].
  - rewrite Hbelow by exact Hz. apply py_int_clamp_low; [lia|].
    destruct (float_of_int_between lo 20 80 (inject_Z 20) (inject_Z 80))
      as (ql & Hql & _); [lia | vm_compute; reflexivity | vm_compute; reflexivity|].
    pose proof (float_of_int_mono z lo x ql ltac:(lia) Hx Hql) as Hle.
    assert (El : binary64 (inject_Z lo) = FFin (inject_Z lo)).
    { destruct Hr as [[-> _] | [-> _]]; vm_compute; reflexivity. }
    assert (Eq : ql = inject_Z lo).
    { unfold float_of_int in Hql. rewrite El in Hql. congruence. }
    subst ql. unfold num_leb, value_of. rewrite <- El.
    apply binary64_mono. lra.
  - rewrite Habove by exact Hz'. apply py_int_clamp_high; [lia|].
    destruct (float_of_int_between hi 20 80 (inject_Z 20) (inject_Z 80))
      as (qh & Hqh & _); [lia | vm_compute; reflexivity | vm_compute; reflexivity|].
    pose proof (float_of_int_mono hi z qh x ltac:(lia) Hqh Hx) as Hle.
    assert (Eh : binary64 (inject_Z hi) = FFin (inject_Z hi)).
    { destruct Hr as [[_ ->] | [_ ->]]; vm_compute; reflexivity. }
    assert (Eq : qh = inject_Z hi).
    { unfold float_of_int in Hqh. rewrite Eh in Hqh. congruence. }
    subst qh. unfold num_leb, value_of. rewrite <- Eh.
    apply binary64_mono. lra.
  - rewrite Hin by lia.
    assert (Hsub : int_sub_float z (FFin 0) = Ok (binary64 (x - 0))).
    { unfold int_sub_float. rewrite Hx. reflexivity. }
    destruct (own_limit_inside z _ ltac:(lia) Hsub) as [H1 H2].
    destruct Hr as [[-> ->] | [-> ->]]; [apply H1 | apply H2]; lia.
Qed.

(** Tuned at its own nozzle temperature, a preset keeps both temperatures,
    and each fan value is the preset's clamped into the range of its family
    (the PLA maximum is 100 whatever the preset says).  The engine returns
    for the PLA family and for every preset whose fan limits are at most
    [2^1023] in magnitude. *)
Theorem tune_at_own_temperature (base : MaterialPreset) :
  (forall t,
     ai_tune_filament base (nozzle_temp base) = Ok t ->
     t_nozzle_temp t = nozzle_temp base /\
     t_bed_temp t = bed_temp base /\
     if str_in "PLA" (name base)
     then t_fan_speed t = clamp (fan_speed base) 80 100 /\
          t_fan_speed_min t = clamp (fan_speed_min base) 70 100 /\
          t_fan_speed_max t = 100
     else t_fan_speed t = clamp (fan_speed base) 25 65 /\
          t_fan_speed_min t = clamp (fan_speed_min base) 20 60 /\
          t_fan_speed_max t = clamp (fan_speed_max base) 40 80) /\
  (str_in "PLA" (name base) = true
   \/ (- 2 ^ 1023 <= fan_speed_min base <= 2 ^ 1023
       /\ - 2 ^ 1023 <= fan_speed_max base <= 2 ^ 1023) ->
   exists t, ai_tune_filament base (nozzle_temp base) = Ok t).
Proof.
  split.
  - intros t Ht.
    apply ai_tune_filament_Ok in Ht as (Hn & Hb & _ & _ & Hfans).
    assert (Hn' : t_nozzle_temp t = nozzle_temp base).
    { rewrite Hn. apply clamp_Z_spec; lia. }
    assert (Hd : clamp (nozzle_temp base) (nozzle_temp base - 10)
                   (nozzle_temp base + 15) - nozzle_temp base = 0).
    { rewrite <- Hn, Hn'. lia. }
    rewrite Hd in Hfans.
    split; [exact Hn'|]. split.
    { rewrite Hb, Hn'.
      destruct (Z.ltb_spec (nozzle_temp base + 5) (nozzle_temp base));
        [lia | reflexivity]. }
    destruct (str_in "PLA" (name base)).
    + destruct Hfans as (-> & -> & ->).
      rewrite Z.mul_0_l, !Z.sub_0_r. auto.
    + destruct Hfans as (half & low & high & Hhalf & Hlow & Hhigh & -> & Hmin & Hmax).
      rewrite Z.sub_0_r. split; [reflexivity|].
      vm_compute in Hhalf. injection Hhalf as <-.
      change (FFin {| Qnum := 0; Qden := 1 |}) with (FFin 0) in Hlow, Hhigh.
      rewrite (own_limit _ 20 60 low (or_introl (conj eq_refl eq_refl)) Hlow) in Hmin.
      rewrite (own_limit _ 40 80 high (or_intror (conj eq_refl eq_refl)) Hhigh) in Hmax.
      injection Hmin as <-. injection Hmax as <-. auto.
  - intros [HPLA | [Hmin Hmax]]; apply ai_tune_filament_total; [auto|].
    right. rewrite !fits_float_range by assumption. reflexivity.
Qed.

(** The catalogue's PETG preset at its own 240 degrees. *)
Lemma tune_at_own_temperature_witness :
  exists t,
    ai_tune_filament petg_preset 240 = Ok t /\
    t_nozzle_temp t = 240 /\ t_bed_temp t = 80 /\
    t_fan_speed t = 45 /\ t_fan_speed_min t = 30 /\ t_fan_speed_max t = 60.
Proof.
  destruct (tune_at_own_temperature petg_preset) as [Hr Ht].
  destruct Ht as [t Ht].
  { right. vm_compute. repeat split; discriminate. }
  exists t. split; [exact Ht|].
  destruct (Hr t Ht) as (Hn & Hb & Hs & Hmin & Hmax).
  rewrite Hn, Hb, Hs, Hmin, Hmax. repeat split; reflexivity.
Defined.

(** ** The heuristic generator followed by the tuning engine *)

Lemma heuristic_temperatures
    (name : string) (nozzle_hint bed_hint : Z) (fan_pref : string) :
  let p := ai_generate_material_preset name nozzle_hint bed_hint fan_pref in
  nozzle_temp p = clamp nozzle_hint 160 290 /\ bed_temp p = clamp bed_hint 30 120.
Proof.
  unfold ai_generate_material_preset.
  destruct (String.eqb (lower fan_pref) "high");
    [|destruct (String.eqb (lower fan_pref) "low")]; split; reflexivity.
Qed.

(** The fan limits of a heuristic preset convert to floats. *)
Lemma heuristic_fan_limits_fit
    (name : string) (nozzle_hint bed_hint : Z) (fan_pref : string) :
  let p := ai_generate_material_preset name nozzle_hint bed_hint fan_pref in
  fits_float (fan_speed_min p) && fits_float (fan_speed_max p) = true.
Proof.
  unfold ai_generate_material_preset.
  destruct (String.eqb (lower fan_pref) "high");
    [|destruct (String.eqb (lower fan_pref) "low")];
    cbn [fan_speed_min fan_speed_max]; vm_compute; reflexivity.
Qed.

(** [main] tunes a heuristic preset at the very hint the preset was made
    from.  The tuned nozzle temperature is then the hint clamped to
    [150, 305], wider than the [160, 290] of the preset by the tuning
    window, and the bed temperature is the bed hint clamped to [30, 120],
    plus 5 when the hint is above 295. *)
Theorem heuristic_then_tune
    (name : string) (nozzle_hint bed_hint : Z) (fan_pref : string) :
  exists t,
    ai_tune_filament
      (ai_generate_material_preset name nozzle_hint bed_hint fan_pref) nozzle_hint
    = Ok t /\
    t_nozzle_temp t = clamp nozzle_hint 150 305 /\
    t_bed_temp t = clamp bed_hint 30 120 + (if 295 <? nozzle_hint then 5 else 0).
Proof.
  set (p := ai_generate_material_preset name nozzle_hint bed_hint fan_pref).
  destruct (ai_tune_filament_total p nozzle_hint) as [t Ht].
  { right. apply heuristic_fan_limits_fit. }
  pose proof Ht as Ht'.
  apply ai_tune_filament_Ok in Ht' as (Hn & Hb & _).
  destruct (heuristic_temperatures name nozzle_hint bed_hint fan_pref) as [Hpn Hpb].
  fold p in Hpn, Hpb.
  pose proof (clamp_Z_spec nozzle_hint 160 290 ltac:(lia)) as Hbase.
  pose proof (clamp_Z_spec nozzle_hint 150 305 ltac:(lia)) as Hwide.
  pose proof (clamp_Z_spec nozzle_hint (nozzle_temp p - 10) (nozzle_temp p + 15)
                ltac:(lia)) as Htuned.
  rewrite <- Hn in Htuned. rewrite Hpn in Htuned.
  assert (Hn' : t_nozzle_temp t = clamp nozzle_hint 150 305) by lia.
  exists t. split; [exact Ht|]. split; [exact Hn'|].
  rewrite Hb, Hpn, Hpb, py_min_Z.
  destruct (Z.ltb_spec (clamp nozzle_hint 160 290 + 5) (t_nozzle_temp t));
    destruct (Z.ltb_spec 295 nozzle_hint); lia.
Qed.

(** ** The pressure-advance override *)

(** A command-line pressure advance reaches the serializer clamped to
    [0.0, 0.2], NaN becoming 0.0, and the profile enables pressure advance
    exactly when the value given was strictly positive. *)
Theorem pressure_override_flag
    (str_of_float : float -> string) (tuned : TunedParameters)
    (given : float) (profile_name : string) :
  let eff := pressure_eff (Some given) tuned in
  float_between 0 (2 # 10) eff /\
  (given = FNaN -> eff = lit 0 1) /\
  (p_enable_pressure_advance
     (build_filament_profile str_of_float tuned eff profile_name) = ["1"]
   <-> strictly_positive given).
Proof.
  cbn [pressure_eff]. split; [apply clamp_float_between; lra|].
  split; [intros ->; reflexivity|].
  cbn [build_filament_profile p_enable_pressure_advance].
  unfold clamp, py_max, py_min, py_lt, float_PyOrd, num_ltb, value_of, float_ltb,
    Qltb, lit, strictly_positive.
  destruct given as [q | [|] |]; simpl; case_Qle;
    (split; [intros Hs; try discriminate Hs | intros Hp; try reflexivity]);
    try tauto; try discriminate; try (exfalso; Qbool; unfold inject_Z in *; lra);
    try (Qbool; unfold inject_Z in *; lra).
Qed.

(** ** The catalogue *)

Lemma pla_preset_valid :
  preset_in_bounds pla_preset /\
  fan_speed_min pla_preset <= fan_speed pla_preset <= fan_speed_max pla_preset.
Proof.
  split; [constructor|]; simpl; try lia;
    apply float_between_lit; unfold Qle; simpl; lia.
Qed.

Lemma petg_preset_valid :
  preset_in_bounds petg_preset /\
  fan_speed_min petg_preset <= fan_speed petg_preset <= fan_speed_max petg_preset.
Proof.
  split; [constructor|]; simpl; try lia;
    apply float_between_lit; unfold Qle; simpl; lia.
Qed.

(** The catalogue has the keys "pla" and "petg", with the PLA and the PETG
    preset under them, and no other key; each of its presets is within the
    bounds of a generated preset, its fan speed between its fan limits. *)
Theorem catalogue_presets_valid :
  MATERIALS !! "pla" = Some pla_preset /\
  MATERIALS !! "petg" = Some petg_preset /\
  forall key p,
    MATERIALS !! key = Some p ->
    (key = "pla" \/ key = "petg") /\
    preset_in_bounds p /\ fan_speed_min p <= fan_speed p <= fan_speed_max p.
Proof.
  split; [reflexivity|]. split; [reflexivity|].
  unfold MATERIALS. intros key p H.
  destruct (decide (key = "pla")) as [->|Hpla].
  - rewrite lookup_insert_eq in H. injection H as <-.
    split; [auto | apply pla_preset_valid].
  - rewrite lookup_insert_ne in H by congruence.
    destruct (decide (key = "petg")) as [->|Hpetg].
    + rewrite lookup_insert_eq in H. injection H as <-.
      split; [auto | apply petg_preset_valid].
    + rewrite lookup_insert_ne in H by congruence.
      rewrite lookup_empty in H. discriminate.
Qed.

(** The entry under "petg". *)
Lemma catalogue_presets_valid_witness :
  MATERIALS !! "petg" = Some petg_preset /\
  preset_in_bounds petg_preset /\
  fan_speed_min petg_preset <= fan_speed petg_preset <= fan_speed_max petg_preset.
Proof.
  destruct catalogue_presets_valid as (_ & Hpetg & Hall).
  split; [exact Hpetg|].
  apply (Hall "petg" petg_preset Hpetg).
Defined.

(** ** File-name slugs *)

Example slugify_examples :
  slugify "  My PLA+ (test) " = "my_pla_test" /\
  slugify "---" = "profile" /\
  slugify "" = "profile" /\
  slugify "PETG K1C" = "petg_k1c".
Proof. vm_compute. auto. Qed.

Lemma sub_runs_ok (s : string) (b : bool) : runs_ok b (sub_runs b s) = true.
Proof.
  revert b. induction s as [|c t IH]; intros b; simpl; [reflexivity|].
  destruct (is_slug_char c) eqn:Hc; simpl.
  - rewrite Hc. apply IH.
  - destruct b; [apply IH|]. simpl. apply IH.
Qed.

Lemma runs_ok_weaken (s : string) (b : bool) : runs_ok b s = true -> runs_ok false s = true.
Proof.
  destruct s as [|c t]; simpl; [reflexivity|].
  destruct (is_slug_char c); [tauto|].
  destruct b; simpl; [rewrite andb_false_r; discriminate | tauto].
Qed.

Lemma lstrip_underscores_ok (s : string) (b : bool) :
  runs_ok b s = true -> runs_ok true (lstrip_underscores s) = true.
Proof.
  revert b. induction s as [|c t IH]; intros b; simpl; [reflexivity|].
  destruct (is_underscore c) eqn:Hu.
  - destruct (is_slug_char c); [vm_compute in Hu|].
    + intros H. apply (IH false H).
    + intros [[_ _]%andb_prop H]%andb_prop. apply (IH true H).
  - simpl. destruct (is_slug_char c); [tauto|].
    rewrite Hu. discriminate.
Qed.

Lemma slug_char_not_underscore (c : ascii) :
  is_slug_char c = true -> is_underscore c = false.
Proof.
  unfold is_underscore. destruct (Ascii.eqb_spec c "_") as [->|_]; [|reflexivity].
  vm_compute. discriminate.
Qed.

Lemma slug_char_not_space (c : ascii) :
  is_slug_char c || is_underscore c = true -> is_space c = false.
Proof.
  unfold is_underscore. destruct (Ascii.eqb_spec c "_") as [->|_];
    [reflexivity|].
  rewrite orb_false_r. unfold is_slug_char, is_space.
  generalize (ascii_code c). intros n H.
  destruct (Z.leb_spec 97 n); destruct (Z.leb_spec n 122);
    destruct (Z.leb_spec 48 n); destruct (Z.leb_spec n 57);
    destruct (Z.leb_spec 9 n); destruct (Z.leb_spec n 13);
    destruct (Z.leb_spec 28 n); destruct (Z.leb_spec n 32);
    simpl in *; try reflexivity; try discriminate; lia.
Qed.

Lemma slug_char_lower (c : ascii) :
  is_slug_char c || is_underscore c = true -> lower_char c = c.
Proof.
  unfold is_underscore. destruct (Ascii.eqb_spec c "_") as [->|_];
    [reflexivity|].
  rewrite orb_false_r. unfold is_slug_char, lower_char.
  generalize (ascii_code c). intros n H.
  destruct (Z.leb_spec 97 n); destruct (Z.leb_spec n 122);
    destruct (Z.leb_spec 48 n); destruct (Z.leb_spec n 57);
    destruct (Z.leb_spec 65 n); destruct (Z.leb_spec n 90);
    simpl in *; try reflexivity; try discriminate; lia.
Qed.

Lemma rstrip_underscores_ok (s : string) (b : bool) :
  runs_ok b s = true ->
  runs_ok b (rstrip_underscores s) = true /\ ends_ok (rstrip_underscores s) = true.
Proof.
  revert b. induction s as [|c t IH]; intros b; [auto|].
  cbn [runs_ok rstrip_underscores].
  destruct (is_slug_char c) eqn:Hc.
  - intros H. destruct (IH false H) as [Hr He].
    assert (Hfull : runs_ok b (String c (rstrip_underscores t)) = true)
      by (cbn [runs_ok]; rewrite Hc; exact Hr).
    destruct (rstrip_underscores t) as [|c' r'] eqn:Hrt.
    + rewrite (slug_char_not_underscore c Hc). simpl. rewrite Hc. auto.
    + split; [exact Hfull | exact He].
  - intros [[Hu Hb]%andb_prop H]%andb_prop. destruct (IH true H) as [Hr He].
    assert (Hfull : runs_ok b (String c (rstrip_underscores t)) = true)
      by (cbn [runs_ok]; rewrite Hc, Hu, Hb; exact Hr).
    destruct (rstrip_underscores t) as [|c' r'] eqn:Hrt.
    + rewrite Hu. auto.
    + split; [exact Hfull | exact He].
Qed.

Lemma runs_ok_chars (s : string) (b : bool) :
  runs_ok b s = true ->
  all_chars (fun c => is_slug_char c || is_underscore c) s = true.
Proof.
  revert b. induction s as [|c t IH]; intros b; simpl; [reflexivity|].
  destruct (is_slug_char c); simpl.
  - apply IH.
  - intros [[Hu _]%andb_prop H]%andb_prop. rewrite Hu. apply (IH true H).
Qed.

Lemma runs_ok_no_leading_underscore (s : string) :
  runs_ok true s = true -> String.prefix "_" s = false.
Proof.
  destruct s as [|c t]; [reflexivity|].
  cbn [String.prefix]. intros H.
  destruct (ascii_dec "_" c) as [<-|_]; [|reflexivity].
  vm_compute in H. discriminate.
Qed.

Lemma runs_ok_no_double_underscore (s : string) (b : bool) :
  runs_ok b s = true -> str_in "__" s = false.
Proof.
  revert b. induction s as [|c t IH]; intros b H; [reflexivity|].
  cbn [str_in]. cbn [runs_ok] in H.
  assert (Ht : str_in "__" t = false).
  { destruct (is_slug_char c); [apply (IH false H)|].
    apply andb_prop in H as [_ H]. apply (IH true H). }
  rewrite Ht, orb_false_r. cbn [String.prefix].
  destruct (ascii_dec "_" c) as [<-|_]; [|reflexivity].
  assert (Hs : is_slug_char "_" = false) by reflexivity.
  rewrite Hs in H. apply andb_prop in H as [_ H].
  apply runs_ok_no_leading_underscore, H.
Qed.

Lemma slugify_normal (text : string) :
  non_empty (slugify text) = true /\
  runs_ok true (slugify text) = true /\
  ends_ok (slugify text) = true.
Proof.
  unfold slugify.
  set (u := sub_runs false (lower (strip text))).
  pose proof (sub_runs_ok (lower (strip text)) false) as Hu. fold u in Hu.
  apply lstrip_underscores_ok in Hu.
  apply rstrip_underscores_ok in Hu as [Hr He].
  destruct (rstrip_underscores (lstrip_underscores u)) as [|c r] eqn:Hs.
  - vm_compute. auto.
  - cbn [non_empty]. auto.
Qed.

(** The slug of any text is not empty, consists of lower-case letters,
    digits and underscores, does not begin or end with an underscore and
    has no two underscores in a row. *)
Theorem slugify_shape (text : string) :
  let s := slugify text in
  non_empty s = true /\
  all_chars (fun c => is_slug_char c || is_underscore c) s = true /\
  String.prefix "_" s = false /\
  ends_ok s = true /\
  str_in "__" s = false.
Proof.
  destruct (slugify_normal text) as (Hne & Hr & He).
  cbv zeta. split; [exact Hne|].
  split; [apply (runs_ok_chars _ true Hr)|].
  split; [apply (runs_ok_no_leading_underscore _ Hr)|].
  split; [exact He | apply (runs_ok_no_double_underscore _ true Hr)].
Qed.

Lemma lstrip_no_space (s : string) :
  all_chars (fun c => negb (is_space c)) s = true -> lstrip s = s.
Proof.
  destruct s as [|c t]; simpl; [reflexivity|].
  destruct (is_space c); [discriminate | reflexivity].
Qed.

Lemma rstrip_no_space (s : string) :
  all_chars (fun c => negb (is_space c)) s = true -> rstrip s = s.
Proof.
  induction s as [|c t IH]; simpl; [reflexivity|].
  intros [Hc Ht]%andb_prop. rewrite (IH Ht).
  destruct t; [|reflexivity].
  destruct (is_space c); [discriminate | reflexivity].
Qed.

Lemma strip_no_space (s : string) :
  all_chars (fun c => negb (is_space c)) s = true -> strip s = s.
Proof.
  intros H. unfold strip. rewrite (lstrip_no_space s H). apply rstrip_no_space, H.
Qed.

Lemma slug_strip_lower (s : string) :
  all_chars (fun c => is_slug_char c || is_underscore c) s = true ->
  lower (strip s) = s.
Proof.
  intros H. rewrite strip_no_space.
  - induction s as [|c t IH]; simpl; [reflexivity|].
    simpl in H. apply andb_prop in H as [Hc Ht].
    rewrite (slug_char_lower c Hc), (IH Ht). reflexivity.
  - refine (all_chars_weaken _ _ s _ H).
    intros c Hc. rewrite (slug_char_not_space c Hc). reflexivity.
Qed.

Lemma sub_runs_fixed (s : string) (b : bool) : runs_ok b s = true -> sub_runs b s = s.
Proof.
  revert b. induction s as [|c t IH]; intros b; simpl; [reflexivity|].
  destruct (is_slug_char c).
  - intros H. rewrite (IH false H). reflexivity.
  - intros [[Hu Hb]%andb_prop H]%andb_prop.
    destruct b; [discriminate|]. rewrite (IH true H).
    unfold is_underscore in Hu. apply Ascii.eqb_eq in Hu as ->. reflexivity.
Qed.

Lemma lstrip_underscores_fixed (s : string) :
  runs_ok true s = true -> lstrip_underscores s = s.
Proof.
  destruct s as [|c t]; simpl; [reflexivity|].
  destruct (is_slug_char c) eqn:Hc.
  - rewrite (slug_char_not_underscore c Hc). reflexivity.
  - rewrite andb_false_r. discriminate.
Qed.

Lemma rstrip_underscores_fixed (s : string) :
  ends_ok s = true -> rstrip_underscores s = s.
Proof.
  induction s as [|c t IH]; [reflexivity|].
  cbn [ends_ok rstrip_underscores]. destruct t as [|c' t'].
  - intros Hc. simpl. rewrite (slug_char_not_underscore c Hc). reflexivity.
  - intros H. rewrite (IH H). reflexivity.
Qed.

(** A slug is its own slug. *)
Theorem slugify_idempotent (text : string) : slugify (slugify text) = slugify text.
Proof.
  destruct (slugify_normal text) as (Hne & Hruns & Hend).
  pose proof (runs_ok_chars _ true Hruns) as Hchars.
  set (s := slugify text) in *.
  unfold slugify at 1.
  rewrite (slug_strip_lower s Hchars).
  rewrite (sub_runs_fixed s false (runs_ok_weaken s true Hruns)).
  rewrite (lstrip_underscores_fixed s Hruns).
  rewrite (rstrip_underscores_fixed s Hend).
  rewrite Hne. reflexivity.
Qed.

(** ** Decimal numerals: [str] of an [int] and back *)

Lemma more_digits_uint (d : Decimal.uint) (acc : Z) :
  more_digits (NilEmpty.string_of_uint d) acc = Some (uint_value d acc).
Proof.
  revert acc. induction d; intros acc; simpl; try reflexivity; apply IHd.
Qed.

Lemma uint_value_acc (d : Decimal.uint) (acc : positive) :
  uint_value d (Zpos acc) = Zpos (Pos.of_uint_acc d acc).
Proof.
  revert acc. induction d; intros acc; cbn [uint_value Pos.of_uint_acc];
    try reflexivity;
    match goal with
    | |- uint_value _ ?a = Zpos (Pos.of_uint_acc _ ?p) =>
        replace a with (Zpos p) by lia; apply IHd
    end.
Qed.

Lemma uint_value_0 (d : Decimal.uint) : uint_value d 0 = Z.of_N (Pos.of_uint d).
Proof.
  induction d; cbn [uint_value Pos.of_uint]; try reflexivity;
    try (change (10 * 0 + 0) with 0; exact IHd);
    match goal with
    | |- uint_value _ ?a = Z.of_N (N.pos (Pos.of_uint_acc _ ?p)) =>
        change a with (Zpos p); apply uint_value_acc
    end.
Qed.

Lemma string_of_uint_digits (d : Decimal.uint) :
  all_chars is_digit (NilEmpty.string_of_uint d) = true.
Proof. induction d; simpl; auto. Qed.

Lemma unsigned_literal_uint (d : Decimal.uint) :
  d <> Decimal.Nil ->
  unsigned_literal (NilEmpty.string_of_uint d) = Some (uint_value d 0).
Proof.
  destruct d; intros Hd; [contradiction|..]; simpl; apply more_digits_uint.
Qed.

Lemma unsigned_literal_pos (p : positive) :
  unsigned_literal (NilZero.string_of_uint (Pos.to_uint p)) = Some (Zpos p).
Proof.
  pose proof (Unsigned.to_uint_nonnil p) as Hn.
  assert (E : NilZero.string_of_uint (Pos.to_uint p)
              = NilEmpty.string_of_uint (Pos.to_uint p)).
  { destruct (Pos.to_uint p); [contradiction|..]; reflexivity. }
  rewrite E, (unsigned_literal_uint _ Hn), uint_value_0, DecimalPos.Unsigned.of_to.
  reflexivity.
Qed.

Lemma digit_is_literal (c : ascii) :
  is_digit c = true ->
  negb (is_space c) = true /\ Ascii.eqb c "-" = false /\ Ascii.eqb c "+" = false
  /\ Ascii.eqb c (ascii_of_N 226) = false.
Proof.
  unfold is_digit, digit_of, is_space.
  destruct (Ascii.eqb_spec c "-") as [->|_]; [vm_compute; discriminate|].
  destruct (Ascii.eqb_spec c "+") as [->|_]; [vm_compute; discriminate|].
  destruct (Ascii.eqb_spec c (ascii_of_N 226)) as [->|_]; [vm_compute; discriminate|].
  generalize (ascii_code c). intros n.
  destruct (Z.leb_spec 48 n); destruct (Z.leb_spec n 57);
    destruct (Z.leb_spec 9 n); destruct (Z.leb_spec n 13);
    destruct (Z.leb_spec 28 n); destruct (Z.leb_spec n 32);
    simpl; try discriminate; try auto; lia.
Qed.

Lemma pos_numeral_digits (p : positive) :
  all_chars is_digit (NilZero.string_of_uint (Pos.to_uint p)) = true /\
  non_empty (NilZero.string_of_uint (Pos.to_uint p)) = true.
Proof.
  pose proof (Unsigned.to_uint_nonnil p) as Hn.
  destruct (Pos.to_uint p) eqn:E; [contradiction|..];
    (split; [apply (string_of_uint_digits (_ u)) | reflexivity]).
Qed.

Lemma digits_no_space (s : string) :
  all_chars is_digit s = true -> all_chars (fun c => negb (is_space c)) s = true.
Proof.
  apply all_chars_weaken. intros c Hc. apply (digit_is_literal c Hc).
Qed.

(** [int(str(z))] is [z]. *)
Lemma int_of_str_str_of_int (z : Z) : int_of_str (str_of_int z) = Ok z.
Proof.
  destruct z as [|p|p]; [reflexivity|..]; unfold str_of_int, int_of_str;
    cbn [Z.to_int NilZero.string_of_int];
    destruct (pos_numeral_digits p) as [Hd Hne];
    pose proof (unsigned_literal_pos p) as Hu;
    set (s := NilZero.string_of_uint (Pos.to_uint p)) in *.
  - rewrite (strip_no_space s (digits_no_space s Hd)).
    destruct s as [|c t] eqn:Es; [discriminate|].
    cbn [all_chars] in Hd. apply andb_prop in Hd as [Hc _].
    destruct (digit_is_literal c Hc) as (_ & -> & -> & _).
    rewrite Hu. reflexivity.
  - rewrite strip_no_space.
    + cbn. rewrite Hu. reflexivity.
    + cbn [all_chars]. rewrite (digits_no_space s Hd). reflexivity.
Qed.

Lemma digits_no_hyphen (s : string) :
  all_chars is_digit s = true -> str_in "-" s = false.
Proof.
  induction s as [|c t IH]; [reflexivity|].
  cbn [all_chars str_in String.prefix]. intros [Hc Ht]%andb_prop.
  rewrite (IH Ht), orb_false_r.
  destruct (ascii_dec "-" c) as [<-|_]; [|reflexivity].
  vm_compute in Hc. discriminate.
Qed.

Lemma split_dash_plain (c : ascii) (t : string) :
  Ascii.eqb c "-" = false -> Ascii.eqb c (ascii_of_N 226) = false ->
  split_dash (String c t) =
  match split_dash t with
  | piece :: rest => String c piece :: rest
  | [] => [String c ""]
  end.
Proof.
  intros H1 H2. cbn [split_dash]. rewrite H1.
  destruct t as [|c2 [|c3 t']]; try reflexivity.
  rewrite H2. reflexivity.
Qed.

Lemma split_dash_digits_then (s rest : string) :
  all_chars is_digit s = true ->
  split_dash (s ++ String "-" rest) = s :: split_dash rest.
Proof.
  induction s as [|c t IH]; [reflexivity|].
  cbn [all_chars]. intros [Hc Ht]%andb_prop.
  destruct (digit_is_literal c Hc) as (_ & H1 & _ & H2).
  change (String c t ++ String "-" rest) with (String c (t ++ String "-" rest)).
  rewrite (split_dash_plain c _ H1 H2), (IH Ht). reflexivity.
Qed.

Lemma split_dash_digits (s : string) :
  all_chars is_digit s = true -> split_dash s = [s].
Proof.
  induction s as [|c t IH]; [reflexivity|].
  cbn [all_chars]. intros [Hc Ht]%andb_prop.
  destruct (digit_is_literal c Hc) as (_ & H1 & _ & H2).
  rewrite (split_dash_plain c _ H1 H2), (IH Ht). reflexivity.
Qed.

Lemma str_in_head (c : ascii) (t : string) : str_in (String c "") (String c t) = true.
Proof.
  cbn [str_in String.prefix].
  destruct (ascii_dec c c) as [_|Hn]; [|contradiction].
  destruct t; reflexivity.
Qed.

(** A hint that is the decimal numeral of an integer, negative ones
    included, is parsed as that integer; the fallback plays no part.  The
    bound is the interpreter's default limit of 4300 digits on the text of
    an integer. *)
Theorem parse_temp_hint_numeral (z fallback : Z) :
  Z.abs z < 10 ^ 4300 ->
  parse_temp_hint (str_of_int z) fallback = Ok z.
Proof.
  intros _. pose proof (int_of_str_str_of_int z) as Hint.
  destruct z as [|p|p]; [reflexivity|..];
    destruct (pos_numeral_digits p) as [Hd Hne];
    unfold str_of_int in *; cbn [Z.to_int NilZero.string_of_int] in *;
    set (s := NilZero.string_of_uint (Pos.to_uint p)) in *;
    unfold parse_temp_hint, parse_temp_hint_try.
  - rewrite Hne, (digits_no_hyphen s Hd), Hint. reflexivity.
  - cbn [non_empty].
    rewrite (str_in_head "-" s).
    assert (Hsplit : split_dash (String "-" s) = [""; s]).
    { change (String "-" s) with ("" ++ String "-" s).
      rewrite split_dash_digits_then by reflexivity.
      rewrite (split_dash_digits s Hd). reflexivity. }
    rewrite Hsplit. cbn [List.filter].
    rewrite (strip_no_space s (digits_no_space s Hd)), Hne.
    change (non_empty (strip "")) with false. cbn [mapM].
    rewrite (strip_no_space s (digits_no_space s Hd)).
    pose proof (int_of_str_str_of_int (Zpos p)) as Hpos.
    unfold str_of_int in Hpos. cbn [Z.to_int NilZero.string_of_int] in Hpos.
    fold s in Hpos. rewrite Hpos.
    cbn [mbind result_bind mret result_ret]. rewrite Hint. reflexivity.
Qed.

Lemma nonneg_numeral_digits (z : Z) :
  0 <= z ->
  all_chars is_digit (str_of_int z) = true /\ non_empty (str_of_int z) = true.
Proof.
  destruct z as [|p|p]; intros Hz; [split; reflexivity | | lia].
  apply pos_numeral_digits.
Qed.

Lemma str_in_middle (s : string) (c : ascii) (t : string) :
  str_in (String c "") (s ++ String c t) = true.
Proof.
  induction s as [|c' s IH]; [apply str_in_head|].
  change (String c' s ++ String c t) with (String c' (s ++ String c t)).
  cbn [str_in]. rewrite IH. apply orb_true_r.
Qed.

(** A range of two non-negative integers, written as decimal numerals with
    a hyphen between them, is parsed as their midpoint rounded down, as
    long as their sum is below [2^53]; the midpoint lies between the two. *)
Theorem parse_temp_hint_midpoint (a b fallback : Z) :
  0 <= a -> 0 <= b -> a + b < 2 ^ 53 ->
  parse_temp_hint (str_of_int a ++ "-" ++ str_of_int b) fallback = Ok ((a + b) / 2)
  /\ Z.min a b <= (a + b) / 2 <= Z.max a b.
Proof.
  intros Ha Hb Hsum.
  destruct (nonneg_numeral_digits a Ha) as [Hda Hna].
  destruct (nonneg_numeral_digits b Hb) as [Hdb Hnb].
  split.
  - change (str_of_int a ++ "-" ++ str_of_int b)
      with (str_of_int a ++ String "-" (str_of_int b)).
    rewrite <- (Z.quot_div_nonneg (a + b) 2) by lia.
    apply (parse_temp_hint_range _ fallback a b []).
    + apply str_in_middle.
    + rewrite (split_dash_digits_then _ _ Hda), (split_dash_digits _ Hdb).
      cbn [List.filter].
      rewrite !(strip_no_space _ (digits_no_space _ Hda)).
      rewrite !(strip_no_space _ (digits_no_space _ Hdb)).
      rewrite Hna, Hnb. cbn [mapM].
      rewrite !(strip_no_space _ (digits_no_space _ Hda)).
      rewrite !(strip_no_space _ (digits_no_space _ Hdb)).
      rewrite !int_of_str_str_of_int. reflexivity.
    + rewrite Z.abs_eq by lia. exact Hsum.
  - pose proof (Z.div_le_lower_bound (a + b) 2 (Z.min a b) ltac:(lia) ltac:(lia)).
    pose proof (Z.div_le_upper_bound (a + b) 2 (Z.max a b) ltac:(lia) ltac:(lia)).
    lia.
Qed.

Lemma parse_temp_hint_midpoint_witness :
  parse_temp_hint "190-230" 0 = Ok 210 /\ 190 <= 210 <= 230.
Proof.
  destruct (parse_temp_hint_midpoint 190 230 0) as [H1 H2];
    [lia | lia | reflexivity |].
  split; [exact H1 | exact H2].
Defined.

Lemma spaces_no_hyphen (s : string) :
  all_chars is_space s = true -> str_in "-" s = false.
Proof.
  induction s as [|c t IH]; [reflexivity|].
  cbn [all_chars str_in String.prefix]. intros [Hc Ht]%andb_prop.
  rewrite (IH Ht), orb_false_r.
  destruct (ascii_dec "-" c) as [<-|_]; [|reflexivity].
  vm_compute in Hc. discriminate.
Qed.

Lemma lstrip_spaces (s : string) : all_chars is_space s = true -> lstrip s = "".
Proof.
  induction s as [|c t IH]; [reflexivity|].
  cbn [all_chars lstrip]. intros [-> Ht]%andb_prop. apply IH, Ht.
Qed.

(** A hint made of white space only gives the fallback. *)
Theorem parse_temp_hint_blank (raw : string) (fallback : Z) :
  all_chars is_space raw = true -> parse_temp_hint raw fallback = Ok fallback.
Proof.
  intros H. unfold parse_temp_hint, parse_temp_hint_try.
  rewrite (spaces_no_hyphen raw H).
  destruct (non_empty raw); [|reflexivity].
  unfold int_of_str, strip. rewrite (lstrip_spaces raw H). reflexivity.
Qed.

Lemma parse_temp_hint_blank_witness :
  parse_temp_hint (String " " (String (ascii_of_N 9) "")) 60 = Ok 60.
Proof.
  apply (parse_temp_hint_blank (String " " (String (ascii_of_N 9) "")) 60).
  reflexivity.
Defined.

(** ** The numbers of a profile *)

(** The three numeric fields of a profile are one-element lists whose
    element reads back, with [int()], as the tuned value it was made from
    (the bound is the interpreter's default limit of 4300 digits on the
    text of an integer); the two name fields are the profile name. *)
Theorem profile_numbers_read_back
    (str_of_float : float -> string) (tuned : TunedParameters)
    (pressure_advance : float) (profile_name : string) :
  Z.abs (t_nozzle_temp tuned) < 10 ^ 4300 ->
  Z.abs (t_bed_temp tuned) < 10 ^ 4300 ->
  Z.abs (t_fan_speed_max tuned) < 10 ^ 4300 ->
  let profile :=
    build_filament_profile str_of_float tuned pressure_advance profile_name in
  mapM int_of_str (p_nozzle_temperature profile) = Ok [t_nozzle_temp tuned] /\
  mapM int_of_str (p_hot_plate_temp profile) = Ok [t_bed_temp tuned] /\
  mapM int_of_str (p_additional_cooling_fan_speed profile)
  = Ok [t_fan_speed_max tuned] /\
  p_name profile = profile_name /\ p_filament_settings_id profile = profile_name.
Proof.
  intros _ _ _.
  cbn [build_filament_profile p_nozzle_temperature p_hot_plate_temp
       p_additional_cooling_fan_speed p_name p_filament_settings_id mapM].
  rewrite !int_of_str_str_of_int. repeat split.
Qed.

(** The tuned PETG of the catalogue: 247, 85 and 56 come back. *)
Lemma profile_numbers_read_back_witness :
  let profile := build_filament_profile (fun _ => "0.02") petg_tuned (lit 2 100) "PETG" in
  mapM int_of_str (p_nozzle_temperature profile) = Ok [247] /\
  mapM int_of_str (p_hot_plate_temp profile) = Ok [85] /\
  mapM int_of_str (p_additional_cooling_fan_speed profile) = Ok [56].
Proof.
  destruct (profile_numbers_read_back (fun _ => "0.02") petg_tuned (lit 2 100) "PETG")
    as (H1 & H2 & H3 & _); [vm_compute; reflexivity ..|].
  cbv zeta. split; [exact H1|]. split; [exact H2 | exact H3].
Defined.

(** The numerals of -5 and of 205. *)
Lemma parse_temp_hint_numeral_witness :
  parse_temp_hint "-5" 60 = Ok (-5) /\ parse_temp_hint "205" 60 = Ok 205.
Proof.
  split.
  - apply (parse_temp_hint_numeral (-5) 60). vm_compute. reflexivity.
  - apply (parse_temp_hint_numeral 205 60). vm_compute. reflexivity.
Defined.

(** ** The chat request *)









(** A line that decodes to a number, a boolean or [null] makes the loop
    raise [TypeError], which the handler for decoding errors does not
    catch; so does a chunk whose content is not a string. *)
Theorem collect_content_type_error
    (json_loads : string -> loads_result) (line : string) (rest : list string)
    (full : string) (v : pyval) :
  non_empty (strip line) = true ->
  json_loads line = Decoded v ->
  (v = VNone \/ is_number v = true \/
   exists m mm c, v = VDict m /\ m !! "message" = Some (VDict mm) /\
                  mm !! "content" = Some c /\
                  match c with VStr _ => False | _ => True end) ->
  collect_content json_loads (line :: rest) full = Raise TypeError.
Proof.
  intros Hb Hd Hv. cbn [collect_content]. rewrite Hb, Hd.
  destruct Hv as [-> | [Hnum | (m & mm & c & -> & Hm & Hc & Hstr)]].
  - reflexivity.
  - destruct v; try discriminate; reflexivity.
  - cbn [chunk_content py_item_if_in mbind result_bind]. rewrite Hm.
    cbn [py_item_if_in]. rewrite Hc. destruct c; try contradiction; reflexivity.
Qed.

Lemma collect_content_type_error_witness :
  collect_content (loads_table [("5", VInt 5)]) ["5"; chunk_text "x"] ""
  = Raise TypeError.
Proof.
  apply (collect_content_type_error _ "5" [chunk_text "x"] "" (VInt 5));
    [reflexivity | reflexivity |].
  right. left. reflexivity.
Defined.

(** ** The command line *)

Lemma run_bind_Finished {A B} (r : run A) (k : A -> run B) (b : B) :
  r ≫= k = Finished b -> exists a, r = Finished a /\ k a = Finished b.
Proof. destruct r as [a|e|]; simpl; [eauto | discriminate | discriminate]. Qed.

Lemma of_result_Finished {A} (r : result A) (a : A) :
  of_result r = Finished a -> r = Ok a.
Proof. destruct r; simpl; [intros [= ->]; reflexivity | discriminate]. Qed.

Lemma input_until_ok (ok : string -> bool) (normal : string -> string)
    (lines rest : list string) (v : string) :
  input_until ok normal lines = Finished (v, rest) -> ok v = true.
Proof.
  induction lines as [|line lines IH]; simpl; [discriminate|].
  destruct (ok (normal line)) eqn:E; [|exact IH].
  intros [= <- _]. exact E.
Qed.

Lemma materials_lookup (key : string) (material : MaterialPreset) :
  MATERIALS !! key = Some material ->
  (key = "pla" /\ material = pla_preset) \/ (key = "petg" /\ material = petg_preset).
Proof.
  unfold MATERIALS. intros H.
  destruct (decide (key = "pla")) as [->|Hpla].
  - rewrite lookup_insert_eq in H. injection H as <-. auto.
  - rewrite lookup_insert_ne in H by congruence.
    destruct (decide (key = "petg")) as [->|Hpetg].
    + rewrite lookup_insert_eq in H. injection H as <-. auto.
    + rewrite lookup_insert_ne in H by congruence.
      rewrite lookup_empty in H. discriminate.
Qed.

Lemma input_material_catalogue (lines rest : list string) (material : MaterialPreset) :
  input_material lines = Finished (material, rest) ->
  exists key, MATERIALS !! key = Some material.
Proof.
  induction lines as [|line lines IH]; simpl; [discriminate|].
  destruct (MATERIALS !! lower (strip line)) as [m|] eqn:E; [|exact IH].
  intros [= <- _]. eauto.
Qed.

Lemma catalogue_temperatures (key : string) (material : MaterialPreset) :
  MATERIALS !! key = Some material ->
  160 <= nozzle_temp material <= 290 /\ 30 <= bed_temp material <= 120.
Proof.
  intros H. destruct (materials_lookup key material H) as [[_ ->] | [_ ->]];
    simpl; lia.
Qed.

Lemma ollama_preset_temperatures
    (call_ollama : string -> string) (json_loads : string -> loads_result)
    (material : string) (nozzle_hint bed_hint : Z) (fan_pref : string)
    (p : MaterialPreset) :
  ollama_generate_material call_ollama json_loads material nozzle_hint bed_hint
    fan_pref = Ok p ->
  160 <= nozzle_temp p <= 290 /\ 30 <= bed_temp p <= 120.
Proof.
  unfold ollama_generate_material.
  destruct (json_loads _) as [data| |e]; [|discriminate|discriminate].
  intros H.
  apply bind_Ok in H as (v_nozzle & G_nozzle & H).
  apply bind_Ok in H as (c_nozzle & C_nozzle & H).
  apply bind_Ok in H as (nozzle & I_nozzle & H).
  apply bind_Ok in H as (v_bed & G_bed & H).
  apply bind_Ok in H as (c_bed & C_bed & H).
  apply bind_Ok in H as (bed & I_bed & H).
  repeat (apply bind_Ok in H as (? & ? & H)).
  injection H as <-. cbn [nozzle_temp bed_temp].
  repeat match goal with
         | E : py_int (NInt _) = Ok _ |- _ => simpl in E; injection E as <-
         end.
  split; eapply int_clamp_value_between; try eassumption; lia.
Qed.

Lemma tuned_temperature_envelope (base : MaterialPreset) (req : Z) (t : TunedParameters) :
  160 <= nozzle_temp base <= 290 -> 30 <= bed_temp base <= 120 ->
  ai_tune_filament base req = Ok t ->
  150 <= t_nozzle_temp t <= 305 /\ 30 <= t_bed_temp t <= 125.
Proof.
  intros Hn Hb Ht.
  apply ai_tune_filament_Ok in Ht as (Hnoz & Hbed & _).
  pose proof (clamp_Z_spec req (nozzle_temp base - 10) (nozzle_temp base + 15)
                ltac:(lia)) as [Hw _].
  rewrite <- Hnoz in Hw. split; [lia|].
  rewrite Hbed, py_min_Z.
  destruct (nozzle_temp base + 5 <? t_nozzle_temp t); lia.
Qed.

(** Whatever the arguments, the lines typed and the answer of the LLM, a
    profile that [main] writes goes to the output directory under the slug
    of its name with ".json" after it, has a name that is not empty, a
    nozzle temperature between 150 and 305 and a bed temperature between
    30 and 125. *)
Theorem main_writes_safe_profile
    (post : string -> result string) (json_loads : string -> loads_result)
    (str_of_float : float -> string) (args : Args) (lines : list string)
    (dir file : string) (profile : FilamentProfile) :
  main post json_loads str_of_float args lines = Finished (dir, file, profile) ->
  dir = arg_output args /\
  file = slugify (p_name profile) ++ ".json" /\
  non_empty (p_name profile) = true /\
  exists n b,
    p_nozzle_temperature profile = [str_of_int n] /\ 150 <= n <= 305 /\
    p_hot_plate_temp profile = [str_of_int b] /\ 30 <= b <= 125.
Proof.
  unfold main. intros H.
  apply run_bind_Finished in H as ([name1 lines1] & _ & H). cbv beta iota in H.
  apply run_bind_Finished in H as ([pname lines2] & Hname & H). cbv beta iota in H.
  apply run_bind_Finished in H as ([[material tuned_temp] lines3] & Hmat & H).
  cbv beta iota in H.
  apply run_bind_Finished in H as (tuned & Htune & H).
  apply of_result_Finished in Htune.
  injection H as <- <- <-.
  assert (Hne : non_empty pname = true).
  { destruct (non_empty name1) eqn:E.
    - injection Hname as <- _. exact E.
    - apply input_until_ok in Hname. exact Hname. }
  assert (Hbase : 160 <= nozzle_temp material <= 290 /\ 30 <= bed_temp material <= 120).
  { destruct (arg_ai_new args).
    - apply run_bind_Finished in Hmat as ([l1 r1] & _ & Hmat). cbv beta iota in Hmat.
      apply run_bind_Finished in Hmat as ([l2 r2] & _ & Hmat). cbv beta iota in Hmat.
      apply run_bind_Finished in Hmat as ([l3 r3] & _ & Hmat). cbv beta iota in Hmat.
      apply run_bind_Finished in Hmat as ([l4 r4] & _ & Hmat). cbv beta iota in Hmat.
      apply run_bind_Finished in Hmat as (temp_hint & _ & Hmat).
      apply run_bind_Finished in Hmat as (bed_hint & _ & Hmat).
      apply run_bind_Finished in Hmat as (m & Hm & Hmat).
      injection Hmat as <- _ _.
      destruct (arg_use_ollama args).
      + apply run_bind_Finished in Hm as (raw & _ & Hm).
        apply of_result_Finished in Hm.
        apply (ollama_preset_temperatures _ _ _ _ _ _ _ Hm).
      + injection Hm as <-.
        destruct (heuristic_temperatures
                    (or_else (strip l1) "Custom") temp_hint bed_hint
                    (main_fan_pref l4)) as [-> ->].
        split; apply clamp_Z_spec; lia.
    - apply run_bind_Finished in Hmat as ([key r1] & _ & Hmat). cbv beta iota in Hmat.
      apply run_bind_Finished in Hmat as ([m r2] & Hm & Hmat). cbv beta iota in Hmat.
      apply run_bind_Finished in Hmat as ([l r3] & _ & Hmat). cbv beta iota in Hmat.
      apply run_bind_Finished in Hmat as (temp & _ & Hmat).
      injection Hmat as <- _ _.
      destruct (MATERIALS !! key) as [m'|] eqn:E.
      + injection Hm as <- _. apply (catalogue_temperatures key _ E).
      + apply input_material_catalogue in Hm as [k Hk].
        apply (catalogue_temperatures k _ Hk). }
  destruct Hbase as [Hbn Hbb].
  destruct (tuned_temperature_envelope material tuned_temp tuned Hbn Hbb Htune)
    as [Hn Hb].
  cbn [build_filament_profile p_name p_nozzle_temperature p_hot_plate_temp].
  split; [reflexivity|]. split; [reflexivity|]. split; [exact Hne|].
  exists (t_nozzle_temp tuned), (t_bed_temp tuned). auto.
Qed.

(** The catalogue's PETG asked for 250 degrees, and a heuristic preset made
    from a hint of 400. *)
Lemma main_writes_safe_profile_witness :
  (exists profile,
     main (fun _ => Raise (RuntimeError "offline")) (fun _ => JSONDecodeError) (fun _ => "0.02")
       {| arg_name := Some "My PETG"; arg_material := Some "petg";
          arg_pressure_advance := None; arg_ai_new := false;
          arg_use_ollama := false; arg_output := "out_profiles" |}
       ["250"]
     = Finished ("out_profiles", "my_petg.json", profile) /\
     p_nozzle_temperature profile = ["250"] /\ p_hot_plate_temp profile = ["85"]) /\
  (exists dir file profile n,
     main (fun _ => Raise (RuntimeError "offline")) (fun _ => JSONDecodeError) (fun _ => "0.02")
       {| arg_name := None; arg_material := Some "pla";
          arg_pressure_advance := None; arg_ai_new := true;
          arg_use_ollama := false; arg_output := "out" |}
       [""; "Hot one"; "ABS+"; "400"; ""; "low"]
     = Finished (dir, file, profile) /\
     p_nozzle_temperature profile = [str_of_int n] /\ 150 <= n <= 305).
Proof.
  split.
  - eexists. split; [vm_compute; reflexivity|]. split; reflexivity.
  - destruct (main (fun _ => Raise (RuntimeError "offline")) (fun _ => JSONDecodeError)
                (fun _ => "0.02")
                {| arg_name := None; arg_material := Some "pla";
                   arg_pressure_advance := None; arg_ai_new := true;
                   arg_use_ollama := false; arg_output := "out" |}
                [""; "Hot one"; "ABS+"; "400"; ""; "low"])
      as [[[dir file] profile]|e|] eqn:E;
      [|vm_compute in E; discriminate|vm_compute in E; discriminate].
    destruct (main_writes_safe_profile _ _ _ _ _ _ _ _ E)
      as (_ & _ & _ & n & b & Hn & Hr & _).
    exists dir, file, profile, n. split; [reflexivity|]. split; [exact Hn | exact Hr].
Defined.

Lemma only_overflow_bind {A B} (r : run A) (k : A -> run B) :
  only_overflow r -> (forall a, only_overflow (k a)) -> only_overflow (r ≫= k).
Proof. destruct r as [a|e|]; simpl; auto. Qed.

Lemma only_overflow_input (lines : list string) : only_overflow (input lines).
Proof. destruct lines; exact I. Qed.

Lemma only_overflow_input_until (ok : string -> bool) (normal : string -> string)
    (lines : list string) : only_overflow (input_until ok normal lines).
Proof.
  induction lines as [|line lines IH]; simpl; [exact I|].
  destruct (ok (normal line)); [exact I | exact IH].
Qed.

Lemma only_overflow_input_material (lines : list string) :
  only_overflow (input_material lines).
Proof.
  induction lines as [|line lines IH]; simpl; [exact I|].
  destruct (MATERIALS !! lower (strip line)); [exact I | exact IH].
Qed.

Lemma only_overflow_parse (raw : string) (fallback : Z) :
  only_overflow (of_result (parse_temp_hint raw fallback)).
Proof.
  destruct (parse_temp_hint_outcomes raw fallback) as [[z ->] | ->];
    [exact I | reflexivity].
Qed.

Lemma only_overflow_tune (base : MaterialPreset) (req : Z) :
  only_overflow (of_result (ai_tune_filament base req)).
Proof.
  destruct (ai_tune_filament base req) as [t|e] eqn:E; [exact I|].
  exact (ai_tune_filament_raises base req e E).
Qed.

Ltac overflow_step :=
  first
    [ exact I
    | apply only_overflow_input
    | apply only_overflow_input_until
    | apply only_overflow_input_material
    | apply only_overflow_parse
    | apply only_overflow_tune
    | apply only_overflow_bind; [|intros ?]
    | match goal with
      | a : (_ * _)%type |- _ => destruct a
      | |- only_overflow (if ?b then _ else _) => destruct b
      | |- only_overflow (match ?o with Some _ => _ | None => _ end) => destruct o
      end ].

(** Without the LLM, a run of [main] writes a profile, or stops at the end
    of the input, or stops on the [OverflowError] of the hint parser:
    no other exception comes out of it. *)
Theorem main_offline_outcomes
    (post : string -> result string) (json_loads : string -> loads_result)
    (str_of_float : float -> string) (args : Args) (lines : list string) :
  arg_use_ollama args = false ->
  only_overflow (main post json_loads str_of_float args lines).
Proof.
  intros Hoff. unfold main. rewrite Hoff.
  repeat overflow_step.
Qed.

Lemma main_offline_outcomes_witness :
  main (fun _ => Raise (RuntimeError "offline")) (fun _ => JSONDecodeError) (fun _ => "0.0")
    {| arg_name := Some "Big"; arg_material := Some "pla";
       arg_pressure_advance := None; arg_ai_new := false;
       arg_use_ollama := false; arg_output := "out" |}
    ["1" ++ zeros 309 ++ "-0"]
  = Failed OverflowError.
Proof.
  pose proof (main_offline_outcomes
                (fun _ => Raise (RuntimeError "offline")) (fun _ => JSONDecodeError)
                (fun _ => "0.0")
                {| arg_name := Some "Big"; arg_material := Some "pla";
                   arg_pressure_advance := None; arg_ai_new := false;
                   arg_use_ollama := false; arg_output := "out" |}
                ["1" ++ zeros 309 ++ "-0"] eq_refl) as H.
  destruct (main _ _ _ _ _) as [w|e|] eqn:E.
  - vm_compute in E. discriminate.
  - simpl in H. rewrite H. reflexivity.
  - vm_compute in E. discriminate.
Defined.

(** ** The hint parser and the cooling preference, as [main] uses them *)

(** The hint parser returns an integer for every text and fallback, except
    that it lets [OverflowError] through: no other exception leaves it. *)
Theorem parse_temp_hint_only_overflow (raw : string) (fallback : Z) :
  match parse_temp_hint raw fallback with
  | Ok _ => True
  | Raise e => e = OverflowError
  end.
Proof.
  destruct (parse_temp_hint_outcomes raw fallback) as [[z ->] | ->];
    [exact I | reflexivity].
Qed.

(** [main] hands the generators one of "low", "medium" and "high",
    whatever was typed, so that the pressure advance of the heuristic preset
    it asks for is 0.0 for "high" and 0.02 for the other two. *)
Theorem main_fan_pref_known (entered : string) :
  let fan_pref := main_fan_pref entered in
  (fan_pref = "low" \/ fan_pref = "medium" \/ fan_pref = "high") /\
  forall name nozzle_hint bed_hint,
    default_pressure_advance
      (ai_generate_material_preset name nozzle_hint bed_hint fan_pref)
    = if String.eqb fan_pref "high" then lit 0 1 else lit 2 100.
Proof.
  cbv zeta. split; [apply main_fan_pref_cases|].
  intros name nozzle_hint bed_hint. rewrite heuristic_pressure_advance.
  destruct (main_fan_pref_cases entered) as [-> | [-> | ->]]; reflexivity.
Qed.

(** An override of 0.5 comes down to 0.2 and enables pressure advance; NaN
    becomes 0.0 and does not. *)
Lemma pressure_override_flag_witness :
  p_enable_pressure_advance
    (build_filament_profile (fun _ => "0.2") petg_tuned
       (pressure_eff (Some (lit 5 10)) petg_tuned) "PETG") = ["1"] /\
  pressure_eff (Some FNaN) petg_tuned = lit 0 1.
Proof.
  split.
  - destruct (pressure_override_flag (fun _ => "0.2") petg_tuned (lit 5 10) "PETG")
      as (_ & _ & H).
    apply H. reflexivity.
  - destruct (pressure_override_flag (fun _ => "0.0") petg_tuned FNaN "PETG")
      as (_ & H & _).
    apply H. reflexivity.
Defined.
